(** * AI-TUTOR-PRO: session lifecycle and request orchestration

    A shallow embedding of the client-side session manager
    ([src/context/AuthContext.tsx]) and of the two problem-input screens
    ([src/components/TutorComponent.tsx], [src/pages/Index.tsx]), followed by
    the properties of the specification that concern them.

    Layout:
    - [Js]             the runtime values the handlers manipulate: JSON
                       payloads, truthiness, string conversion, property
                       access, [JSON.stringify], [JSON.parse], exceptions;
    - [Http]           what an awaited [fetch] can deliver;
    - [AuthContext]    [localStorage] and the [AuthProvider] operations;
    - [TutorComponent] the tutor screen's state, handlers and events;
    - [Index]          the OCR page's state, handlers and events;
    - [Router], [ProtectedRoute], [Home], [Login]
                       the guard of the protected pages and the two ways
                       to the login page;
    - [Api], [MistakeDiagnosis]
                       the diagnosis panel of the OCR page;
    - [Xp], [Practice] the XP cells, the practice panel, submissions and
                       learning aids of the tutor screen;
    - [Chat]           the chat page;
    - [Camera]         the camera input of the tutor screen;
    - the theorems: those of the specification first, then further
      properties of the same code and of its callers. *)

From Stdlib Require Import ZArith Ascii String List Bool Lia.
From stdpp Require Import base tactics option list gmap strings pretty.

Set Warnings "-register-all".

Local Open Scope string_scope.
Local Open Scope Z_scope.

(* ===================================================================== *)
(** * Runtime values *)
(* ===================================================================== *)

Module Js.

(** A value as [response.json()] or [JSON.parse] delivers it, plus
    [undefined], which a property read produces.  A number [JNum m e]
    stands for the decimal [m * 10^e]; the rounding of decimals to binary64
    and the exponent notation that very large and very small numbers print
    with are not represented.  Strings are sequences of bytes (UTF-8). *)
Inductive JsValue : Type :=
| JUndefined
| JNull
| JBool (b : bool)
| JNum (m e : Z)
| JStr (s : string)
| JArr (items : list JsValue)
| JObj (members : list (string * JsValue)).

(** ** Exceptions *)

(** A thrown [Error] object; only its [message] is ever read. *)
Record JsError : Type := mkError { message : string }.

(** The outcome of evaluating a block: a value, or a thrown error. *)
Inductive Completion (A : Type) : Type :=
| Normal (a : A)
| Throw (err : JsError).
Arguments Normal {A} a.
Arguments Throw {A} err.

Definition bind {A B} (c : Completion A) (k : A -> Completion B) : Completion B :=
  match c with
  | Normal a => k a
  | Throw err => Throw err
  end.

(** ** ToBoolean, the test behind [if], [!], [||] and [&&] *)

Definition ToBoolean (v : JsValue) : bool :=
  match v with
  | JUndefined | JNull => false
  | JBool b => b
  | JNum m _ => negb (m =? 0)
  | JStr s => negb (String.eqb s "")
  | JArr _ | JObj _ => true
  end.

(** [a || b] *)
Definition or_else (a b : JsValue) : JsValue :=
  if ToBoolean a then a else b.

(** ** Number to string *)

Fixpoint zeros (k : nat) : string :=
  match k with
  | O => ""
  | S k' => String "0" (zeros k')
  end.

Definition pad_left (k : nat) (s : string) : string :=
  zeros (k - String.length s) +:+ s.

(** Drops the zeros a string ends with. *)
Fixpoint strip_trailing_zeros (s : string) : string :=
  match s with
  | EmptyString => ""
  | String c r =>
      match strip_trailing_zeros r with
      | EmptyString => if Ascii.eqb c "0" then "" else String c ""
      | r' => String c r'
      end
  end.

Definition Number_toString (m e : Z) : string :=
  if 0 <=? e then pretty (m * 10 ^ e)
  else
    let p := 10 ^ (- e) in
    let a := Z.abs m in
    let sign := if m <? 0 then "-" else "" in
    if a mod p =? 0 then sign +:+ pretty (a / p)
    else sign +:+ pretty (a / p) +:+ "."
           +:+ strip_trailing_zeros (pad_left (Z.to_nat (- e)) (pretty (a mod p))).

(** ** ToString, as template literals, [new Error(v)] and
    [localStorage.setItem(k, v)] apply it *)

Fixpoint ToString (v : JsValue) : string :=
  match v with
  | JUndefined => "undefined"
  | JNull => "null"
  | JBool true => "true"
  | JBool false => "false"
  | JNum m e => Number_toString m e
  | JStr s => s
  | JArr items =>
      (* Array.prototype.join(","): null and undefined print as nothing *)
      (fix join (l : list JsValue) : string :=
         match l with
         | [] => ""
         | x :: r =>
             let sx := match x with
                       | JUndefined | JNull => ""
                       | _ => ToString x
                       end in
             match r with
             | [] => sx
             | _ :: _ => sx +:+ "," +:+ join r
             end
         end) items
  | JObj _ => "[object Object]"
  end.

(** [new Error(v)]: the message is [ToString v] unless [v] is undefined. *)
Definition new_Error (v : JsValue) : JsError :=
  match v with
  | JUndefined => mkError ""
  | _ => mkError (ToString v)
  end.

(** ** Property read [v.k] *)

Fixpoint assoc (k : string) (members : list (string * JsValue)) : JsValue :=
  match members with
  | [] => JUndefined
  | (k', v) :: r => if String.eqb k k' then v else assoc k r
  end.

(** Reading a property of [null] or [undefined] throws a TypeError (the
    message is the engine's); every other value can be read from, and none
    of the property names the handlers use exists on a primitive or on an
    array. *)
Definition getProp (v : JsValue) (k : string) : Completion JsValue :=
  match v with
  | JUndefined =>
      Throw (mkError ("Cannot read properties of undefined (reading '" +:+ k +:+ "')"))
  | JNull =>
      Throw (mkError ("Cannot read properties of null (reading '" +:+ k +:+ "')"))
  | JObj members => Normal (assoc k members)
  | _ => Normal JUndefined
  end.

(** ** Strings: [trim] *)

Definition code (c : ascii) : Z := Z.of_N (N_of_ascii c).

(** The white space and line terminators [String.prototype.trim] removes,
    by the length of their UTF-8 encoding: U+0009..U+000D and U+0020; U+00A0;
    U+1680, U+2000..U+200A, U+2028, U+2029, U+202F, U+205F, U+3000, U+FEFF. *)
Definition ws1 (c : ascii) : bool :=
  ((9 <=? code c) && (code c <=? 13)) || (code c =? 32).

Definition ws2 (c1 c2 : ascii) : bool :=
  (code c1 =? 194) && (code c2 =? 160).

Definition ws3 (c1 c2 c3 : ascii) : bool :=
  ((code c1 =? 225) && (code c2 =? 154) && (code c3 =? 128))
  || ((code c1 =? 226) && (code c2 =? 128)
      && (((128 <=? code c3) && (code c3 <=? 138))
          || (code c3 =? 168) || (code c3 =? 169) || (code c3 =? 175)))
  || ((code c1 =? 226) && (code c2 =? 129) && (code c3 =? 159))
  || ((code c1 =? 227) && (code c2 =? 128) && (code c3 =? 128))
  || ((code c1 =? 239) && (code c2 =? 187) && (code c3 =? 191)).

(** [blank s]: [s] consists of white space only, i.e. [s.trim()] is empty. *)
Fixpoint blank (s : string) : bool :=
  match s with
  | EmptyString => true
  | String c1 r1 =>
      if ws1 c1 then blank r1
      else match r1 with
           | String c2 r2 =>
               if ws2 c1 c2 then blank r2
               else match r2 with
                    | String c3 r3 => if ws3 c1 c2 c3 then blank r3 else false
                    | EmptyString => false
                    end
           | EmptyString => false
           end
  end.

Fixpoint trimStart (s : string) : string :=
  match s with
  | EmptyString => ""
  | String c1 r1 =>
      if ws1 c1 then trimStart r1
      else match r1 with
           | String c2 r2 =>
               if ws2 c1 c2 then trimStart r2
               else match r2 with
                    | String c3 r3 => if ws3 c1 c2 c3 then trimStart r3 else s
                    | EmptyString => s
                    end
           | EmptyString => s
           end
  end.

Fixpoint trimEnd (s : string) : string :=
  match s with
  | EmptyString => ""
  | String c r => if blank s then "" else String c (trimEnd r)
  end.

Definition trim (s : string) : string := trimEnd (trimStart s).

(** [v.trim()] on a runtime value: only strings have the method. *)
Definition call_trim (v : JsValue) : Completion string :=
  match v with
  | JStr s => Normal (trim s)
  | JUndefined =>
      Throw (mkError "Cannot read properties of undefined (reading 'trim')")
  | JNull => Throw (mkError "Cannot read properties of null (reading 'trim')")
  | _ => Throw (mkError "trim is not a function")
  end.

(** ** [JSON.stringify] *)

Definition dquote : ascii := "034".
Definition backslash : ascii := "092".

Definition hex_digit (n : Z) : ascii :=
  if n <? 10 then ascii_of_N (Z.to_N (48 + n)) else ascii_of_N (Z.to_N (87 + n)).

(** QuoteJSONString, one character at a time. *)
Definition quote_char (c : ascii) : string :=
  if Ascii.eqb c dquote then String backslash (String dquote "")
  else if Ascii.eqb c backslash then String backslash (String backslash "")
  else if code c =? 8 then String backslash "b"
  else if code c =? 12 then String backslash "f"
  else if code c =? 10 then String backslash "n"
  else if code c =? 13 then String backslash "r"
  else if code c =? 9 then String backslash "t"
  else if code c <? 32 then
    String backslash
      (String "u" (String "0" (String "0"
         (String (hex_digit (code c / 16)) (String (hex_digit (code c mod 16)) "")))))
  else String c "".

Fixpoint quote_chars (s : string) : string :=
  match s with
  | EmptyString => ""
  | String c r => quote_char c +:+ quote_chars r
  end.

Definition QuoteJSONString (s : string) : string :=
  String dquote (quote_chars s +:+ String dquote "").

(** SerializeJSONProperty without replacer or indentation.  [None] is the
    [undefined] that serialising [undefined] returns; inside an array it
    prints as [null], inside an object the member is left out. *)
Fixpoint SerializeJSONProperty (v : JsValue) : option string :=
  match v with
  | JUndefined => None
  | JNull => Some "null"
  | JBool true => Some "true"
  | JBool false => Some "false"
  | JNum m e => Some (Number_toString m e)
  | JStr s => Some (QuoteJSONString s)
  | JArr items =>
      Some ("[" +:+
        (fix elements (l : list JsValue) : string :=
           match l with
           | [] => ""
           | x :: r =>
               let sx := match SerializeJSONProperty x with
                         | Some t => t
                         | None => "null"
                         end in
               match r with
               | [] => sx
               | _ :: _ => sx +:+ "," +:+ elements r
               end
           end) items +:+ "]")
  | JObj members =>
      Some ("{" +:+
        (fix properties (l : list (string * JsValue)) (first : bool) {struct l}
           : string :=
           match l with
           | [] => ""
           | (k, x) :: r =>
               match SerializeJSONProperty x with
               | Some t =>
                   (if first then "" else ",") +:+ QuoteJSONString k +:+ ":" +:+ t
                     +:+ properties r false
               | None => properties r first
               end
           end) members true +:+ "}")
  end.

Definition JSON_stringify (v : JsValue) : option string := SerializeJSONProperty v.

(** ** [JSON.parse] *)

(** JSON white space: space, tab, line feed, carriage return. *)
Definition json_ws (c : ascii) : bool :=
  (code c =? 32) || (code c =? 9) || (code c =? 10) || (code c =? 13).

Fixpoint skip_ws (s : string) : string :=
  match s with
  | String c r => if json_ws c then skip_ws r else s
  | EmptyString => s
  end.

Definition is_digit (c : ascii) : bool := (48 <=? code c) && (code c <=? 57).

(** Reads the longest run of digits: its value on top of [acc], how many
    digits were read on top of [n], and the rest. *)
Fixpoint read_digits (s : string) (acc : Z) (n : nat) : Z * nat * string :=
  match s with
  | String c r =>
      if is_digit c then read_digits r (acc * 10 + (code c - 48)) (S n)
      else (acc, n, s)
  | EmptyString => (acc, n, s)
  end.

(** A number literal: an optional minus sign; a single zero, or a nonzero
    digit and any digits; optionally a point and at least one digit;
    optionally e or E, an optional sign and at least one digit. *)
Definition parse_number (s : string) : option (JsValue * string) :=
  let '(neg, s1) := match s with
                    | String "-" r => (true, r)
                    | _ => (false, s)
                    end in
  match s1 with
  | String c r =>
      if is_digit c then
        let '(ip, _, s2) := if code c =? 48 then (0, 1%nat, r) else read_digits s1 0 0 in
        let fraction := match s2 with
                        | String "." r2 =>
                            let '(fv, fn, s3) := read_digits r2 0 0 in
                            match fn with
                            | O => None
                            | S _ => Some (fv, fn, s3)
                            end
                        | _ => Some (0, O, s2)
                        end in
        match fraction with
        | None => None
        | Some (fv, fn, s3) =>
            let m0 := ip * 10 ^ Z.of_nat fn + fv in
            let m := if neg : bool then - m0 else m0 in
            let exponent (r3 : string) :=
              let '(eneg, r4) := match r3 with
                                 | String "-" r4 => (true, r4)
                                 | String "+" r4 => (false, r4)
                                 | _ => (false, r3)
                                 end in
              let '(ev, en, s4) := read_digits r4 0 0 in
              match en with
              | O => None
              | S _ =>
                  Some (JNum m ((if eneg : bool then - ev else ev) - Z.of_nat fn), s4)
              end in
            match s3 with
            | String "e" r3 => exponent r3
            | String "E" r3 => exponent r3
            | _ => Some (JNum m (- Z.of_nat fn), s3)
            end
        end
      else None
  | EmptyString => None
  end.

Definition hex_val (c : ascii) : option Z :=
  if is_digit c then Some (code c - 48)
  else if (97 <=? code c) && (code c <=? 102) then Some (code c - 87)
  else if (65 <=? code c) && (code c <=? 70) then Some (code c - 55)
  else None.

Definition hex4 (h1 h2 h3 h4 : ascii) : option Z :=
  match hex_val h1, hex_val h2, hex_val h3, hex_val h4 with
  | Some a, Some b, Some c, Some d => Some (((a * 16 + b) * 16 + c) * 16 + d)
  | _, _, _, _ => None
  end.

Definition byte (n : Z) : ascii := ascii_of_N (Z.to_N n).

(** The UTF-8 encoding of a code point. *)
Definition utf8 (cp : Z) : string :=
  if cp <? 128 then String (byte cp) ""
  else if cp <? 2048 then
    String (byte (192 + cp / 64)) (String (byte (128 + cp mod 64)) "")
  else if cp <? 65536 then
    String (byte (224 + cp / 4096))
      (String (byte (128 + (cp / 64) mod 64)) (String (byte (128 + cp mod 64)) ""))
  else
    String (byte (240 + cp / 262144))
      (String (byte (128 + (cp / 4096) mod 64))
         (String (byte (128 + (cp / 64) mod 64)) (String (byte (128 + cp mod 64)) ""))).

Definition simple_escape (c : ascii) : option ascii :=
  if Ascii.eqb c dquote then Some dquote
  else if Ascii.eqb c backslash then Some backslash
  else if Ascii.eqb c "/" then Some "/"%char
  else if Ascii.eqb c "b" then Some (byte 8)
  else if Ascii.eqb c "f" then Some (byte 12)
  else if Ascii.eqb c "n" then Some (byte 10)
  else if Ascii.eqb c "r" then Some (byte 13)
  else if Ascii.eqb c "t" then Some (byte 9)
  else None.

Definition prepend (p : string) (res : option (string * string))
  : option (string * string) :=
  match res with
  | Some (t, rest) => Some (p +:+ t, rest)
  | None => None
  end.

(** The characters of a string literal after its opening quote, up to and
    including the closing quote: the string denoted, and what follows.  A
    high surrogate escape followed by a low surrogate escape is one code
    point. *)
Fixpoint parse_chars (s : string) : option (string * string) :=
  match s with
  | EmptyString => None
  | String c r =>
      if Ascii.eqb c dquote then Some ("", r)
      else if Ascii.eqb c backslash then
        match r with
        | String esc r' =>
            match simple_escape esc with
            | Some ch => prepend (String ch "") (parse_chars r')
            | None =>
                if Ascii.eqb esc "u" then
                  match r' with
                  | String h1 (String h2 (String h3 (String h4 r''))) =>
                      match hex4 h1 h2 h3 h4 with
                      | Some hi =>
                          let single := prepend (utf8 hi) (parse_chars r'') in
                          if (55296 <=? hi) && (hi <=? 56319) then
                            match r'' with
                            | String b (String u (String l1 (String l2 (String l3
                                (String l4 r3))))) =>
                                if Ascii.eqb b backslash && Ascii.eqb u "u" then
                                  match hex4 l1 l2 l3 l4 with
                                  | Some lo =>
                                      if (56320 <=? lo) && (lo <=? 57343) then
                                        prepend
                                          (utf8 (65536 + (hi - 55296) * 1024 + (lo - 56320)))
                                          (parse_chars r3)
                                      else single
                                  | None => single
                                  end
                                else single
                            | _ => single
                            end
                          else single
                      | None => None
                      end
                  | _ => None
                  end
                else None
            end
        | EmptyString => None
        end
      else if code c <? 32 then None
      else prepend (String c "") (parse_chars r)
  end.

(** A later member with the same name replaces the earlier one. *)
Fixpoint put_member (k : string) (v : JsValue) (members : list (string * JsValue))
  : list (string * JsValue) :=
  match members with
  | [] => [(k, v)]
  | (k', v') :: r =>
      if String.eqb k k' then (k, v) :: r else (k', v') :: put_member k v r
  end.

Definition literal (word : string) (v : JsValue) (s : string)
  : option (JsValue * string) :=
  if String.prefix word s
  then Some (v, String.substring (String.length word) (String.length s) s)
  else None.

(** Recursive descent; every call spends one unit of [fuel].  A value
    nested one level deeper and a further element or member each cost one
    unit and at least one character of the text, so the [2 * length + 2]
    units that [JSON_parse] supplies do not run out. *)
Fixpoint parse_value (fuel : nat) (s : string) : option (JsValue * string) :=
  match fuel with
  | O => None
  | S fuel' =>
      match skip_ws s with
      | EmptyString => None
      | String c r =>
          if Ascii.eqb c "{" then
            match skip_ws r with
            | String "}" r' => Some (JObj [], r')
            | _ => parse_members fuel' r []
            end
          else if Ascii.eqb c "[" then
            match skip_ws r with
            | String "]" r' => Some (JArr [], r')
            | _ => parse_elements fuel' r []
            end
          else if Ascii.eqb c dquote then
            match parse_chars r with
            | Some (t, rest) => Some (JStr t, rest)
            | None => None
            end
          else if Ascii.eqb c "t" then literal "true" (JBool true) (String c r)
          else if Ascii.eqb c "f" then literal "false" (JBool false) (String c r)
          else if Ascii.eqb c "n" then literal "null" JNull (String c r)
          else parse_number (String c r)
      end
  end
with parse_elements (fuel : nat) (s : string) (acc : list JsValue)
  : option (JsValue * string) :=
  match fuel with
  | O => None
  | S fuel' =>
      match parse_value fuel' s with
      | Some (v, s1) =>
          match skip_ws s1 with
          | String "," s2 => parse_elements fuel' s2 (acc ++ [v])
          | String "]" s2 => Some (JArr (acc ++ [v]), s2)
          | _ => None
          end
      | None => None
      end
  end
with parse_members (fuel : nat) (s : string) (acc : list (string * JsValue))
  : option (JsValue * string) :=
  match fuel with
  | O => None
  | S fuel' =>
      match skip_ws s with
      | String c r =>
          if Ascii.eqb c dquote then
            match parse_chars r with
            | Some (k, s1) =>
                match skip_ws s1 with
                | String ":" s2 =>
                    match parse_value fuel' s2 with
                    | Some (v, s3) =>
                        match skip_ws s3 with
                        | String "," s4 => parse_members fuel' s4 (put_member k v acc)
                        | String "}" s4 => Some (JObj (put_member k v acc), s4)
                        | _ => None
                        end
                    | None => None
                    end
                | _ => None
                end
            | None => None
            end
          else None
      | EmptyString => None
      end
  end.

(** [JSON.parse(text)]; [None] is the SyntaxError it throws. *)
Definition JSON_parse (text : string) : option JsValue :=
  match parse_value (2 * String.length text + 2) text with
  | Some (v, rest) =>
      match skip_ws rest with
      | EmptyString => Some v
      | String _ _ => None
      end
  | None => None
  end.

(** ** Sequencing of blocks that may throw *)

#[global] Instance Completion_ret : MRet Completion := @Normal.
#[global] Instance Completion_bind : MBind Completion :=
  fun A B k c => bind c k.

(** [a || b] where evaluating [b] may throw: [b] is evaluated only when [a]
    is falsy. *)
Definition or_elseM (a : JsValue) (b : Completion JsValue) : Completion JsValue :=
  if ToBoolean a then Normal a else b.

(** [error.message || fallback] *)
Definition message_or (err : JsError) (fallback : string) : string :=
  if String.eqb (message err) "" then fallback else message err.

End Js.

(* ===================================================================== *)
(** * What an awaited request delivers *)
(* ===================================================================== *)

Module Http.
Import Js.

(** A response: its status line, and what [await response.json()] yields,
    the body as a value or the SyntaxError of a body that is not JSON. *)
Record Response : Type := mkResponse {
  status : Z;
  json : Completion JsValue
}.

(** [response.ok] *)
Definition ok (r : Response) : bool := (200 <=? status r) && (status r <=? 299).

(** [await fetch(...)] either rejects (the network failed) or resolves with
    a response, whatever its status. *)
Inductive FetchResult : Type :=
| Rejected (err : JsError)
| Resolved (response : Response).

Definition await (res : FetchResult) : Completion Response :=
  match res with
  | Rejected err => Throw err
  | Resolved response => Normal response
  end.

End Http.

(* ===================================================================== *)
(** * src/context/AuthContext.tsx *)
(* ===================================================================== *)

Module AuthContext.
Import Js Http.

(** ** [localStorage] *)

Abbreviation Storage := (gmap string string).

Definition getItem (k : string) (st : Storage) : option string := st !! k.
Definition setItem (k v : string) (st : Storage) : Storage := <[k := v]> st.
Definition removeItem (k : string) (st : Storage) : Storage := delete k st.

(** A [getItem] result used as a condition: [null] and the empty string are
    falsy. *)
Definition present (item : option string) : bool :=
  match item with
  | Some s => negb (String.eqb s "")
  | None => false
  end.

(** ** The provider's state *)

(** The four [useState] cells of [AuthProvider].  [user] and [token] hold
    [JNull] for [null]; what is put in them comes from [JSON.parse] and from
    the login response, so they are runtime values. *)
Record Session : Type := mkSession {
  user : JsValue;
  isLoggedIn : bool;
  isLoading : bool;
  token : JsValue
}.

Definition setUser (v : JsValue) (s : Session) : Session :=
  mkSession v (isLoggedIn s) (isLoading s) (token s).
Definition setIsLoggedIn (b : bool) (s : Session) : Session :=
  mkSession (user s) b (isLoading s) (token s).
Definition setIsLoading (b : bool) (s : Session) : Session :=
  mkSession (user s) (isLoggedIn s) b (token s).
Definition setToken (v : JsValue) (s : Session) : Session :=
  mkSession (user s) (isLoggedIn s) (isLoading s) v.

(** The initial values of the cells, at every mount (page load). *)
Definition mount : Session := mkSession JNull false true JNull.

(** The browser side of the provider: persistent storage and the cells. *)
Record World : Type := mkWorld {
  storage : Storage;
  session : Session
}.

Definition onStorage (f : Storage -> Storage) (w : World) : World :=
  mkWorld (f (storage w)) (session w).
Definition onSession (f : Session -> Session) (w : World) : World :=
  mkWorld (storage w) (f (session w)).

(** The three removals and three resets that the catch blocks of the
    initial effect and of [login] both perform. *)
Definition clearSession (w : World) : World :=
  onSession (setIsLoggedIn false)
    (onSession (setToken JNull)
       (onSession (setUser JNull)
          (onStorage (removeItem "isLoggedIn")
             (onStorage (removeItem "token")
                (onStorage (removeItem "user") w))))).

(** ** The effect that checks the auth status on initial load *)

Definition initialize (w : World) : World :=
  let storedUser := getItem "user" (storage w) in
  let storedToken := getItem "token" (storage w) in
  let storedIsLoggedIn :=
    bool_decide (getItem "isLoggedIn" (storage w) = Some "true") in
  onSession (setIsLoading false)
    (if storedIsLoggedIn && present storedUser && present storedToken then
       match JSON_parse (default "" storedUser) with
       | Some parsed =>
           onSession (setIsLoggedIn true)
             (onSession (setToken (JStr (default "" storedToken)))
                (onSession (setUser parsed) w))
       | None => clearSession w
       end
     else w).

(** ** [login] *)

(** The form the login request carries. *)
Record LoginRequest : Type := mkLoginRequest {
  username : JsValue;
  password : JsValue;
  grant_type : string
}.

(** Up to the [await]: the loading flag is raised and the request leaves. *)
Definition login_begin (email pass : JsValue) (w : World) : World * LoginRequest :=
  (onSession (setIsLoading true) w, mkLoginRequest email pass "password").

(** The body of the [try] block from the [await] to the check of the
    response: what the following statements store, or the error thrown. *)
Definition login_try (res : FetchResult) : Completion (JsValue * JsValue) :=
  response ← await res;
  data ← json response;
  failed ←
    (if negb (ok response) then Normal true
     else access_token ← getProp data "access_token";
          if negb (ToBoolean access_token) then Normal true
          else u ← getProp data "user"; Normal (negb (ToBoolean u)));
  if failed : bool then
    detail ← getProp data "detail";
    errorMsg ← or_elseM detail
      (error ← getProp data "error";
       Normal (or_else error
                 (JStr ("Login failed (status " +:+ pretty (status response) +:+ ")"))));
    Throw (new_Error errorMsg)
  else
    u ← getProp data "user";
    name ← getProp u "name";
    email ← getProp u "email";
    access_token ← getProp data "access_token";
    Normal (JObj [("name", name); ("email", email)], access_token).

(** From the [await] on: the outcome for the caller, and the world left
    behind. *)
Definition login_settle (res : FetchResult) (w : World) : World * Completion unit :=
  match login_try res with
  | Normal (userData, access_token) =>
      let w1 := onStorage (setItem "user" (default "undefined" (JSON_stringify userData))) w in
      let w2 := onStorage (setItem "token" (ToString access_token)) w1 in
      let w3 := onStorage (setItem "isLoggedIn" "true") w2 in
      let w4 := onSession (setUser userData) w3 in
      let w5 := onSession (setToken access_token) w4 in
      let w6 := onSession (setIsLoggedIn true) w5 in
      (onSession (setIsLoading false) w6, Normal tt)
  | Throw error =>
      (onSession (setIsLoading false) (clearSession w), Throw error)
  end.

Definition login (email pass : JsValue) (res : FetchResult) (w : World)
  : World * Completion unit :=
  login_settle res (fst (login_begin email pass w)).

(** ** [logout] *)

Inductive Navigation : Type := navigate (path : string).

Definition logout (w : World) : World * Navigation :=
  let w1 := onStorage (removeItem "user") w in
  let w2 := onStorage (removeItem "token") w1 in
  let w3 := onStorage (removeItem "isLoggedIn") w2 in
  let w4 := onStorage (removeItem "userName") w3 in
  let w5 := onStorage (removeItem "userEmail") w4 in
  let w6 := onSession (setUser JNull) w5 in
  let w7 := onSession (setToken JNull) w6 in
  (onSession (setIsLoggedIn false) w7, navigate "/login").

(** ** [getAuthHeader] *)

Definition getAuthHeader (w : World) : list (string * string) :=
  match getItem "token" (storage w) with
  | Some currentToken =>
      if String.eqb currentToken "" then []
      else [("Authorization", "Bearer " +:+ currentToken)]
  | None => []
  end.

(** ** Runs of the session manager *)

(** What can happen to the provider: the page is (re)loaded, which mounts
    the provider afresh over the storage as it is and runs the initial
    effect; login is called and runs up to its [await]; the response of a
    login call arrives and the call runs to its end; logout is called. *)
Inductive Op : Type :=
| Reload
| LoginCalled (email pass : JsValue)
| LoginArrived (res : FetchResult)
| Logout.

Definition step (w : World) (op : Op) : World :=
  match op with
  | Reload => initialize (mkWorld (storage w) mount)
  | LoginCalled email pass => fst (login_begin email pass w)
  | LoginArrived res => fst (login_settle res w)
  | Logout => fst (logout w)
  end.

Definition run (w : World) (ops : list Op) : World := fold_left step ops w.

End AuthContext.

(* ===================================================================== *)
(** * What a handler does besides updating state *)
(* ===================================================================== *)

Module Browser.
Import Js.

(** A [File] of a file input, as far as the handlers look at it. *)
Record File : Type := mkFile {
  name : string;
  type : string;
  size : Z
}.

Inductive Variant : Type := default_variant | destructive.

(** The argument of [toast]. *)
Record Toast : Type := mkToast {
  title : string;
  description : string;
  variant : Variant
}.

Inductive QueryType : Type := why | how.

(** The requests of the orchestration pipeline, by endpoint, with what their
    bodies carry.  [solve_text] and [explain_step] are sent as JSON together
    with the header [getAuthHeader] builds; [upload_image] is a multipart
    form with the file. *)
Inductive Request : Type :=
| upload_image (file : File)
| solve_text (question_text : JsValue)
| explain_step (problem_text all_steps step_number_to_explain : JsValue)
    (query_type : QueryType).

(** Effects in the order the handler causes them.  [award_xp] stands for the
    experience-point block that follows a response carrying [updated_xp]; it
    touches only the XP cells, which are not part of the state below. *)
Inductive Effect : Type :=
| toast (t : Toast)
| fetch (r : Request)
| readAsDataURL (file : File)
| clear_file_input
| award_xp (updated_xp : JsValue).

(** The requests among the effects. *)
Fixpoint requests (effects : list Effect) : list Request :=
  match effects with
  | [] => []
  | fetch r :: rest => r :: requests rest
  | _ :: rest => requests rest
  end.

Definition allowedTypes : list string :=
  ["image/jpeg"; "image/png"; "application/pdf"].

(** [allowedTypes.includes(t)] *)
Definition includes (l : list string) (t : string) : bool :=
  existsb (String.eqb t) l.

(** 10 * 1024 * 1024 *)
Definition maxSize : Z := 10 * 1024 * 1024.

Definition is_undefined (v : JsValue) : bool :=
  match v with
  | JUndefined => true
  | _ => false
  end.

(** [v === "success"] and the like. *)
Definition is_string (v : JsValue) (s : string) : bool :=
  match v with
  | JStr t => String.eqb t s
  | _ => false
  end.

End Browser.

(* ===================================================================== *)
(** * src/components/TutorComponent.tsx *)
(* ===================================================================== *)

Module TutorComponent.
Import Js Http Browser.

(** One record of the [StepExplanation] object.  A record spread from a
    missing one has no [explanation] and no [queryType]. *)
Record Explanation : Type := mkExplanation {
  explanation : JsValue;
  isLoading : bool;
  error : option string;
  queryType : option QueryType
}.

(** The cells of the component that the solve, explain and upload handlers
    read and write.  [problemInput] and [solution] receive what a response
    carries as it comes, so they hold runtime values ([JNull] for [null]).
    [stepExplanations] is keyed by property name, which for a step number is
    its decimal text.  The cells of voice and camera input, practice
    problems, learning aids, graphing, XP and bookmarks belong to other
    handlers. *)
Record State : Type := mkState {
  problemInput : JsValue;
  solution : JsValue;
  stepExplanations : gmap string Explanation;
  isLoadingSolution : bool;
  solutionError : option string;
  selectedFile : option File;
  imagePreviewUrl : option string;
  loadingOcr : bool;
  ocrApiError : option string
}.

Definition setProblemInput (v : JsValue) (s : State) : State :=
  mkState v (solution s) (stepExplanations s) (isLoadingSolution s)
    (solutionError s) (selectedFile s) (imagePreviewUrl s) (loadingOcr s)
    (ocrApiError s).
Definition setSolution (v : JsValue) (s : State) : State :=
  mkState (problemInput s) v (stepExplanations s) (isLoadingSolution s)
    (solutionError s) (selectedFile s) (imagePreviewUrl s) (loadingOcr s)
    (ocrApiError s).
Definition setStepExplanations
  (f : gmap string Explanation -> gmap string Explanation) (s : State) : State :=
  mkState (problemInput s) (solution s) (f (stepExplanations s))
    (isLoadingSolution s) (solutionError s) (selectedFile s) (imagePreviewUrl s)
    (loadingOcr s) (ocrApiError s).
Definition setIsLoadingSolution (b : bool) (s : State) : State :=
  mkState (problemInput s) (solution s) (stepExplanations s) b
    (solutionError s) (selectedFile s) (imagePreviewUrl s) (loadingOcr s)
    (ocrApiError s).
Definition setSolutionError (e : option string) (s : State) : State :=
  mkState (problemInput s) (solution s) (stepExplanations s)
    (isLoadingSolution s) e (selectedFile s) (imagePreviewUrl s) (loadingOcr s)
    (ocrApiError s).
Definition setSelectedFile (f : option File) (s : State) : State :=
  mkState (problemInput s) (solution s) (stepExplanations s)
    (isLoadingSolution s) (solutionError s) f (imagePreviewUrl s) (loadingOcr s)
    (ocrApiError s).
Definition setImagePreviewUrl (u : option string) (s : State) : State :=
  mkState (problemInput s) (solution s) (stepExplanations s)
    (isLoadingSolution s) (solutionError s) (selectedFile s) u (loadingOcr s)
    (ocrApiError s).
Definition setLoadingOcr (b : bool) (s : State) : State :=
  mkState (problemInput s) (solution s) (stepExplanations s)
    (isLoadingSolution s) (solutionError s) (selectedFile s) (imagePreviewUrl s)
    b (ocrApiError s).
Definition setOcrApiError (e : option string) (s : State) : State :=
  mkState (problemInput s) (solution s) (stepExplanations s)
    (isLoadingSolution s) (solutionError s) (selectedFile s) (imagePreviewUrl s)
    (loadingOcr s) e.

(** The cells as [useState] initialises them. *)
Definition initial : State :=
  mkState (JStr "") JNull ∅ false None None None false None.

(** ** [resetUploadState] *)

(** The file input is mounted with the component, so its value is always
    cleared. *)
Definition resetUploadState (s : State) : State * list Effect :=
  (setOcrApiError None
     (setLoadingOcr false (setImagePreviewUrl None (setSelectedFile None s))),
   [clear_file_input]).

(** ** [handleGenerateSolution] *)

(** Up to the [await].  The guard stands outside the [try]: when
    [problemInput] has no [trim] the call ends there with nothing done. *)
Definition handleGenerateSolution_begin (s : State) : State * list Effect :=
  match call_trim (problemInput s) with
  | Throw _ => (s, [])
  | Normal trimmed =>
      if String.eqb trimmed "" then
        (s, [toast (mkToast "Error"
                      "Problem text is empty. Enter, upload, or draw a problem first."
                      destructive)])
      else
        (setSolutionError None
           (setStepExplanations (fun _ => ∅)
              (setSolution JNull (setIsLoadingSolution true s))),
         [fetch (solve_text (problemInput s))])
  end.

(** The [try] block from the [await] to [setSolution(data)]: the data, or
    the error thrown. *)
Definition handleGenerateSolution_try (res : FetchResult) : Completion JsValue :=
  response ← await res;
  data ← json response;
  if negb (ok response) then
    error ← getProp data "error";
    errorMsg ← or_elseM error
      (detail ← getProp data "detail";
       Normal (or_else
                 (if ToBoolean detail
                  then JStr (default "undefined" (JSON_stringify detail))
                  else JNull)
                 (JStr ("HTTP error! status: " +:+ pretty (status response)))));
    Throw (new_Error errorMsg)
  else
    error ← getProp data "error";
    if ToBoolean error then Throw (new_Error error) else Normal data.

(** The XP block after a response whose data has been read from already
    (so it is neither [null] nor [undefined]). *)
Definition xp_effects (data : JsValue) : list Effect :=
  match getProp data "updated_xp" with
  | Normal updated_xp => if is_undefined updated_xp then [] else [award_xp updated_xp]
  | Throw _ => []
  end.

(** From the [await] on. *)
Definition handleGenerateSolution_settle (res : FetchResult) (s : State)
  : State * list Effect :=
  match handleGenerateSolution_try res with
  | Normal data =>
      (setIsLoadingSolution false (setSolution data s),
       toast (mkToast "Solution Generated" "See the results below." default_variant)
         :: xp_effects data)
  | Throw error =>
      let errorMsg := message_or error "Failed to connect to the solver service." in
      (setIsLoadingSolution false
         (setSolution JNull (setSolutionError (Some ("Solver Error: " +:+ errorMsg)) s)),
       [toast (mkToast "Solving Failed" errorMsg destructive)])
  end.

(** ** [handleExplainStep] *)

(** [{ ...prev[stepNumber] }] *)
Definition spread (prev : option Explanation) : Explanation :=
  match prev with
  | Some record => record
  | None => mkExplanation JUndefined false None None
  end.

(** The property name a step number selects. *)
Definition key (stepNumber : JsValue) : string := ToString stepNumber.

(** The three updates of the record of one step. *)
Definition mark_loading (stepNumber : JsValue) (q : QueryType)
  (prev : gmap string Explanation) : gmap string Explanation :=
  let old := spread (prev !! key stepNumber) in
  <[key stepNumber := mkExplanation (explanation old) true None (Some q)]> prev.

Definition mark_explained (stepNumber text : JsValue)
  (prev : gmap string Explanation) : gmap string Explanation :=
  let old := spread (prev !! key stepNumber) in
  <[key stepNumber := mkExplanation text false None (queryType old)]> prev.

Definition mark_failed (stepNumber : JsValue) (msg : string)
  (prev : gmap string Explanation) : gmap string Explanation :=
  let old := spread (prev !! key stepNumber) in
  <[key stepNumber := mkExplanation (explanation old) false (Some msg) (queryType old)]> prev.

(** The body of the request, built from the solution and the input of the
    render the button belongs to. *)
Definition explain_request (stepNumber : JsValue) (q : QueryType) (s : State)
  : Completion Request :=
  original_problem ← getProp (solution s) "original_problem";
  steps ← getProp (solution s) "steps";
  Normal (explain_step (or_else original_problem (problemInput s)) steps stepNumber q).

(** Up to the [await]. *)
Definition handleExplainStep_begin (stepNumber : JsValue) (q : QueryType) (s : State)
  : State * list Effect :=
  if negb (ToBoolean (solution s)) then (s, [])
  else
    let s1 := setStepExplanations (mark_loading stepNumber q) s in
    match explain_request stepNumber q s with
    | Normal r => (s1, [fetch r])
    | Throw error =>
        let msg := message_or error "Failed to get explanation." in
        (setStepExplanations (mark_failed stepNumber msg) s1,
         [toast (mkToast ("Error Explaining Step " +:+ ToString stepNumber) msg
                   destructive)])
    end.

(** The [try] block from the [await] to the update of the record: the data
    and its [explanation], or the error thrown. *)
Definition handleExplainStep_try (res : FetchResult)
  : Completion (JsValue * JsValue) :=
  response ← await res;
  data ← json response;
  error ← getProp data "error";
  if negb (ok response) || ToBoolean error then
    errorMsg ← or_elseM error
      (detail ← getProp data "detail";
       Normal (or_else detail
                 (JStr ("HTTP error! status: " +:+ pretty (status response)))));
    Throw (new_Error errorMsg)
  else
    text ← getProp data "explanation";
    Normal (data, text).

(** From the [await] on; the updates apply to the records as they are when
    the response arrives. *)
Definition handleExplainStep_settle (stepNumber : JsValue) (res : FetchResult)
  (s : State) : State * list Effect :=
  match handleExplainStep_try res with
  | Normal (data, text) =>
      (setStepExplanations (mark_explained stepNumber text) s, xp_effects data)
  | Throw error =>
      let msg := message_or error "Failed to get explanation." in
      (setStepExplanations (mark_failed stepNumber msg) s,
       [toast (mkToast ("Error Explaining Step " +:+ ToString stepNumber) msg
                 destructive)])
  end.

(** ** [onFileChange] *)

(** [file] is [e.target.files?.[0] ?? null].  The preview of an image
    arrives later, when the reader started here has loaded it. *)
Definition onFileChange (file : option File) (s : State) : State * list Effect :=
  match file with
  | None => resetUploadState s
  | Some f =>
      if negb (includes allowedTypes (type f)) then
        let '(s', effects) := resetUploadState s in
        (s', toast (mkToast "Invalid file type" "Please upload JPG, PNG, or PDF."
                      destructive) :: effects)
      else if maxSize <? size f then
        let '(s', effects) := resetUploadState s in
        (s', toast (mkToast "File too large" "Max 10MB." destructive) :: effects)
      else
        let s1 := setSelectedFile (Some f)
                    (setOcrApiError None
                       (setSolutionError None
                          (setStepExplanations (fun _ => ∅) (setSolution JNull s)))) in
        if negb (String.eqb (type f) "application/pdf") then (s1, [readAsDataURL f])
        else (setImagePreviewUrl None s1, [])
  end.

(** [reader.onloadend] *)
Definition onloadend (result : option string) (s : State) : State * list Effect :=
  (setImagePreviewUrl result s, []).

(** ** [extractQuestion] *)

(** Up to the [await]. *)
Definition extractQuestion_begin (s : State) : State * list Effect :=
  match selectedFile s with
  | None =>
      (s, [toast (mkToast "No file selected" "Please select an image or PDF."
                    destructive)])
  | Some f =>
      (setOcrApiError None
         (setSolutionError None
            (setStepExplanations (fun _ => ∅)
               (setSolution JNull (setProblemInput (JStr "") (setLoadingOcr true s))))),
       [fetch (upload_image f)])
  end.

(** The [try] block from the [await] to [setProblemInput(extracted)]: the
    extracted text, or the error thrown. *)
Definition extractQuestion_try (res : FetchResult) : Completion JsValue :=
  response ← await res;
  data ← json response;
  if negb (ok response) then
    detail ← getProp data "detail";
    errorMsg ← or_elseM detail
      (error ← getProp data "error";
       Normal (or_else error
                 (JStr ("HTTP error! status: " +:+ pretty (status response)))));
    Throw (new_Error errorMsg)
  else
    st ← getProp data "status";
    extracted_text ← getProp data "extracted_text";
    if is_string st "success" && negb (is_undefined extracted_text) then
      Normal (or_else extracted_text (JStr ""))
    else
      error ← getProp data "error";
      Throw (new_Error (or_else error (JStr "OCR failed. No text extracted."))).

(** From the [await] on. *)
Definition extractQuestion_settle (res : FetchResult) (s : State)
  : State * list Effect :=
  match extractQuestion_try res with
  | Normal extracted =>
      let '(s', effects) := resetUploadState (setProblemInput extracted s) in
      (setLoadingOcr false s',
       toast (mkToast "Text Extracted"
                (if ToBoolean extracted then "Review text in the input area below."
                 else "No text found in image.")
                default_variant) :: effects)
  | Throw error =>
      let errorMsg := message_or error "Failed to connect to the OCR service." in
      (setLoadingOcr false
         (setProblemInput (JStr "") (setOcrApiError (Some errorMsg) s)),
       [toast (mkToast "OCR Failed" errorMsg destructive)])
  end.

(** ** The text area and the Clear Selection button *)

Definition onChange (value : string) (s : State) : State * list Effect :=
  (setProblemInput (JStr value) s, []).

Definition clearSelection (s : State) : State * list Effect :=
  let '(s', effects) := resetUploadState s in
  (setProblemInput (JStr "") s', effects).

(** ** Events *)

(** What the event loop can run on the component: a user action, or the
    continuation of a handler when the response it awaits arrives.  Between
    the two halves of a handler any other event may run. *)
Inductive Event : Type :=
| Typed (value : string)
| FileChosen (file : option File)
| PreviewLoaded (result : option string)
| ClearSelectionClicked
| ExtractClicked
| ExtractArrived (res : FetchResult)
| SolveClicked
| SolveArrived (res : FetchResult)
| ExplainClicked (stepNumber : JsValue) (q : QueryType)
| ExplainArrived (stepNumber : JsValue) (res : FetchResult).

Definition handle (ev : Event) (s : State) : State * list Effect :=
  match ev with
  | Typed value => onChange value s
  | FileChosen file => onFileChange file s
  | PreviewLoaded result => onloadend result s
  | ClearSelectionClicked => clearSelection s
  | ExtractClicked => extractQuestion_begin s
  | ExtractArrived res => extractQuestion_settle res s
  | SolveClicked => handleGenerateSolution_begin s
  | SolveArrived res => handleGenerateSolution_settle res s
  | ExplainClicked stepNumber q => handleExplainStep_begin stepNumber q s
  | ExplainArrived stepNumber res => handleExplainStep_settle stepNumber res s
  end.

(** The state after a sequence of events, and everything they caused. *)
Fixpoint run (events : list Event) (s : State) : State * list Effect :=
  match events with
  | [] => (s, [])
  | ev :: rest =>
      let '(s1, effects1) := handle ev s in
      let '(s2, effects2) := run rest s1 in
      (s2, (effects1 ++ effects2)%list)
  end.

End TutorComponent.

(* ===================================================================== *)
(** * src/pages/Index.tsx *)
(* ===================================================================== *)

Module Index.
Import Js Http Browser.

(** The cells of the page; [ocrText] and [solveResult] receive what a
    response carries as it comes. *)
Record State : Type := mkState {
  selectedFile : option File;
  imagePreviewUrl : option string;
  ocrText : JsValue;
  loadingOcr : bool;
  loadingSolve : bool;
  solveResult : JsValue;
  apiError : option string
}.

Definition setSelectedFile (f : option File) (s : State) : State :=
  mkState f (imagePreviewUrl s) (ocrText s) (loadingOcr s) (loadingSolve s)
    (solveResult s) (apiError s).
Definition setImagePreviewUrl (u : option string) (s : State) : State :=
  mkState (selectedFile s) u (ocrText s) (loadingOcr s) (loadingSolve s)
    (solveResult s) (apiError s).
Definition setOcrText (v : JsValue) (s : State) : State :=
  mkState (selectedFile s) (imagePreviewUrl s) v (loadingOcr s) (loadingSolve s)
    (solveResult s) (apiError s).
Definition setLoadingOcr (b : bool) (s : State) : State :=
  mkState (selectedFile s) (imagePreviewUrl s) (ocrText s) b (loadingSolve s)
    (solveResult s) (apiError s).
Definition setLoadingSolve (b : bool) (s : State) : State :=
  mkState (selectedFile s) (imagePreviewUrl s) (ocrText s) (loadingOcr s) b
    (solveResult s) (apiError s).
Definition setSolveResult (v : JsValue) (s : State) : State :=
  mkState (selectedFile s) (imagePreviewUrl s) (ocrText s) (loadingOcr s)
    (loadingSolve s) v (apiError s).
Definition setApiError (e : option string) (s : State) : State :=
  mkState (selectedFile s) (imagePreviewUrl s) (ocrText s) (loadingOcr s)
    (loadingSolve s) (solveResult s) e.

(** The cells as [useState] initialises them. *)
Definition initial : State := mkState None None (JStr "") false false JNull None.

(** ** [resetState] *)

Definition resetState (clearFile : bool) (s : State) : State * list Effect :=
  let '(s1, effects) :=
    if clearFile
    then (setImagePreviewUrl None (setSelectedFile None s), [clear_file_input])
    else (s, []) in
  (setApiError None
     (setLoadingSolve false
        (setLoadingOcr false (setSolveResult JNull (setOcrText (JStr "") s1)))),
   effects).

(** ** [onFileChange] *)

Definition onFileChange (file : option File) (s : State) : State * list Effect :=
  match file with
  | None => resetState true s
  | Some f =>
      if negb (includes allowedTypes (type f)) then
        let '(s', effects) := resetState true s in
        (s', toast (mkToast "Invalid file type"
                      "Please upload a JPG, PNG, or PDF file." destructive) :: effects)
      else if maxSize <? size f then
        let '(s', effects) := resetState true s in
        (s', toast (mkToast "File too large"
                      "Please upload a file smaller than 10MB." destructive) :: effects)
      else
        let '(s', effects) := resetState false s in
        (setSelectedFile (Some f) s', (effects ++ [readAsDataURL f])%list)
  end.

(** [reader.onloadend] *)
Definition onloadend (result : option string) (s : State) : State * list Effect :=
  (setImagePreviewUrl result s, []).

(** ** [extractQuestion] *)

Definition extractQuestion_begin (s : State) : State * list Effect :=
  match selectedFile s with
  | None =>
      (s, [toast (mkToast "No file selected"
                    "Please upload an image or PDF file first." destructive)])
  | Some f =>
      (setApiError None
         (setSolveResult JNull (setOcrText (JStr "") (setLoadingOcr true s))),
       [fetch (upload_image f)])
  end.

(** The [try] block from the [await] to [setOcrText]: the text to show, or
    the error thrown. *)
Definition extractQuestion_try (res : FetchResult) : Completion JsValue :=
  response ← await res;
  data ← json response;
  if negb (ok response) then
    detail ← getProp data "detail";
    errorMsg ← or_elseM detail
      (error ← getProp data "error";
       Normal (or_else error
                 (JStr ("HTTP error! status: " +:+ pretty (status response)))));
    Throw (new_Error errorMsg)
  else
    st ← getProp data "status";
    extracted_text ← getProp data "extracted_text";
    if is_string st "success" && negb (is_undefined extracted_text) then
      Normal (or_else extracted_text (JStr ""))
    else
      error ← getProp data "error";
      Throw (new_Error (or_else error (JStr "OCR failed. No text extracted."))).

Definition extractQuestion_settle (res : FetchResult) (s : State)
  : State * list Effect :=
  match extractQuestion_try res with
  | Normal text =>
      (setLoadingOcr false (setOcrText text s),
       [toast (mkToast "Text Extracted" "Review the text below and edit if needed."
                 default_variant)])
  | Throw error =>
      let errorMsg := message_or error "Failed to connect to the OCR service." in
      (setLoadingOcr false
         (setOcrText (JStr "") (setApiError (Some ("OCR Error: " +:+ errorMsg)) s)),
       [toast (mkToast "OCR Failed" errorMsg destructive)])
  end.

(** ** [solveQuestion] *)

(** Up to the [await]; [ocrText.trim()] stands outside the [try]. *)
Definition solveQuestion_begin (s : State) : State * list Effect :=
  match call_trim (ocrText s) with
  | Throw _ => (s, [])
  | Normal question =>
      if String.eqb question "" then
        (s, [toast (mkToast "No question text"
                      "Please extract or enter a question before solving."
                      destructive)])
      else
        (setApiError None (setSolveResult JNull (setLoadingSolve true s)),
         [fetch (solve_text (JStr question))])
  end.

Definition solveQuestion_try (res : FetchResult) : Completion JsValue :=
  response ← await res;
  data ← json response;
  if negb (ok response) then
    error ← getProp data "error";
    errorMsg ← or_elseM error
      (detail ← getProp data "detail";
       Normal (or_else
                 (if ToBoolean detail
                  then JStr (default "undefined" (JSON_stringify detail))
                  else JNull)
                 (JStr ("HTTP error! status: " +:+ pretty (status response)))));
    Throw (new_Error errorMsg)
  else
    error ← getProp data "error";
    if ToBoolean error then Throw (new_Error error) else Normal data.

Definition solveQuestion_settle (res : FetchResult) (s : State)
  : State * list Effect :=
  match solveQuestion_try res with
  | Normal data =>
      (setLoadingSolve false (setSolveResult data s),
       [toast (mkToast "Solution Generated" "See the results below." default_variant)])
  | Throw error =>
      let errorMsg := message_or error "Failed to connect to the solver service." in
      (setLoadingSolve false
         (setSolveResult JNull (setApiError (Some ("Solver Error: " +:+ errorMsg)) s)),
       [toast (mkToast "Solving Failed" errorMsg destructive)])
  end.

(** ** The text area and the reset button *)

Definition onChange (value : string) (s : State) : State * list Effect :=
  (setSolveResult JNull (setOcrText (JStr value) s), []).

Definition tryAnother (s : State) : State * list Effect := resetState true s.

(** ** Events *)

Inductive Event : Type :=
| Typed (value : string)
| FileChosen (file : option File)
| PreviewLoaded (result : option string)
| ExtractClicked
| ExtractArrived (res : FetchResult)
| SolveClicked
| SolveArrived (res : FetchResult)
| TryAnotherClicked.

Definition handle (ev : Event) (s : State) : State * list Effect :=
  match ev with
  | Typed value => onChange value s
  | FileChosen file => onFileChange file s
  | PreviewLoaded result => onloadend result s
  | ExtractClicked => extractQuestion_begin s
  | ExtractArrived res => extractQuestion_settle res s
  | SolveClicked => solveQuestion_begin s
  | SolveArrived res => solveQuestion_settle res s
  | TryAnotherClicked => tryAnother s
  end.

End Index.

(* ===================================================================== *)
(** * Routing: the guard of protected pages, the home page, the login page *)
(* ===================================================================== *)

Module Router.
Import Js Browser.

(** A location of the router. *)
Record Location : Type := mkLocation {
  pathname : string;
  search : string;
  hash : string;
  state : JsValue;
  key : string
}.

(** The location as the object it is when it is put into a state. *)
Definition as_value (l : Location) : JsValue :=
  JObj [("pathname", JStr (pathname l)); ("search", JStr (search l));
        ("hash", JStr (hash l)); ("state", state l); ("key", JStr (key l))].

(** [v?.k]: [undefined] where [v] is [null] or [undefined], else [v.k]. *)
Definition optional (v : JsValue) (k : string) : JsValue :=
  match v with
  | JObj members => assoc k members
  | _ => JUndefined
  end.

(** [navigate(to, {replace, state})] and [<Navigate to state replace />];
    an option that is not given is [false], respectively [undefined]. *)
Record Navigation : Type := mkNavigation {
  to : JsValue;
  replace : bool;
  nav_state : JsValue
}.

Inductive Effect : Type :=
| toast (t : Toast)
| go (n : Navigation).

(** The navigations among the effects. *)
Fixpoint navigations (effects : list Effect) : list Navigation :=
  match effects with
  | [] => []
  | go n :: rest => n :: navigations rest
  | _ :: rest => navigations rest
  end.

End Router.

(** ** [ProtectedRoute] (src/components/cs/McqQuestionDisplay.tsx, second part) *)

Module ProtectedRoute.
Import Js Browser Router.

Inductive Rendered : Type :=
| Authenticating
| Navigate (n : Navigation)
| Outlet.

Definition render (isLoggedIn isLoading : bool) (location : Location)
  : Rendered * list Effect :=
  if isLoading then (Authenticating, [])
  else if negb isLoggedIn then
    (Navigate (mkNavigation (JStr "/login") true (JObj [("from", as_value location)])),
     [toast (mkToast "Authentication Required" "Please log in to access this page."
               default_variant)])
  else (Outlet, []).

End ProtectedRoute.

(** ** [Home] (src/context/AuthContext.tsx, second part) *)

Module Home.
Import Js Browser Router.

Definition handleNavigateToProtected (route : string) (isLoggedIn : bool)
  : list Effect :=
  if isLoggedIn then
    if String.eqb route "/tutor" then [go (mkNavigation (JStr "/tutor") false JUndefined)]
    else [go (mkNavigation (JStr route) false JUndefined)]
  else
    [toast (mkToast "Login Required"
              ("Please log in to access "
               +:+ (if String.eqb route "/tutor" then "the AI Tutor" else "this feature")
               +:+ ".")
              default_variant);
     go (mkNavigation (JStr "/login") false (JObj [("from", JStr route)]))].

End Home.

(** ** [Login] (src/pages/Login.tsx) *)

Module Login.
Import Js Http Browser Router.

Record State : Type := mkState {
  formData : gmap string string;
  error : option string;
  redirectTarget : JsValue
}.

Definition setFormData (v : gmap string string) (s : State) : State :=
  mkState v (error s) (redirectTarget s).
Definition setError (v : option string) (s : State) : State :=
  mkState (formData s) v (redirectTarget s).
Definition setRedirectTarget (v : JsValue) (s : State) : State :=
  mkState (formData s) (error s) v.

Definition initial : State :=
  mkState (<["email" := ""]> (<["password" := ""]> ∅)) None (JStr "/").

(** The effect that depends on the location. *)
Definition locationEffect (location : Location) (s : State) : State :=
  let fromPath := optional (optional (state location) "from") "pathname" in
  if ToBoolean fromPath then setRedirectTarget fromPath s
  else setRedirectTarget (JStr "/") s.

(** The effect that depends on [isLoggedIn] and [redirectTarget]. *)
Definition loggedInEffect (isLoggedIn : bool) (s : State) : list Effect :=
  if isLoggedIn then [go (mkNavigation (redirectTarget s) true JUndefined)] else [].

(** [{...formData, [e.target.name]: e.target.value}] *)
Definition handleChange (name value : string) (s : State) : State :=
  setError None (setFormData (<[name := value]> (formData s)) s).

(** [formData.k] as a value, and as a condition. *)
Definition field (k : string) (s : State) : JsValue :=
  match formData s !! k with
  | Some v => JStr v
  | None => JUndefined
  end.

Definition filled (k : string) (s : State) : bool := ToBoolean (field k s).

(** [handleSubmit], with the outcome of the request that [login] sends; the
    guard returns before [login] is called. *)
Definition handleSubmit (res : FetchResult) (s : State) (w : AuthContext.World)
  : State * AuthContext.World * list Effect :=
  let s0 := setError None s in
  if negb (filled "email" s) || negb (filled "password" s) then
    (setError (Some "Both email and password are required.") s0, w,
     [toast (mkToast "Login Failed" "Both email and password are required." destructive)])
  else
    match AuthContext.login (field "email" s) (field "password" s) res w with
    | (w', Normal _) =>
        (s0, w',
         [toast (mkToast "Login Successful!" "Welcome back!" default_variant);
          go (mkNavigation (redirectTarget s) true JUndefined)])
    | (w', Throw error) =>
        let displayError :=
          message_or error "An unexpected error occurred. Please try again." in
        (setError (Some displayError) s0, w',
         [toast (mkToast "Login Failed" displayError destructive)])
    end.

End Login.

(* ===================================================================== *)
(** * Mistake diagnosis *)
(* ===================================================================== *)

(** ** [diagnoseSolutionApi] (src/lib/api.ts) *)

Module Api.
Import Js Http.

Record DiagnoseSolutionPayload : Type := mkPayload {
  problem_text : JsValue;
  user_steps : string
}.

(** The [try] block: the value returned, or the error thrown.  For a status
    that is not a success, a body that is not JSON is replaced by an object
    with a fixed [error]. *)
Definition diagnoseSolutionApi_try (res : FetchResult) : Completion JsValue :=
  response ← await res;
  if negb (ok response) then
    let errorData :=
      match json response with
      | Normal d => d
      | Throw _ => JObj [("error", JStr "An unknown error occurred")]
      end in
    detail ← getProp errorData "detail";
    errorMsg ← or_elseM detail
      (error ← getProp errorData "error";
       Normal (or_else error
                 (JStr ("HTTP error! status: " +:+ pretty (status response)))));
    Throw (new_Error errorMsg)
  else json response.

(** The function never throws: the [catch] turns every error into a
    response object. *)
Definition diagnoseSolutionApi (res : FetchResult) : JsValue :=
  match diagnoseSolutionApi_try res with
  | Normal v => v
  | Throw error => JObj [("feedback", JStr ""); ("error", JStr (message error))]
  end.

End Api.

(** ** [MistakeDiagnosis] (src/components/MistakeDiagnosis.tsx) *)

Module MistakeDiagnosis.
Import Js Http Api.

(** The cells of the component.  [problemText] also receives the prop
    [initialProblemText], and [feedback] and [error] receive fields of the
    response, so they are runtime values. *)
Record State : Type := mkState {
  problemText : JsValue;
  userSteps : string;
  feedback : JsValue;
  error : JsValue;
  isLoading : bool;
  userHasEditedProblem : bool
}.

Definition setProblemText (v : JsValue) (s : State) : State :=
  mkState v (userSteps s) (feedback s) (error s) (isLoading s) (userHasEditedProblem s).
Definition setUserSteps (v : string) (s : State) : State :=
  mkState (problemText s) v (feedback s) (error s) (isLoading s) (userHasEditedProblem s).
Definition setFeedback (v : JsValue) (s : State) : State :=
  mkState (problemText s) (userSteps s) v (error s) (isLoading s) (userHasEditedProblem s).
Definition setError (v : JsValue) (s : State) : State :=
  mkState (problemText s) (userSteps s) (feedback s) v (isLoading s) (userHasEditedProblem s).
Definition setIsLoading (v : bool) (s : State) : State :=
  mkState (problemText s) (userSteps s) (feedback s) (error s) v (userHasEditedProblem s).
Definition setUserHasEditedProblem (v : bool) (s : State) : State :=
  mkState (problemText s) (userSteps s) (feedback s) (error s) (isLoading s) v.

Definition initial : State :=
  mkState (JStr "") "" (JStr "") (JStr "") false false.

(** The effect on [initialProblemText] and [userHasEditedProblem]. *)
Definition prefill (initialProblemText : JsValue) (s : State) : State :=
  if ToBoolean initialProblemText && negb (userHasEditedProblem s)
  then setProblemText initialProblemText s
  else s.

Definition handleProblemTextChange (value : string) (s : State) : State :=
  setUserHasEditedProblem true (setProblemText (JStr value) s).

(** Up to the call of [diagnoseSolutionApi].  A [problemText] without a
    [trim] method makes the guard throw before anything is set. *)
Definition handleSubmit_begin (s : State) : State * list DiagnoseSolutionPayload :=
  match call_trim (problemText s) with
  | Throw _ => (s, [])
  | Normal problem =>
      if String.eqb problem "" || String.eqb (trim (userSteps s)) "" then
        (setFeedback (JStr "")
           (setError (JStr "Please enter both the problem and your steps.") s), [])
      else
        (setFeedback (JStr "") (setError (JStr "") (setIsLoading true s)),
         [mkPayload (problemText s) (userSteps s)])
  end.

(** The [try] block after the call has returned [response]. *)
Definition handleSubmit_try (response : JsValue) (s : State) : Completion State :=
  e ← getProp response "error";
  if ToBoolean e then Normal (setFeedback (JStr "") (setError e s))
  else
    f ← getProp response "feedback";
    Normal (setError (JStr "") (setFeedback f s)).

Definition handleSubmit_settle (res : FetchResult) (s : State) : State :=
  let s1 :=
    match handleSubmit_try (diagnoseSolutionApi res) s with
    | Normal s' => s'
    | Throw e => setFeedback (JStr "") (setError (JStr (message e)) s)
    end in
  setIsLoading false s1.

(** What can happen to the component: the parent renders it with a (new)
    [initialProblemText]; the user types into one of the text areas; the
    button is clicked; the response of a call arrives. *)
Inductive Event : Type :=
| Rendered (initialProblemText : JsValue)
| ProblemTyped (value : string)
| StepsTyped (value : string)
| SubmitClicked
| SubmitArrived (res : FetchResult).

Definition handle (ev : Event) (s : State) : State * list DiagnoseSolutionPayload :=
  match ev with
  | Rendered initialProblemText => (prefill initialProblemText s, [])
  | ProblemTyped value => (handleProblemTextChange value s, [])
  | StepsTyped value => (setUserSteps value s, [])
  | SubmitClicked => handleSubmit_begin s
  | SubmitArrived res => (handleSubmit_settle res s, [])
  end.

Fixpoint run (events : list Event) (s : State) : State * list DiagnoseSolutionPayload :=
  match events with
  | [] => (s, [])
  | ev :: rest =>
      let (s1, sent1) := handle ev s in
      let (s2, sent2) := run rest s1 in
      (s2, (sent1 ++ sent2)%list)
  end.

End MistakeDiagnosis.

(* ===================================================================== *)
(** * The tutor screen: experience points, practice, learning aids *)
(* ===================================================================== *)

(** ** The XP cells and [calculateLevel] (src/components/TutorComponent.tsx) *)

Module Xp.
Import Js Browser.

Inductive UserLevel : Type := Bronze | Silver | Gold | Platinum.

(** XP values are counted in whole points. *)
Definition calculateLevel (xp : Z) : UserLevel :=
  if xp <? 100 then Bronze
  else if xp <? 500 then Silver
  else if xp <? 1500 then Gold
  else Platinum.

Record Cells : Type := mkCells {
  currentUserXP : Z;
  currentUserLevel : UserLevel
}.

Definition initial : Cells := mkCells 0 Bronze.

(** [fetchUserXP], from the data of a response that was a success. *)
Definition fetched (current_xp : Z) (c : Cells) : Cells :=
  mkCells current_xp (calculateLevel current_xp).

(** The block that follows a response carrying [updated_xp].  [seen] is the
    value of [currentUserXP] in the render whose handler sent the request;
    [activity] ends the text of the toast. *)
Definition award (activity : string) (seen updated_xp : Z) (c : Cells)
  : Cells * list Toast :=
  let xpGained := updated_xp - seen in
  (mkCells updated_xp (calculateLevel updated_xp),
   if 0 <? xpGained
   then [mkToast "XP Gained!" ("+" +:+ pretty xpGained +:+ " XP for " +:+ activity)
           default_variant]
   else []).

Inductive Event : Type :=
| Fetched (current_xp : Z)
| Awarded (activity : string) (seen updated_xp : Z).

Definition handle (c : Cells) (ev : Event) : Cells :=
  match ev with
  | Fetched current_xp => fetched current_xp c
  | Awarded activity seen updated_xp => fst (award activity seen updated_xp c)
  end.

Definition run (events : list Event) (c : Cells) : Cells := fold_left handle events c.

End Xp.

(** ** Practice problems and computer-science questions *)

Module Practice.
Import Js Http Browser.

Record Chapter : Type := mkChapter { name : string }.

Record Subject : Type := mkSubject {
  subject : string;
  chapters : list Chapter
}.

Definition mainSubjects : list Subject :=
  [mkSubject "Mathematics"
     [mkChapter "Basic Algebra";
      mkChapter "Linear Equations";
      mkChapter "Quadratic Equations";
      mkChapter "Derivatives (Calculus)";
      mkChapter "Integrals (Calculus)";
      mkChapter "Limits (Calculus)";
      mkChapter "Trigonometry Basics";
      mkChapter "Logarithms";
      mkChapter "Exponents";
      mkChapter "Matrix Operations"];
   mkSubject "Computer Science"
     [mkChapter "Data Structures (Stacks, Queues, Trees, Graphs)";
      mkChapter "Algorithms (Sorting, Searching, Recursion)";
      mkChapter "Operating Systems (Processes, Memory, Deadlocks)";
      mkChapter "DBMS (Normalization, SQL Queries, Transactions)";
      mkChapter "Computer Networks (OSI Model, IP, Routing)";
      mkChapter "Programming Concepts (OOP, Loops, Functions)"]].

Inductive AidType : Type := flashcards | summary | key_points.

(** The aid type as the string it is in the program. *)
Definition aid_type_text (aidType : AidType) : string :=
  match aidType with
  | flashcards => "flashcards"
  | summary => "summary"
  | key_points => "key_points"
  end.

Definition aid_type_to_string (aidType : AidType) : string :=
  match aidType with
  | flashcards => "Flashcards"
  | summary => "Summary"
  | key_points => "Key Points"
  end.

(** The requests of this part of the screen, with what their bodies carry. *)
Inductive Request : Type :=
| cs_questions (chapter_name : string)
| generate_practice_problem (topic : string)
| cs_submit (payload : JsValue)
| cs_learning_aids (chapter_name : string) (aid_type : AidType).

(** [award_xp] stands for the XP block that follows a response carrying
    [updated_xp]; the cells it writes are those of [Xp]. *)
Inductive Effect : Type :=
| toast (t : Toast)
| fetch (r : Request)
| award_xp (updated_xp : JsValue).

Fixpoint requests (effects : list Effect) : list Request :=
  match effects with
  | [] => []
  | fetch r :: rest => r :: requests rest
  | _ :: rest => requests rest
  end.

Record State : Type := mkState {
  selectedSubjectName : string;
  availableChapters : list Chapter;
  selectedChapterName : string;
  practiceProblem : JsValue;
  practiceSolutionExplanation : JsValue;
  currentCSQuestion : JsValue;
  csSubmissionFeedback : JsValue;
  isLoadingPractice : bool;
  practiceError : option string;
  isSubmittingCS : bool;
  selectedAidType : option AidType;
  currentLearningAid : JsValue;
  isLoadingLearningAid : bool;
  learningAidError : option string
}.

Definition setSelectedSubjectName (v : string) (s : State) : State :=
  mkState v (availableChapters s) (selectedChapterName s) (practiceProblem s)
    (practiceSolutionExplanation s) (currentCSQuestion s) (csSubmissionFeedback s)
    (isLoadingPractice s) (practiceError s) (isSubmittingCS s) (selectedAidType s)
    (currentLearningAid s) (isLoadingLearningAid s) (learningAidError s).
Definition setAvailableChapters (v : list Chapter) (s : State) : State :=
  mkState (selectedSubjectName s) v (selectedChapterName s) (practiceProblem s)
    (practiceSolutionExplanation s) (currentCSQuestion s) (csSubmissionFeedback s)
    (isLoadingPractice s) (practiceError s) (isSubmittingCS s) (selectedAidType s)
    (currentLearningAid s) (isLoadingLearningAid s) (learningAidError s).
Definition setSelectedChapterName (v : string) (s : State) : State :=
  mkState (selectedSubjectName s) (availableChapters s) v (practiceProblem s)
    (practiceSolutionExplanation s) (currentCSQuestion s) (csSubmissionFeedback s)
    (isLoadingPractice s) (practiceError s) (isSubmittingCS s) (selectedAidType s)
    (currentLearningAid s) (isLoadingLearningAid s) (learningAidError s).
Definition setPracticeProblem (v : JsValue) (s : State) : State :=
  mkState (selectedSubjectName s) (availableChapters s) (selectedChapterName s) v
    (practiceSolutionExplanation s) (currentCSQuestion s) (csSubmissionFeedback s)
    (isLoadingPractice s) (practiceError s) (isSubmittingCS s) (selectedAidType s)
    (currentLearningAid s) (isLoadingLearningAid s) (learningAidError s).
Definition setPracticeSolutionExplanation (v : JsValue) (s : State) : State :=
  mkState (selectedSubjectName s) (availableChapters s) (selectedChapterName s)
    (practiceProblem s) v (currentCSQuestion s) (csSubmissionFeedback s)
    (isLoadingPractice s) (practiceError s) (isSubmittingCS s) (selectedAidType s)
    (currentLearningAid s) (isLoadingLearningAid s) (learningAidError s).
Definition setCurrentCSQuestion (v : JsValue) (s : State) : State :=
  mkState (selectedSubjectName s) (availableChapters s) (selectedChapterName s)
    (practiceProblem s) (practiceSolutionExplanation s) v (csSubmissionFeedback s)
    (isLoadingPractice s) (practiceError s) (isSubmittingCS s) (selectedAidType s)
    (currentLearningAid s) (isLoadingLearningAid s) (learningAidError s).
Definition setCSSubmissionFeedback (v : JsValue) (s : State) : State :=
  mkState (selectedSubjectName s) (availableChapters s) (selectedChapterName s)
    (practiceProblem s) (practiceSolutionExplanation s) (currentCSQuestion s) v
    (isLoadingPractice s) (practiceError s) (isSubmittingCS s) (selectedAidType s)
    (currentLearningAid s) (isLoadingLearningAid s) (learningAidError s).
Definition setIsLoadingPractice (v : bool) (s : State) : State :=
  mkState (selectedSubjectName s) (availableChapters s) (selectedChapterName s)
    (practiceProblem s) (practiceSolutionExplanation s) (currentCSQuestion s)
    (csSubmissionFeedback s) v (practiceError s) (isSubmittingCS s) (selectedAidType s)
    (currentLearningAid s) (isLoadingLearningAid s) (learningAidError s).
Definition setPracticeError (v : option string) (s : State) : State :=
  mkState (selectedSubjectName s) (availableChapters s) (selectedChapterName s)
    (practiceProblem s) (practiceSolutionExplanation s) (currentCSQuestion s)
    (csSubmissionFeedback s) (isLoadingPractice s) v (isSubmittingCS s)
    (selectedAidType s) (currentLearningAid s) (isLoadingLearningAid s)
    (learningAidError s).
Definition setIsSubmittingCS (v : bool) (s : State) : State :=
  mkState (selectedSubjectName s) (availableChapters s) (selectedChapterName s)
    (practiceProblem s) (practiceSolutionExplanation s) (currentCSQuestion s)
    (csSubmissionFeedback s) (isLoadingPractice s) (practiceError s) v
    (selectedAidType s) (currentLearningAid s) (isLoadingLearningAid s)
    (learningAidError s).
Definition setSelectedAidType (v : option AidType) (s : State) : State :=
  mkState (selectedSubjectName s) (availableChapters s) (selectedChapterName s)
    (practiceProblem s) (practiceSolutionExplanation s) (currentCSQuestion s)
    (csSubmissionFeedback s) (isLoadingPractice s) (practiceError s) (isSubmittingCS s)
    v (currentLearningAid s) (isLoadingLearningAid s) (learningAidError s).
Definition setCurrentLearningAid (v : JsValue) (s : State) : State :=
  mkState (selectedSubjectName s) (availableChapters s) (selectedChapterName s)
    (practiceProblem s) (practiceSolutionExplanation s) (currentCSQuestion s)
    (csSubmissionFeedback s) (isLoadingPractice s) (practiceError s) (isSubmittingCS s)
    (selectedAidType s) v (isLoadingLearningAid s) (learningAidError s).
Definition setIsLoadingLearningAid (v : bool) (s : State) : State :=
  mkState (selectedSubjectName s) (availableChapters s) (selectedChapterName s)
    (practiceProblem s) (practiceSolutionExplanation s) (currentCSQuestion s)
    (csSubmissionFeedback s) (isLoadingPractice s) (practiceError s) (isSubmittingCS s)
    (selectedAidType s) (currentLearningAid s) v (learningAidError s).
Definition setLearningAidError (v : option string) (s : State) : State :=
  mkState (selectedSubjectName s) (availableChapters s) (selectedChapterName s)
    (practiceProblem s) (practiceSolutionExplanation s) (currentCSQuestion s)
    (csSubmissionFeedback s) (isLoadingPractice s) (practiceError s) (isSubmittingCS s)
    (selectedAidType s) (currentLearningAid s) (isLoadingLearningAid s) v.

Definition initial : State :=
  mkState "" [] "" JNull JNull JNull JNull false None false None JNull false None.

(** *** The two selects *)

(** The effect on [selectedSubjectName]. *)
Definition subjectEffect (s : State) : State :=
  if negb (String.eqb (selectedSubjectName s) "") then
    let found := find (λ x, String.eqb (subject x) (selectedSubjectName s)) mainSubjects in
    setSelectedChapterName ""
      (setAvailableChapters (match found with
                             | Some x => chapters x
                             | None => []
                             end) s)
  else setSelectedChapterName "" (setAvailableChapters [] s).

(** The subject select calls [setSelectedSubjectName]; the effect runs when
    the name has changed. *)
Definition onSubjectChange (value : string) (s : State) : State :=
  if String.eqb value (selectedSubjectName s) then s
  else subjectEffect (setSelectedSubjectName value s).

(** The chapter select offers the names of [availableChapters], and is
    rendered only for a subject with chapters. *)
Definition offered (value : string) (s : State) : bool :=
  negb (String.eqb (selectedSubjectName s) "")
  && existsb (λ c, String.eqb value (name c)) (availableChapters s).

Definition onChapterChange (value : string) (s : State) : State :=
  if offered value s then setSelectedChapterName value s else s.

(** *** [handleGetPracticeProblem] *)

Definition clearPractice (s : State) : State :=
  setIsSubmittingCS false
    (setPracticeError None
       (setCSSubmissionFeedback JNull
          (setCurrentCSQuestion JNull
             (setPracticeSolutionExplanation JNull
                (setPracticeProblem JNull s))))).

Definition handleGetPracticeProblem_begin (s : State) : State * list Effect :=
  let s0 := clearPractice s in
  if String.eqb (selectedSubjectName s) "Computer Science" then
    if String.eqb (selectedChapterName s) "" then
      (s0, [toast (mkToast "No Chapter Selected"
                     "Please choose a Computer Science chapter first." destructive)])
    else
      (setIsLoadingPractice true s0, [fetch (cs_questions (selectedChapterName s))])
  else if String.eqb (selectedSubjectName s) "Mathematics" then
    if String.eqb (selectedChapterName s) "" then
      (s0, [toast (mkToast "No Chapter Selected"
                     "Please choose a Mathematics topic first." destructive)])
    else
      (setIsLoadingPractice true s0,
       [fetch (generate_practice_problem (selectedChapterName s))])
  else if String.eqb (selectedSubjectName s) "" then
    (s0, [toast (mkToast "No Subject Selected" "Please choose a subject first."
                   destructive)])
  else
    (s0, [toast (mkToast "Selection Error"
                   "Selected subject not supported for practice problems yet."
                   destructive)]).

(** The [try] block of the computer-science branch: the question that is
    stored, or the error thrown. *)
Definition cs_question_try (res : FetchResult) : Completion JsValue :=
  response ← await res;
  if negb (ok response) then
    let errorData :=
      match json response with
      | Normal d => d
      | Throw _ => JObj [("detail", JStr "Failed to fetch CS question. Server error.")]
      end in
    detail ← getProp errorData "detail";
    Throw (new_Error (or_else detail
                        (JStr ("HTTP error! status: " +:+ pretty (status response)))))
  else
    question ← json response;
    malformed ←
      (if negb (ToBoolean question) then Normal true
       else id ← getProp question "id";
            if negb (ToBoolean id) then Normal true
            else question_type ← getProp question "question_type";
                 if negb (ToBoolean question_type) then Normal true
                 else question_text ← getProp question "question_text";
                      Normal (negb (ToBoolean question_text)));
    if malformed : bool
    then Throw (mkError "Received malformed question data from server.")
    else Normal question.

(** The branch from the [await] on; [chapter] is [selectedChapterName] as
    the handler saw it. *)
Definition cs_question_settle (chapter : string) (res : FetchResult) (s : State)
  : State * list Effect :=
  match cs_question_try res with
  | Normal question =>
      let question_type :=
        match getProp question "question_type" with
        | Normal v => v
        | Throw _ => JUndefined
        end in
      (setIsLoadingPractice false (setCurrentCSQuestion question s),
       [toast (mkToast "CS Question Loaded"
                 ("Displaying a " +:+ ToString question_type +:+ " for " +:+ chapter)
                 default_variant)])
  | Throw error =>
      let msg := message_or error "Failed to connect to the CS question service." in
      (setIsLoadingPractice false
         (setCurrentCSQuestion JNull (setPracticeError (Some msg) s)),
       [toast (mkToast "Error Loading CS Question" msg destructive)])
  end.

(** The [try] block of the mathematics branch: the data, or the error. *)
Definition math_problem_try (res : FetchResult) : Completion JsValue :=
  response ← await res;
  data ← json response;
  failed ←
    (if negb (ok response) then Normal true
     else error ← getProp data "error"; Normal (ToBoolean error));
  if failed : bool then
    error ← getProp data "error";
    errorMsg ← or_elseM error
      (detail ← getProp data "detail";
       Normal (or_else detail
                 (JStr ("HTTP error! status: " +:+ pretty (status response)))));
    Throw (new_Error errorMsg)
  else Normal data.

Definition math_problem_settle (chapter : string) (res : FetchResult) (s : State)
  : State * list Effect :=
  match math_problem_try res with
  | Normal data =>
      let field (k : string) :=
        match getProp data k with
        | Normal v => v
        | Throw _ => JUndefined
        end in
      (setIsLoadingPractice false
         (setPracticeSolutionExplanation
            (or_else (field "solution_explanation") (JStr "No solution provided."))
            (setPracticeProblem
               (or_else (field "problem") (JStr "No problem generated.")) s)),
       (toast (mkToast "Practice Problem Generated" ("Topic: " +:+ chapter)
                 default_variant)
        :: (if is_undefined (field "updated_xp") then []
            else [award_xp (field "updated_xp")]))%list)
  | Throw error =>
      let msg := message_or error "Failed to connect to the backend." in
      (setIsLoadingPractice false (setPracticeError (Some msg) s),
       [toast (mkToast "Error Generating Math Problem" msg destructive)])
  end.

(** *** [handleCSSubmit] *)

(** [k in v] for an object. *)
Fixpoint has_key (k : string) (members : list (string * JsValue)) : bool :=
  match members with
  | [] => false
  | (k', _) :: r => String.eqb k k' || has_key k r
  end.

(** The body of the submission. *)
Definition submission (question : JsValue) (submittedAnswer : string) : JsValue :=
  let field (k : string) :=
    match getProp question k with
    | Normal v => v
    | Throw _ => JUndefined
    end in
  JObj ([("question_id", field "id");
         ("question_type", field "question_type");
         ("question_text", field "question_text");
         ("answer", JStr submittedAnswer)]
        ++ match question with
           | JObj members =>
               if is_string (field "question_type") "mcq" && has_key "options" members
               then [("options", field "options")]
               else []
           | _ => []
           end)%list.

(** Up to the [await].  Without a question nothing happens.  The line that
    logs the submission takes a substring of the text of the question, which
    throws for a text that is not a string, before anything is set. *)
Definition handleCSSubmit_begin (submittedAnswer : string) (s : State)
  : State * list Effect :=
  if negb (ToBoolean (currentCSQuestion s)) then (s, [])
  else
    match getProp (currentCSQuestion s) "question_text" with
    | Normal (JStr _) =>
        (setCSSubmissionFeedback JNull (setIsSubmittingCS true s),
         [fetch (cs_submit (submission (currentCSQuestion s) submittedAnswer))])
    | _ => (s, [])
    end.

Definition handleCSSubmit_try (res : FetchResult) : Completion JsValue :=
  response ← await res;
  if negb (ok response) then
    let errorData :=
      match json response with
      | Normal d => d
      | Throw _ => JObj [("detail", JStr "Failed to process submission. Server error.")]
      end in
    detail ← getProp errorData "detail";
    Throw (new_Error (or_else detail
                        (JStr ("HTTP error! status: " +:+ pretty (status response)))))
  else
    feedback ← json response;
    malformed ←
      (if negb (ToBoolean feedback) then Normal true
       else correct ← getProp feedback "correct";
            if is_undefined correct then Normal true
            else explanation ← getProp feedback "explanation";
                 Normal (negb (ToBoolean explanation)));
    if malformed : bool
    then Throw (mkError "Received malformed feedback data from server.")
    else Normal feedback.

Definition handleCSSubmit_settle (res : FetchResult) (s : State)
  : State * list Effect :=
  match handleCSSubmit_try res with
  | Normal feedback =>
      let correct :=
        match getProp feedback "correct" with
        | Normal v => v
        | Throw _ => JUndefined
        end in
      (setIsSubmittingCS false (setCSSubmissionFeedback feedback s),
       [toast (mkToast "Submission Processed"
                 (if ToBoolean correct then "Check the feedback below."
                  else "There were some issues, check feedback.")
                 default_variant)])
  | Throw error =>
      let msg := message_or error "Failed to connect to the submission service." in
      (setIsSubmittingCS false
         (setCSSubmissionFeedback
            (JObj [("correct", JBool false);
                   ("explanation", JStr ("Error: " +:+ msg));
                   ("ai_feedback",
                    JStr "Could not process submission due to an error.")]) s),
       [toast (mkToast "Submission Error" msg destructive)])
  end.

(** *** [handleGetLearningAid] *)

Definition handleGetLearningAid_begin (aidType : AidType) (s : State)
  : State * list Effect :=
  if String.eqb (selectedChapterName s) ""
     || negb (String.eqb (selectedSubjectName s) "Computer Science") then
    (s, [toast (mkToast "Cannot Fetch Aid"
                  "Please select a Computer Science chapter first." destructive)])
  else
    (setLearningAidError None
       (setCurrentLearningAid JNull
          (setSelectedAidType (Some aidType) (setIsLoadingLearningAid true s))),
     [fetch (cs_learning_aids (selectedChapterName s) aidType)]).

Definition is_JStr (v : JsValue) : bool :=
  match v with
  | JStr _ => true
  | _ => false
  end.

Definition handleGetLearningAid_try (res : FetchResult) : Completion JsValue :=
  response ← await res;
  data ← json response;
  if negb (ok response) then
    detail ← getProp data "detail";
    errorMsg ← or_elseM detail
      (error ← getProp data "error";
       Normal (or_else error
                 (JStr ("HTTP error! status: " +:+ pretty (status response)))));
    Throw (new_Error errorMsg)
  else if negb (ToBoolean data) then
    Throw (mkError "Received malformed learning aid data from server.")
  else
    aid_type ← getProp data "aid_type";
    chapter ← getProp data "chapter";
    if negb (ToBoolean aid_type) || negb (ToBoolean chapter) then
      Throw (mkError "Received malformed learning aid data from server.")
    else
      cards ← getProp data "flashcards";
      summary_text ← getProp data "summary_text";
      points ← getProp data "key_points";
      if is_string aid_type "flashcards" && negb (ToBoolean cards) then
        Throw (mkError "Malformed flashcards data.")
      else if is_string aid_type "summary" && negb (is_JStr summary_text) then
        Throw (mkError "Malformed summary data.")
      else if is_string aid_type "key_points" && negb (ToBoolean points) then
        Throw (mkError "Malformed key points data.")
      else Normal data.

(** [aidType] and [chapter] are the ones the handler was called with and
    saw. *)
Definition handleGetLearningAid_settle (aidType : AidType) (chapter : string)
  (res : FetchResult) (s : State) : State * list Effect :=
  match handleGetLearningAid_try res with
  | Normal data =>
      (setIsLoadingLearningAid false (setCurrentLearningAid data s),
       [toast (mkToast "Learning Aid Loaded"
                 (aid_type_to_string aidType +:+ " for '" +:+ chapter
                  +:+ "' loaded successfully.")
                 default_variant)])
  | Throw error =>
      let msg := message_or error "Failed to connect to the learning aid service." in
      (setIsLoadingLearningAid false
         (setCurrentLearningAid JNull
            (setLearningAidError
               (Some ("Failed to load " +:+ aid_type_text aidType +:+ ": " +:+ msg)) s)),
       [toast (mkToast ("Error Loading " +:+ aid_type_to_string aidType) msg
                 destructive)])
  end.

(** *** Events *)

(** A response arrives for the request a click has sent, so the arrival
    carries what the handler of that click saw. *)
Inductive Event : Type :=
| SubjectChosen (value : string)
| ChapterChosen (value : string)
| PracticeClicked
| CSQuestionArrived (chapter : string) (res : FetchResult)
| MathProblemArrived (chapter : string) (res : FetchResult)
| AnswerSubmitted (submittedAnswer : string)
| SubmissionArrived (res : FetchResult)
| AidClicked (aidType : AidType)
| AidArrived (aidType : AidType) (chapter : string) (res : FetchResult).

Definition handle (ev : Event) (s : State) : State * list Effect :=
  match ev with
  | SubjectChosen value => (onSubjectChange value s, [])
  | ChapterChosen value => (onChapterChange value s, [])
  | PracticeClicked => handleGetPracticeProblem_begin s
  | CSQuestionArrived chapter res => cs_question_settle chapter res s
  | MathProblemArrived chapter res => math_problem_settle chapter res s
  | AnswerSubmitted submittedAnswer => handleCSSubmit_begin submittedAnswer s
  | SubmissionArrived res => handleCSSubmit_settle res s
  | AidClicked aidType => handleGetLearningAid_begin aidType s
  | AidArrived aidType chapter res => handleGetLearningAid_settle aidType chapter res s
  end.

Fixpoint run (events : list Event) (s : State) : State * list Effect :=
  match events with
  | [] => (s, [])
  | ev :: rest =>
      let (s1, effects1) := handle ev s in
      let (s2, effects2) := run rest s1 in
      (s2, (effects1 ++ effects2)%list)
  end.

End Practice.

(* ===================================================================== *)
(** * The chat page (src/unnamed/part_001) *)
(* ===================================================================== *)

Module Chat.
Import Js Http Browser.

Inductive Sender : Type := user | ai.

Record ChatMessage : Type := mkChatMessage {
  id : string;
  sender : Sender;
  text : JsValue;
  timestamp : Z;
  imagePreviewUrl : option string
}.

(** What a handler reads from the clock and the random generator when it
    builds a message: [Date.now()], the nine characters taken from
    [Math.random()], and [new Date()]. *)
Record Stamp : Type := mkStamp {
  now : Z;
  random : string;
  date : Z
}.

Inductive Request : Type :=
| upload_image (file : File)
| chat (question : string) (history : list (Sender * JsValue)).

Inductive Effect : Type :=
| toast (t : Toast)
| fetch (r : Request)
| readAsDataURL (file : File)
| clear_file_input.

Fixpoint requests (effects : list Effect) : list Request :=
  match effects with
  | [] => []
  | fetch r :: rest => r :: requests rest
  | _ :: rest => requests rest
  end.

Record State : Type := mkState {
  messages : list ChatMessage;
  currentMessage : string;
  isLoadingResponse : bool;
  selectedImageFile : option File;
  imagePreviewForMessage : option string
}.

Definition setMessages (f : list ChatMessage -> list ChatMessage) (s : State) : State :=
  mkState (f (messages s)) (currentMessage s) (isLoadingResponse s)
    (selectedImageFile s) (imagePreviewForMessage s).
Definition setCurrentMessage (f : string -> string) (s : State) : State :=
  mkState (messages s) (f (currentMessage s)) (isLoadingResponse s)
    (selectedImageFile s) (imagePreviewForMessage s).
Definition setIsLoadingResponse (b : bool) (s : State) : State :=
  mkState (messages s) (currentMessage s) b (selectedImageFile s)
    (imagePreviewForMessage s).
Definition setSelectedImageFile (f : option File) (s : State) : State :=
  mkState (messages s) (currentMessage s) (isLoadingResponse s) f
    (imagePreviewForMessage s).
Definition setImagePreviewForMessage (u : option string) (s : State) : State :=
  mkState (messages s) (currentMessage s) (isLoadingResponse s)
    (selectedImageFile s) u.

Definition initial : State := mkState [] "" false None None.

(** A preview URL used as a condition. *)
Definition shown (u : option string) : bool :=
  match u with
  | Some v => negb (String.eqb v "")
  | None => false
  end.

(** [l.slice(-n)] *)
Definition slice_last {A : Type} (n : nat) (l : list A) : list A :=
  skipn (length l - n) l.

(** What a call of [handleSendMessage] keeps in its closure for the time
    after its first [await]: the trimmed message, the preview URL and the
    messages of the render in which the form was submitted. *)
Record Pending : Type := mkPending {
  trimmedMessage : string;
  preview : option string;
  seen : list ChatMessage
}.

Definition historyToSend (p : Pending) : list (Sender * JsValue) :=
  map (λ msg, (sender msg, text msg)) (slice_last 6 (seen p)).

Definition line_feed : ascii := "010".

(** The [catch] block, followed by [finally]. *)
Definition failed (err : JsError) (at_ : Stamp) (s : State) : State * list Effect :=
  let errorAiMessage :=
    mkChatMessage (pretty (now at_) +:+ "-error-" +:+ random at_) ai
      (JStr ("Error: " +:+ message_or err "Could not get a response."))
      (date at_) None in
  (setIsLoadingResponse false
     (setMessages (λ prev, (prev ++ [errorAiMessage])%list) s),
   [toast (mkToast "Chat Operation Failed"
             (message_or err "Could not complete the operation.") destructive)]).

(** Step 2 up to its [await]: the question is settled and the chat request
    leaves, unless there is nothing to send.  [at_] is read only when the
    [trim] of a message that is not a string throws. *)
Definition sendToChat (messageToSendToChatApi : JsValue) (p : Pending) (at_ : Stamp)
  (s : State) : State * list Effect :=
  match call_trim messageToSendToChatApi with
  | Throw err => failed err at_ s
  | Normal t =>
      let finalQuestionForApi :=
        if negb (String.eqb t "") then t
        else if shown (preview p) then "[Image Content]" else "" in
      if String.eqb finalQuestionForApi "" && negb (shown (preview p)) then
        (setIsLoadingResponse false s, [])
      else (s, [fetch (chat finalQuestionForApi (historyToSend p))])
  end.

(** [handleSendMessage] up to its first [await]. *)
Definition handleSendMessage_begin (at_ : Stamp) (s : State) : State * list Effect :=
  let trimmed := trim (currentMessage s) in
  if String.eqb trimmed "" && negb (bool_decide (is_Some (selectedImageFile s))) then
    (s, [toast (mkToast "Cannot Send" "Please type a message or select an image."
                  default_variant)])
  else
    let p := mkPending trimmed (imagePreviewForMessage s) (messages s) in
    let newUserMessage :=
      mkChatMessage (pretty (now at_) +:+ "-user-" +:+ random at_) user (JStr trimmed)
        (date at_) (imagePreviewForMessage s) in
    let s1 :=
      setImagePreviewForMessage None
        (setSelectedImageFile None
           (setCurrentMessage (λ _, "")
              (setMessages (λ prev, (prev ++ [newUserMessage])%list)
                 (setIsLoadingResponse true s)))) in
    match selectedImageFile s with
    | Some fileToSend =>
        if shown (imagePreviewForMessage s) then
          (s1, [clear_file_input; fetch (upload_image fileToSend)])
        else
          let (s2, effects) := sendToChat (JStr trimmed) p at_ s1 in
          (s2, clear_file_input :: effects)
    | None =>
        let (s2, effects) := sendToChat (JStr trimmed) p at_ s1 in
        (s2, clear_file_input :: effects)
    end.

(** Step 1 from its [await] on: the message to send, or the error thrown. *)
Definition ocr_try (p : Pending) (res : FetchResult) : Completion JsValue :=
  ocrResponse ← await res;
  if negb (ok ocrResponse) then
    let errorData :=
      match json ocrResponse with
      | Normal d => d
      | Throw _ => JObj [("detail", JStr "Failed to process image.")]
      end in
    detail ← getProp errorData "detail";
    Throw (new_Error
             (or_else detail
                (JStr ("Image processing error: " +:+ pretty (status ocrResponse)))))
  else
    ocrData ← json ocrResponse;
    error ← getProp ocrData "error";
    extracted_text ← getProp ocrData "extracted_text";
    if ToBoolean error || is_undefined extracted_text then
      Throw (new_Error (or_else error (JStr "Could not extract text from image.")))
    else if negb (String.eqb (trimmedMessage p) "") then
      Normal (JStr (ToString extracted_text
                    +:+ String line_feed (String line_feed (trimmedMessage p))))
    else Normal extracted_text.

Definition ocr_settle (p : Pending) (at_ : Stamp) (res : FetchResult) (s : State)
  : State * list Effect :=
  match ocr_try p res with
  | Throw err => failed err at_ s
  | Normal messageToSendToChatApi =>
      let (s1, effects) := sendToChat messageToSendToChatApi p at_ s in
      (s1, toast (mkToast "Image Processed" "Text extracted from image." default_variant)
           :: effects)
  end.

(** Step 2 from its [await] on: the text of the reply, or the error. *)
Definition chat_try (res : FetchResult) : Completion JsValue :=
  chatApiResponse ← await res;
  if negb (ok chatApiResponse) then
    let errorData :=
      match json chatApiResponse with
      | Normal d => d
      | Throw _ => JObj [("detail", JStr "Failed to get response from chat API.")]
      end in
    detail ← getProp errorData "detail";
    Throw (new_Error
             (or_else detail
                (JStr ("HTTP error! status: " +:+ pretty (status chatApiResponse)))))
  else
    aiResponseData ← json chatApiResponse;
    answer ← getProp aiResponseData "answer";
    Normal (or_else answer (JStr "Sorry, I couldn't process that.")).

Definition chat_settle (at_ : Stamp) (res : FetchResult) (s : State)
  : State * list Effect :=
  match chat_try res with
  | Throw err => failed err at_ s
  | Normal reply =>
      let newAiMessage :=
        mkChatMessage (pretty (now at_) +:+ "-ai-" +:+ random at_) ai reply
          (date at_) None in
      (setIsLoadingResponse false
         (setMessages (λ prev, (prev ++ [newAiMessage])%list) s), [])
  end.

(** The other handlers of the form. *)
Definition onImageChange (file : option File) (s : State) : State * list Effect :=
  match file with
  | Some f => (setSelectedImageFile (Some f) s, [readAsDataURL f; clear_file_input])
  | None => (setImagePreviewForMessage None (setSelectedImageFile None s), [])
  end.

Definition onloadend (result : string) (s : State) : State :=
  setImagePreviewForMessage (Some result) s.

Definition removeImage (s : State) : State :=
  setImagePreviewForMessage None (setSelectedImageFile None s).

(** The result of the voice recognition is appended to the message. *)
Definition onresult (transcript : string) (s : State) : State :=
  setCurrentMessage
    (λ prev, prev +:+ (if String.eqb prev "" then "" else " ") +:+ transcript) s.

Inductive Event : Type :=
| MessageTyped (value : string)
| ImageChosen (file : option File)
| PreviewLoaded (result : string)
| ImageRemoved
| VoiceResult (transcript : string)
| SendClicked (at_ : Stamp)
| OcrArrived (p : Pending) (at_ : Stamp) (res : FetchResult)
| ChatArrived (at_ : Stamp) (res : FetchResult).

Definition handle (ev : Event) (s : State) : State * list Effect :=
  match ev with
  | MessageTyped value => (setCurrentMessage (λ _, value) s, [])
  | ImageChosen file => onImageChange file s
  | PreviewLoaded result => (onloadend result s, [])
  | ImageRemoved => (removeImage s, [clear_file_input])
  | VoiceResult transcript =>
      (onresult transcript s,
       [toast (mkToast "Voice Input Captured" "Text added to your message."
                 default_variant)])
  | SendClicked at_ => handleSendMessage_begin at_ s
  | OcrArrived p at_ res => ocr_settle p at_ res s
  | ChatArrived at_ res => chat_settle at_ res s
  end.

Fixpoint run (events : list Event) (s : State) : State * list Effect :=
  match events with
  | [] => (s, [])
  | ev :: rest =>
      let (s1, effects1) := handle ev s in
      let (s2, effects2) := run rest s1 in
      (s2, (effects1 ++ effects2)%list)
  end.

End Chat.

(* ===================================================================== *)
(** * The camera of the tutor screen (src/components/TutorComponent.tsx) *)
(* ===================================================================== *)

Module Camera.
Import Js Http Browser.

(** The cells of the camera input; the capture also writes [problemInput],
    [loadingOcr] and [ocrApiError] of the tutor screen. *)
Record Cells : Type := mkCells {
  isCameraActive : bool;
  cameraError : option string;
  isCapturing : bool
}.

Definition setIsCameraActive (b : bool) (c : Cells) : Cells :=
  mkCells b (cameraError c) (isCapturing c).
Definition setCameraError (e : option string) (c : Cells) : Cells :=
  mkCells (isCameraActive c) e (isCapturing c).
Definition setIsCapturing (b : bool) (c : Cells) : Cells :=
  mkCells (isCameraActive c) (cameraError c) b.

Definition initial : Cells := mkCells false None false.

(** The screen as far as the camera handlers touch it. *)
Abbreviation Screen := (Cells * TutorComponent.State)%type.

(** ** [startCamera] and [stopCamera] *)

(** Up to the [await]: whether [getUserMedia] is called. *)
Definition startCamera_begin (c : Cells) : Cells * bool :=
  if isCameraActive c then (c, false)
  else (setIsCameraActive true (setCameraError None c), true).

(** The text for the [name] of the error. *)
Definition errMsg (name : string) : string :=
  if String.eqb name "NotAllowedError" || String.eqb name "PermissionDeniedError" then
    "Camera permission denied. Please allow access in browser settings."
  else if String.eqb name "NotFoundError" || String.eqb name "DevicesNotFoundError" then
    "No suitable camera found. Please ensure a camera is connected."
  else if String.eqb name "NotReadableError" || String.eqb name "TrackStartError" then
    "Camera might be in use by another application."
  else "Could not access the camera.".

(** What [getUserMedia] does: it resolves with a stream, or rejects with an
    error of that name. *)
Inductive Media : Type :=
| Granted
| Refused (name : string).

(** From the [await] on; [video] tells whether the video element is
    mounted.  Without it an [Error] is thrown, whose name is [Error]. *)
Definition startCamera_settle (m : Media) (video : bool) (c : Cells)
  : Cells * list Effect :=
  let caught (name : string) :=
    (setIsCameraActive false (setCameraError (Some (errMsg name)) c),
     [toast (mkToast "Camera Error" (errMsg name) destructive)]) in
  match m with
  | Granted => if video then (c, []) else caught "Error"
  | Refused name => caught name
  end.

Definition stopCamera (c : Cells) : Cells :=
  setCameraError None (setIsCameraActive false c).

(** ** [captureFrameAndRecognize] *)

(** Up to the call of [toBlob]; [refs] tells whether the video and the
    canvas are mounted, [context] whether the canvas has a 2d context.  The
    boolean tells whether [toBlob] is called. *)
Definition captureFrameAndRecognize (refs context : bool) (p : Screen)
  : Screen * bool :=
  let (c, s) := p in
  if negb refs || negb (isCameraActive c) then (p, false)
  else
    let c1 := setIsCapturing true c in
    let s1 := TutorComponent.setOcrApiError None s in
    if negb context then
      ((setIsCapturing false c1,
        TutorComponent.setOcrApiError
          (Some "Could not get canvas context for capture.") s1), false)
    else ((c1, s1), true).

(** The callback of [toBlob] up to its [await]; [blob] is the size of the
    image, if one could be made, and [now] is [Date.now()]. *)
Definition onBlob (blob : option Z) (now : Z) (p : Screen) : Screen * list Effect :=
  let (c, s) := p in
  match blob with
  | None =>
      ((setIsCapturing false c,
        TutorComponent.setOcrApiError
          (Some "Failed to create image blob from canvas.") s), [])
  | Some size =>
      ((stopCamera c, TutorComponent.setLoadingOcr true s),
       [fetch (upload_image
                 (mkFile ("capture-" +:+ pretty now +:+ ".png") "image/png" size))])
  end.

(** The [try] block from the [await] on: the extracted text, or the error. *)
Definition capture_try (res : FetchResult) : Completion JsValue :=
  response ← await res;
  data ← json response;
  if negb (ok response) then
    detail ← getProp data "detail";
    errorMsg ← or_elseM detail
      (error ← getProp data "error";
       Normal (or_else error
                 (JStr ("HTTP error! status: " +:+ pretty (status response)))));
    Throw (new_Error errorMsg)
  else
    st ← getProp data "status";
    extracted_text ← getProp data "extracted_text";
    if is_string st "success" && negb (is_undefined extracted_text) then
      Normal (or_else extracted_text (JStr ""))
    else
      error ← getProp data "error";
      Throw (new_Error
               (or_else error (JStr "OCR failed. No text extracted from capture."))).

Definition capture_settle (res : FetchResult) (p : Screen) : Screen * list Effect :=
  let (c, s) := p in
  match capture_try res with
  | Normal extracted =>
      ((setIsCapturing false c,
        TutorComponent.setLoadingOcr false
          (TutorComponent.setProblemInput extracted s)),
       [toast (mkToast "Text Extracted from Camera"
                 (if ToBoolean extracted then "Review text in the input area below."
                  else "No text found in captured image.")
                 default_variant)])
  | Throw error =>
      let errorMsg :=
        message_or error "Failed to connect to the OCR service for capture." in
      ((setIsCapturing false c,
        TutorComponent.setLoadingOcr false
          (TutorComponent.setProblemInput (JStr "")
             (TutorComponent.setOcrApiError (Some errorMsg) s))),
       [toast (mkToast "Capture OCR Failed" errorMsg destructive)])
  end.

Inductive Event : Type :=
| StartClicked
| MediaArrived (m : Media) (video : bool)
| StopClicked
| CaptureClicked (refs context : bool)
| BlobReady (blob : option Z) (now : Z)
| CaptureArrived (res : FetchResult).

Definition handle (ev : Event) (p : Screen) : Screen * list Effect :=
  match ev with
  | StartClicked => ((fst (startCamera_begin (fst p)), snd p), [])
  | MediaArrived m video =>
      let (c, effects) := startCamera_settle m video (fst p) in
      ((c, snd p), effects)
  | StopClicked => ((stopCamera (fst p), snd p), [])
  | CaptureClicked refs context => (fst (captureFrameAndRecognize refs context p), [])
  | BlobReady blob now => onBlob blob now p
  | CaptureArrived res => capture_settle res p
  end.

Fixpoint run (events : list Event) (p : Screen) : Screen * list Effect :=
  match events with
  | [] => (p, [])
  | ev :: rest =>
      let (p1, effects1) := handle ev p in
      let (p2, effects2) := run rest p1 in
      (p2, (effects1 ++ effects2)%list)
  end.

End Camera.

(* ===================================================================== *)
(** * The notions the specification is stated with *)
(* ===================================================================== *)

Import Js Http Browser.

(** [v != null] *)
Definition non_null (v : JsValue) : Prop := v ≠ JNull ∧ v ≠ JUndefined.

(** The invariant of the session: logged in only with a user and a token. *)
Definition session_inv (s : AuthContext.Session) : Prop :=
  AuthContext.isLoggedIn s = true →
  non_null (AuthContext.user s) ∧ non_null (AuthContext.token s).

(** The three persisted keys. *)
Definition session_keys : list string := ["user"; "token"; "isLoggedIn"].

(** None of the three keys is stored. *)
Definition cleared (st : gmap string string) : Prop :=
  st !! "user" = None ∧ st !! "token" = None ∧ st !! "isLoggedIn" = None.

(** All of the three keys are stored, the flag as the text true. *)
Definition populated (st : gmap string string) : Prop :=
  is_Some (st !! "user") ∧ is_Some (st !! "token") ∧ st !! "isLoggedIn" = Some "true".

(** The keys stand or fall together. *)
Definition grouped (st : gmap string string) : Prop := cleared st ∨ populated st.

(** The storage with the three keys removed. *)
Definition without_session (st : gmap string string) : gmap string string :=
  delete "isLoggedIn" (delete "token" (delete "user" st)).

(** The cells of a logged-out provider that is done loading. *)
Definition logged_out : AuthContext.Session :=
  AuthContext.mkSession JNull false false JNull.

(** What the initial effect requires before it restores a session: the flag
    is the text true, and user and token are stored and not empty. *)
Definition restorable (st : gmap string string) : Prop :=
  st !! "isLoggedIn" = Some "true"
  ∧ AuthContext.present (st !! "user") = true
  ∧ AuthContext.present (st !! "token") = true.

(** The ways a login call fails: the request does not get through; the
    status is not a success; the body is not JSON, or is [null]; the body
    lacks a truthy [access_token]; the body lacks a truthy [user]. *)
Inductive login_failure : FetchResult → Prop :=
| network_error err :
    login_failure (Rejected err)
| status_not_ok response :
    ok response = false → login_failure (Resolved response)
| body_not_json response err :
    json response = Throw err → login_failure (Resolved response)
| body_null response data err :
    json response = Normal data → getProp data "access_token" = Throw err →
    login_failure (Resolved response)
| missing_access_token response data access_token :
    json response = Normal data →
    getProp data "access_token" = Normal access_token →
    ToBoolean access_token = false →
    login_failure (Resolved response)
| missing_user response data u :
    json response = Normal data →
    getProp data "user" = Normal u →
    ToBoolean u = false →
    login_failure (Resolved response).

(** [data.k] of data that can be read from. *)
Definition prop (data : JsValue) (k : string) : JsValue :=
  match getProp data k with
  | Normal v => v
  | Throw _ => JUndefined
  end.

(** The first truthy candidate, else the generic text. *)
Fixpoint first_truthy (candidates : list JsValue) (generic : string) : JsValue :=
  match candidates with
  | [] => JStr generic
  | v :: rest => if ToBoolean v then v else first_truthy rest generic
  end.

(** A truthy value as its JSON text; anything falsy as [null]. *)
Definition serialised (v : JsValue) : JsValue :=
  if ToBoolean v then JStr (default "undefined" (JSON_stringify v)) else JNull.

(** The solve button's guard lets the state through: the input is a string
    with something other than white space in it. *)
Definition submittable (input : JsValue) : Prop :=
  ∃ trimmed, call_trim input = Normal trimmed ∧ trimmed ≠ "".

(** The events of the explain-step protocol. *)
Definition is_explain (ev : TutorComponent.Event) : bool :=
  match ev with
  | TutorComponent.ExplainClicked _ _ | TutorComponent.ExplainArrived _ _ => true
  | _ => false
  end.

(** What the proofs maintain about the storage: the three keys are absent,
    or they hold what a successful login wrote, the user as the
    serialisation of an object. *)
Definition stored_ok (st : gmap string string) : Prop :=
  cleared st
  ∨ (∃ members tok,
       st !! "user" = JSON_stringify (JObj members)
       ∧ st !! "token" = Some tok
       ∧ st !! "isLoggedIn" = Some "true").

Definition world_inv (w : AuthContext.World) : Prop :=
  session_inv (AuthContext.session w) ∧ stored_ok (AuthContext.storage w).

(** What the storage must be like at a mount for the invariant to hold from
    then on: none of the three keys is stored; or all three are stored and,
    where the initial effect would restore the session, the stored user does
    not parse to [null]. *)
Definition sound_storage (st : gmap string string) : Prop :=
  cleared st
  ∨ (populated st
     ∧ (restorable st →
        ∀ parsed, JSON_parse (default "" (st !! "user")) = Some parsed →
                  non_null parsed)).

(** ** Notions for the properties beyond the specification *)

(** The header is built only while the session is logged in. *)
Definition header_inv (w : AuthContext.World) : Prop :=
  AuthContext.getAuthHeader w ≠ [] → AuthContext.isLoggedIn (AuthContext.session w) = true.

(** The keys the session manager ever writes or removes. *)
Definition managed_keys : list string :=
  ["user"; "token"; "isLoggedIn"; "userName"; "userEmail"].

(** The login page as it stands after the location effect and some typing. *)
Definition typed (edits : list (string * string)) (s : Login.State) : Login.State :=
  fold_left (λ s e, Login.handleChange (fst e) (snd e) s) edits s.

(** The diagnosis panel shows [msg] as the error and no feedback. *)
Definition shows (msg : string) (s : MistakeDiagnosis.State) : Prop :=
  MistakeDiagnosis.error s = JStr msg ∧ MistakeDiagnosis.feedback s = JStr "".

(** The panel never shows an error and a feedback together. *)
Definition exclusive (s : MistakeDiagnosis.State) : Prop :=
  ToBoolean (MistakeDiagnosis.error s) && ToBoolean (MistakeDiagnosis.feedback s) = false.

Definition is_problem_typed (ev : MistakeDiagnosis.Event) : bool :=
  match ev with
  | MistakeDiagnosis.ProblemTyped _ => true
  | _ => false
  end.

(** The order of the levels. *)
Definition rank (l : Xp.UserLevel) : Z :=
  match l with
  | Xp.Bronze => 0
  | Xp.Silver => 1
  | Xp.Gold => 2
  | Xp.Platinum => 3
  end.

(** The chapters of the subject of that name. *)
Definition chapters_of (subject_name : string) : list Practice.Chapter :=
  match find (λ x, String.eqb (Practice.subject x) subject_name) Practice.mainSubjects with
  | Some x => Practice.chapters x
  | None => []
  end.

(** The cells of the two selects. *)
Definition selection (s : Practice.State) : string * list Practice.Chapter * string :=
  (Practice.selectedSubjectName s, Practice.availableChapters s,
   Practice.selectedChapterName s).

(** The two selects agree: the chapters on offer are those of the selected
    subject, and the selected chapter, if any, is one of them. *)
Definition selection_inv (s : Practice.State) : Prop :=
  Practice.availableChapters s = chapters_of (Practice.selectedSubjectName s)
  ∧ (Practice.selectedChapterName s = ""
     ∨ In (Practice.mkChapter (Practice.selectedChapterName s))
          (Practice.availableChapters s)).

(** A request names a chapter of the subject it is about. *)
Definition for_subject (r : Practice.Request) : Prop :=
  match r with
  | Practice.cs_questions c | Practice.cs_learning_aids c _ =>
      In (Practice.mkChapter c) (chapters_of "Computer Science")
  | Practice.generate_practice_problem t =>
      In (Practice.mkChapter t) (chapters_of "Mathematics")
  | Practice.cs_submit _ => True
  end.

(** What the validation of a computer-science question lets through. *)
Definition well_formed_question (q : JsValue) : Prop :=
  ToBoolean q = true
  ∧ ToBoolean (prop q "id") = true
  ∧ ToBoolean (prop q "question_type") = true
  ∧ ToBoolean (prop q "question_text") = true.

(** What the validation of a submission feedback lets through. *)
Definition well_formed_feedback (f : JsValue) : Prop :=
  ToBoolean f = true
  ∧ prop f "correct" ≠ JUndefined
  ∧ ToBoolean (prop f "explanation") = true.

(** What the validation of a learning aid lets through. *)
Definition well_formed_aid (d : JsValue) : Prop :=
  ToBoolean (prop d "aid_type") = true
  ∧ ToBoolean (prop d "chapter") = true
  ∧ (prop d "aid_type" = JStr "flashcards" → ToBoolean (prop d "flashcards") = true)
  ∧ (prop d "aid_type" = JStr "summary" → ∃ text, prop d "summary_text" = JStr text)
  ∧ (prop d "aid_type" = JStr "key_points" → ToBoolean (prop d "key_points") = true).

(** The question cell holds nothing or a question that passed validation. *)
Definition question_inv (s : Practice.State) : Prop :=
  Practice.currentCSQuestion s = JNull
  ∨ well_formed_question (Practice.currentCSQuestion s).

(** A submission names the question by a truthy id and type and a text that
    is a string and not empty, and carries an answer. *)
Definition well_formed_submission (r : Practice.Request) : Prop :=
  match r with
  | Practice.cs_submit payload =>
      ToBoolean (prop payload "question_id") = true
      ∧ ToBoolean (prop payload "question_type") = true
      ∧ (∃ text, prop payload "question_text" = JStr text ∧ text ≠ "")
      ∧ (∃ answer, prop payload "answer" = JStr answer)
  | _ => True
  end.

(** The aid cell holds nothing or an aid that passed validation. *)
Definition aid_inv (s : Practice.State) : Prop :=
  Practice.currentLearningAid s = JNull
  ∨ well_formed_aid (Practice.currentLearningAid s).

(** The solution on display and what belongs to it. *)
Definition solved (s : TutorComponent.State)
  : JsValue * gmap string TutorComponent.Explanation * option string :=
  (TutorComponent.solution s, TutorComponent.stepExplanations s,
   TutorComponent.solutionError s).

Definition is_upload (r : Request) : Prop :=
  match r with
  | upload_image _ => True
  | _ => False
  end.

(* ===================================================================== *)
(** * Facts about runtime values *)
(* ===================================================================== *)

Lemma getProp_total (v : JsValue) (k k' : string) (x : JsValue) :
  getProp v k = Normal x → ∃ y, getProp v k' = Normal y.
Proof. destruct v; simpl; intros H; try discriminate; eauto. Qed.

Lemma truthy_non_null (v : JsValue) : ToBoolean v = true → non_null v.
Proof. destruct v; simpl; intros H; try discriminate; split; discriminate. Qed.

(** Serialising an object yields a text that opens with a brace. *)
Lemma JSON_stringify_object (members : list (string * JsValue)) :
  ∃ t, JSON_stringify (JObj members) = Some (String "{" t).
Proof. unfold JSON_stringify. simpl. eauto. Qed.


Lemma parse_members_object (fuel : nat) :
  ∀ s acc v rest,
    parse_members fuel s acc = Some (v, rest) → ∃ members, v = JObj members.
Proof.
  induction fuel as [|fuel IH]; intros s acc v rest; simpl; [discriminate|].
  destruct (skip_ws s) as [|c r]; [discriminate|].
  destruct (Ascii.eqb c dquote); [|discriminate].
  destruct (parse_chars r) as [[k s1]|]; [|discriminate].
  destruct (skip_ws s1) as [|c1 s2]; [discriminate|].
  destruct (Ascii.eqb_spec c1 ":"); [subst c1|]; cycle 1.
  { intros H. exfalso. revert H.
    destruct c1 as [[] [] [] [] [] [] [] []]; try discriminate; congruence. }
  destruct (parse_value fuel s2) as [[x s3]|]; [|discriminate].
  destruct (skip_ws s3) as [|c3 s4]; [discriminate|].
  destruct (Ascii.eqb_spec c3 ","); [subst c3; apply IH|].
  destruct (Ascii.eqb_spec c3 "}"); [subst c3; intros ?; simplify_eq; eauto|].
  intros H. exfalso. revert H.
  destruct c3 as [[] [] [] [] [] [] [] []]; try discriminate; congruence.
Qed.

Lemma parse_value_brace (fuel : nat) (t : string) (v : JsValue) (rest : string) :
  parse_value (S fuel) (String "{" t) = Some (v, rest) → ∃ members, v = JObj members.
Proof.
  simpl.
  destruct (skip_ws t) as [|c r] eqn:Et.
  - apply parse_members_object.
  - destruct (Ascii.eqb_spec c "}"); [subst c; intros ?; simplify_eq; eauto|].
    intros E. assert (parse_members fuel t [] = Some (v, rest)) as E'.
    { revert E. destruct c as [[] [] [] [] [] [] [] []]; try done. }
    eapply parse_members_object, E'.
Qed.

(** A text that opens with a brace parses to an object or not at all; in
    particular never to [null]. *)
Lemma JSON_parse_object (t : string) (v : JsValue) :
  JSON_parse (String "{" t) = Some v → ∃ members, v = JObj members.
Proof.
  unfold JSON_parse.
  replace (2 * String.length (String "{" t) + 2)%nat
    with (S (2 * String.length (String "{" t) + 1))%nat by lia.
  generalize (2 * String.length (String "{" t) + 1)%nat; intros fuel.
  destruct (parse_value (S fuel) (String "{" t)) as [[x rest]|] eqn:E; [|discriminate].
  intros H. assert (x = v) as -> by (destruct (skip_ws rest); congruence).
  eapply parse_value_brace, E.
Qed.

(* ===================================================================== *)
(** * The session manager *)
(* ===================================================================== *)

Section Session.
Import AuthContext.

Lemma storage_clearSession (w : World) :
  storage (clearSession w) = without_session (storage w).
Proof. reflexivity. Qed.

Lemma session_clearSession (w : World) :
  session (clearSession w) = mkSession JNull false (isLoading (session w)) JNull.
Proof. reflexivity. Qed.

Lemma without_session_cleared (st : Storage) : cleared (without_session st).
Proof.
  unfold cleared, without_session.
  repeat split; simplify_map_eq; done.
Qed.

Lemma without_session_other (st : Storage) (k : string) :
  k ∉ session_keys → without_session st !! k = st !! k.
Proof.
  unfold session_keys, without_session. intros Hk.
  rewrite !lookup_delete_ne; [done|..]; intros <-; apply Hk; set_solver.
Qed.

Lemma restorable_dec (st : Storage) :
  bool_decide (getItem "isLoggedIn" st = Some "true")
  && present (getItem "user" st) && present (getItem "token" st) = true
  ↔ restorable st.
Proof.
  unfold restorable, getItem.
  rewrite !andb_true_iff, bool_decide_eq_true. tauto.
Qed.

(** The three outcomes of the initial effect. *)
Lemma initialize_restores (st : Storage) (s : Session) (parsed : JsValue) :
  restorable st →
  JSON_parse (default "" (st !! "user")) = Some parsed →
  initialize (mkWorld st s)
  = mkWorld st (mkSession parsed true false (JStr (default "" (st !! "token")))).
Proof.
  intros Hr Hp. apply restorable_dec in Hr.
  unfold initialize. cbn [storage]. rewrite Hr.
  unfold getItem. rewrite Hp. reflexivity.
Qed.

Lemma initialize_heals (st : Storage) (s : Session) :
  restorable st →
  JSON_parse (default "" (st !! "user")) = None →
  initialize (mkWorld st s) = mkWorld (without_session st) logged_out.
Proof.
  intros Hr Hp. apply restorable_dec in Hr.
  unfold initialize. cbn [storage]. rewrite Hr.
  unfold getItem. rewrite Hp. reflexivity.
Qed.

Lemma initialize_skips (st : Storage) (s : Session) :
  ¬ restorable st →
  initialize (mkWorld st s) = mkWorld st (setIsLoading false s).
Proof.
  intros Hr. rewrite <- restorable_dec in Hr. apply not_true_is_false in Hr.
  unfold initialize. cbn [storage]. rewrite Hr. reflexivity.
Qed.

(** The two outcomes of the check of the login response. *)
Lemma login_try_failure (res : FetchResult) :
  login_failure res → ∃ err, login_try res = Throw err.
Proof.
  unfold login_try, mbind, Completion_bind, bind.
  destruct 1 as [err|r Hok|r err Hj|r data err Hj Hp|r data a Hj Hp Ha|r data u Hj Hp Hu];
    cbn [await].
  - eauto.
  - rewrite Hok. cbn [negb].
    destruct (json r) as [data|]; [|eauto].
    destruct (getProp data "detail") as [detail|]; [|eauto].
    unfold or_elseM. destruct (ToBoolean detail); [eauto|].
    destruct (getProp data "error"); eauto.
  - rewrite Hj. eauto.
  - rewrite Hj.
    assert (∀ k, ∃ e, getProp data k = Throw e) as Hall.
    { destruct data; try discriminate; simpl; eauto. }
    destruct (negb (ok r)).
    + destruct (Hall "detail") as [e ->]. eauto.
    + rewrite Hp. eauto.
  - rewrite Hj. rewrite Hp, Ha. cbn [negb].
    destruct (getProp_total _ _ "detail" _ Hp) as [detail ->].
    destruct (getProp_total _ _ "error" _ Hp) as [error ->].
    unfold or_elseM. destruct (negb (ok r)), (ToBoolean detail); eauto.
  - rewrite Hj.
    destruct (getProp_total _ _ "access_token" _ Hp) as [a Ha].
    destruct (getProp_total _ _ "detail" _ Hp) as [detail Hd].
    destruct (getProp_total _ _ "error" _ Hp) as [error He].
    rewrite Ha, Hp, Hu, Hd, He. cbn [negb].
    unfold or_elseM.
    destruct (negb (ok r)), (negb (ToBoolean a)), (ToBoolean detail); eauto.
Qed.

Lemma login_try_success (res : FetchResult) (userData access_token : JsValue) :
  login_try res = Normal (userData, access_token) →
  (∃ name email, userData = JObj [("name", name); ("email", email)])
  ∧ ToBoolean access_token = true
  ∧ ¬ login_failure res.
Proof.
  unfold login_try, mbind, Completion_bind, bind.
  destruct res as [err|r]; cbn [await]; [discriminate|].
  destruct (json r) as [data|] eqn:Hj; [|discriminate].
  destruct (ok r) eqn:Hok; cbn [negb].
  2:{ destruct (getProp data "detail") as [detail|]; [|discriminate].
      unfold or_elseM. destruct (ToBoolean detail); [discriminate|].
      destruct (getProp data "error"); discriminate. }
  destruct (getProp data "access_token") as [a|] eqn:Ha; [|discriminate].
  destruct (ToBoolean a) eqn:Hta; cbn [negb].
  2:{ destruct (getProp data "detail") as [detail|]; [|discriminate].
      unfold or_elseM. destruct (ToBoolean detail); [discriminate|].
      destruct (getProp data "error"); discriminate. }
  destruct (getProp data "user") as [u|] eqn:Hu; [|discriminate].
  destruct (ToBoolean u) eqn:Htu; cbn [negb].
  2:{ destruct (getProp data "detail") as [detail|]; [|discriminate].
      unfold or_elseM. destruct (ToBoolean detail); [discriminate|].
      destruct (getProp data "error"); discriminate. }
  destruct (getProp u "name") as [name|]; [|discriminate].
  destruct (getProp u "email") as [email|]; [|discriminate].
  intros [= <- <-]. split; [eauto|]. split; [done|].
  inversion 1; subst; congruence.
Qed.

Lemma session_inv_setIsLoading (b : bool) (s : Session) :
  session_inv s → session_inv (setIsLoading b s).
Proof. unfold session_inv. destruct s; simpl. done. Qed.

Lemma session_inv_logged_out (b : bool) : session_inv (mkSession JNull false b JNull).
Proof. unfold session_inv; simpl. discriminate. Qed.

(** Every operation keeps the invariant of session and storage. *)
Lemma step_preserves (w : World) (op : Op) : world_inv w → world_inv (step w op).
Proof.
  destruct w as [st s]. intros [Hs Hst]. unfold world_inv in *. cbn [storage session] in *.
  destruct op as [|email pass|res|]; cbn [step storage session].
  - (* Reload *)
    destruct (bool_decide (getItem "isLoggedIn" st = Some "true")
              && present (getItem "user" st) && present (getItem "token" st)) eqn:Hr.
    + apply restorable_dec in Hr.
      destruct (JSON_parse (default "" (st !! "user"))) as [parsed|] eqn:Hp.
      * rewrite (initialize_restores _ _ _ Hr Hp). cbn [storage session].
        split; [|done]. intros _. cbn [user token].
        destruct Hst as [(Hu & _ & Hl)|(members & tok & Hu & _ & _)].
        { destruct Hr as [Hr _]. congruence. }
        destruct (JSON_stringify_object members) as [t Ht].
        rewrite Hu, Ht in Hp. cbn [default] in Hp.
        apply JSON_parse_object in Hp as [ms ->].
        split; split; discriminate.
      * rewrite (initialize_heals _ _ Hr Hp). cbn [storage session].
        split; [apply session_inv_logged_out|].
        left. apply without_session_cleared.
    + assert (¬ restorable st) as Hn by (rewrite <- restorable_dec, Hr; done).
      rewrite (initialize_skips _ _ Hn). cbn [storage session].
      split; [apply session_inv_logged_out|done].
  - (* login called *)
    split; [apply session_inv_setIsLoading, Hs|done].
  - (* login response *)
    unfold login_settle.
    destruct (login_try res) as [[userData access_token]|err] eqn:Ht.
    + apply login_try_success in Ht as ((name & email & ->) & Ha & _).
      cbn [fst storage session onStorage onSession setItem setUser setToken
           setIsLoggedIn setIsLoading user token isLoggedIn isLoading].
      split.
      * intros _. cbn [user token].
        split; [split; discriminate|by apply truthy_non_null].
      * right. exists [("name", name); ("email", email)], (ToString access_token).
        destruct (JSON_stringify_object [("name", name); ("email", email)]) as [t Hj].
        rewrite Hj. clear Hj. unfold setItem. cbn [default].
        repeat split; by simplify_map_eq.
    + cbn [fst]. split.
      * apply session_inv_logged_out.
      * left. apply without_session_cleared.
  - (* logout *)
    cbn [logout fst storage session onStorage onSession removeItem setUser setToken
         setIsLoggedIn].
    split; [apply session_inv_logged_out|].
    left. unfold cleared, removeItem. clear. repeat split; by simplify_map_eq.
Qed.

Lemma run_preserves (ops : list Op) :
  ∀ w, world_inv w → world_inv (run w ops).
Proof.
  unfold run. induction ops as [|op ops IH]; intros w Hw; cbn [fold_left]; [done|].
  apply IH, step_preserves, Hw.
Qed.

Lemma stored_ok_grouped (st : Storage) : stored_ok st → grouped st.
Proof.
  intros [Hc|(members & tok & Hu & Ht & Hl)]; [by left|right].
  destruct (JSON_stringify_object members) as [t Hj].
  unfold populated. rewrite Hu, Hj, Ht. eauto.
Qed.

Lemma sound_grouped (st : Storage) : sound_storage st → grouped st.
Proof. intros [Hc|[Hp _]]; [by left|by right]. Qed.

Lemma sound_restorable (st : Storage) (parsed : JsValue) :
  sound_storage st → restorable st →
  JSON_parse (default "" (st !! "user")) = Some parsed → non_null parsed.
Proof.
  intros [(_ & _ & Hl)|[_ Hp]] Hr; [|by apply Hp].
  destruct Hr as (Hflag & _). congruence.
Qed.

Lemma stored_ok_sound (st : Storage) : stored_ok st → sound_storage st.
Proof.
  intros Hst. destruct (stored_ok_grouped st Hst) as [Hc|Hp]; [by left|right].
  split; [exact Hp|]. intros Hr parsed Hparse.
  destruct Hst as [(_ & _ & Hl)|(members & tok & Hu & _ & _)].
  - destruct Hr as (Hflag & _). congruence.
  - destruct (JSON_stringify_object members) as [t Ht].
    rewrite Hu, Ht in Hparse. cbn [default] in Hparse.
    apply JSON_parse_object in Hparse as [ms ->]. split; discriminate.
Qed.

Lemma clearSession_world (st : Storage) (s : Session) :
  onSession (setIsLoading false) (clearSession (mkWorld st s))
  = mkWorld (without_session st) logged_out.
Proof. reflexivity. Qed.

(** Every operation keeps the invariant of the session and a sound storage
    sound. *)
Lemma step_preserves_sound (w : World) (op : Op) :
  session_inv (session w) ∧ sound_storage (storage w) →
  session_inv (session (step w op)) ∧ sound_storage (storage (step w op)).
Proof.
  destruct w as [st s]. cbn [storage session]. intros [Hs Hst].
  destruct op as [|email pass|res|].
  - (* Reload *)
    cbn [step storage session].
    destruct (bool_decide (getItem "isLoggedIn" st = Some "true")
              && present (getItem "user" st) && present (getItem "token" st)) eqn:Hr.
    + apply restorable_dec in Hr.
      destruct (JSON_parse (default "" (st !! "user"))) as [parsed|] eqn:Hp.
      * rewrite (initialize_restores _ _ _ Hr Hp). cbn [storage session].
        split; [|done]. intros _. cbn [user token].
        split; [by eapply sound_restorable|split; discriminate].
      * rewrite (initialize_heals _ _ Hr Hp). cbn [storage session].
        split; [apply session_inv_logged_out|].
        left. apply without_session_cleared.
    + assert (¬ restorable st) as Hn by (rewrite <- restorable_dec, Hr; done).
      rewrite (initialize_skips _ _ Hn). cbn [storage session].
      split; [apply session_inv_logged_out|done].
  - (* login called *)
    cbn [step login_begin fst onSession storage session].
    split; [apply session_inv_setIsLoading, Hs|done].
  - (* login response *)
    cbn [step]. unfold login_settle.
    destruct (login_try res) as [[userData access_token]|err] eqn:Ht.
    + apply login_try_success in Ht as ((name & email & ->) & Ha & _).
      cbn [fst storage session onStorage onSession setItem setUser setToken
           setIsLoggedIn setIsLoading user token isLoggedIn isLoading].
      split.
      * intros _. cbn [user token].
        split; [split; discriminate|by apply truthy_non_null].
      * apply stored_ok_sound. right.
        exists [("name", name); ("email", email)], (ToString access_token).
        destruct (JSON_stringify_object [("name", name); ("email", email)]) as [t Hj].
        rewrite Hj. clear Hj. unfold setItem. cbn [default].
        repeat split; by simplify_map_eq.
    + cbn [fst]. rewrite clearSession_world. cbn [storage session].
      split; [apply session_inv_logged_out|].
      left. apply without_session_cleared.
  - (* logout *)
    cbn [step logout fst storage session onStorage onSession removeItem setUser setToken
         setIsLoggedIn].
    split; [apply session_inv_logged_out|].
    left. unfold cleared, removeItem. clear.
    repeat split; by simplify_map_eq.
Qed.

Lemma run_preserves_sound (ops : list Op) :
  ∀ w, session_inv (session w) ∧ sound_storage (storage w) →
       session_inv (session (run w ops)) ∧ sound_storage (storage (run w ops)).
Proof.
  unfold run. induction ops as [|op ops IH]; intros w Hw; cbn [fold_left]; [done|].
  apply IH, step_preserves_sound, Hw.
Qed.

(** C1. The session manager maintains: whenever [isLoggedIn] is true, both
    [user] and [token] are non-null; and the three persisted keys are stored
    together or absent together.  This holds after every sequence of
    operations (page loads running the initial effect, login calls up to the
    await, the arrival of any response or network failure, logouts) that
    starts at a mount over a sound storage: one that holds none of the three
    keys, or all three of them with a user that, where the initial effect
    would restore the session, does not parse to [null].  The storage is
    sound again after every such sequence: what the session manager writes
    keeps it so. *)
Theorem session_invariant (st : Storage) (ops : list Op) :
  sound_storage st →
  let w := run (mkWorld st mount) ops in
  session_inv (session w) ∧ grouped (storage w) ∧ sound_storage (storage w).
Proof.
  intros Hst. cbv zeta.
  destruct (run_preserves_sound ops (mkWorld st mount)) as [Hs Hg].
  - split; [apply session_inv_logged_out|exact Hst].
  - split; [exact Hs|]. split; [by apply sound_grouped|exact Hg].
Qed.

(** C1, as stated for every storage, fails.  Over a storage that holds the
    three keys together, with the user stored as the text null, the initial
    effect parses the user without an error and ends logged in with a user
    that is [null]: the operation does not preserve the invariant.  And over
    a storage that holds only a token the effect leaves the token alone, so
    the keys stay partially populated. *)
Lemma reload_restores_null_user :
  let st : Storage :=
    <["isLoggedIn" := "true"]> (<["token" := "abc123"]> (<["user" := "null"]> ∅)) in
  let w := run (mkWorld st mount) [Reload] in
  session_inv mount ∧ grouped st
  ∧ isLoggedIn (session w) = true
  ∧ user (session w) = JNull
  ∧ ¬ session_inv (session w)
  ∧ ¬ grouped (storage (run (mkWorld {["token" := "abc123"]} mount) [Reload])).
Proof.
  cbv zeta.
  split; [apply session_inv_logged_out|].
  split; [right; repeat split; eauto|].
  split; [reflexivity|]. split; [reflexivity|]. split.
  - intros H. destruct (H eq_refl) as [[Hu _] _]. by apply Hu.
  - intros [(_ & Ht & _)|((x & Hx) & _)]; [vm_compute in Ht|vm_compute in Hx];
      discriminate.
Qed.

(** C2, as stated, fails: a storage that holds a token but neither user nor
    flag is not restorable, and the initial effect ends logged out but leaves
    the token where it is. *)
Lemma initialize_keeps_partial_storage :
  let st : Storage := {["token" := "abc123"]} in
  let w := initialize (mkWorld st mount) in
  ¬ restorable st
  ∧ session w = logged_out
  ∧ storage w !! "token" = Some "abc123"
  ∧ ¬ cleared (storage w).
Proof.
  cbv zeta.
  assert (¬ restorable ({["token" := "abc123"]} : Storage)) as Hn.
  { intros (Hflag & _). vm_compute in Hflag. discriminate. }
  split; [exact Hn|]. rewrite (initialize_skips _ _ Hn).
  split; [reflexivity|]. split; [reflexivity|].
  intros (_ & Htoken & _). vm_compute in Htoken. discriminate.
Qed.

(** C2, amended.  For every starting content of the storage, the initial
    effect ends logged out (no user, no token, not loading) unless the flag is
    stored as true, user and token are stored and not empty, and the user
    parses; it removes the three keys when flag, user and token are so stored
    and the user does not parse; in every other case it leaves the storage
    as it found it. *)
Theorem initialize_self_heals (st : Storage) :
  let w := initialize (mkWorld st mount) in
  (¬ (restorable st ∧ is_Some (JSON_parse (default "" (st !! "user")))) →
   session w = logged_out)
  ∧ (restorable st → JSON_parse (default "" (st !! "user")) = None →
     storage w = without_session st ∧ cleared (storage w))
  ∧ (¬ (restorable st ∧ JSON_parse (default "" (st !! "user")) = None) →
     storage w = st).
Proof.
  cbv zeta.
  destruct (bool_decide (getItem "isLoggedIn" st = Some "true")
            && present (getItem "user" st) && present (getItem "token" st)) eqn:Hr.
  - apply restorable_dec in Hr.
    destruct (JSON_parse (default "" (st !! "user"))) as [parsed|] eqn:Hp.
    + rewrite (initialize_restores _ _ _ Hr Hp).
      split; [intros []; eauto|]. split; [discriminate|done].
    + rewrite (initialize_heals _ _ Hr Hp).
      split; [done|]. split; [|intros []; done].
      intros _ _. split; [done|apply without_session_cleared].
  - assert (¬ restorable st) as Hn by (rewrite <- restorable_dec, Hr; done).
    rewrite (initialize_skips _ _ Hn).
    split; [done|]. split; [done|done].
Qed.

(** C3. Every failed login call, whatever the failure (the request does not
    get through, the status is not a success, the body is unusable, the
    access token or the user is missing), removes the three persisted keys,
    leaves no user, no token and the logged-out flag in memory, and throws
    to the caller; the state it leaves is the one a network failure leaves. *)
Theorem login_failure_clears (email pass : JsValue) (res : FetchResult) (w : World) :
  login_failure res →
  (∃ err,
     login email pass res w
     = (mkWorld (without_session (storage w)) logged_out, Throw err))
  ∧ (∀ err0,
       fst (login email pass res w) = fst (login email pass (Rejected err0) w)).
Proof.
  intros Hf. apply login_try_failure in Hf as [err Ht].
  unfold login, login_settle. rewrite Ht. cbn [login_try await mbind Completion_bind bind].
  split; [exists err|]; reflexivity.
Qed.

End Session.

(** A login with token abc123 followed by a page load restores the user that
    was stored, and the header carries the token. *)
Example login_then_reload :
  let response :=
    mkResponse 200
      (Normal (JObj [("access_token", JStr "abc123"); ("token_type", JStr "bearer");
                     ("user", JObj [("name", JStr "Ada"); ("email", JStr "ada@example.org")])])) in
  let w := AuthContext.run (AuthContext.mkWorld ∅ AuthContext.mount)
             [AuthContext.Reload;
              AuthContext.LoginCalled (JStr "ada@example.org") (JStr "pw");
              AuthContext.LoginArrived (Resolved response);
              AuthContext.Reload] in
  AuthContext.session w
  = AuthContext.mkSession
      (JObj [("name", JStr "Ada"); ("email", JStr "ada@example.org")]) true false
      (JStr "abc123")
  ∧ AuthContext.getAuthHeader w = [("Authorization", "Bearer abc123")].
Proof. vm_compute. split; reflexivity. Qed.

(** The invariant after a page load, a successful login and a second page
    load, starting from the storage an earlier session left behind. *)
Lemma session_invariant_witness :
  let st : gmap string string :=
    <["isLoggedIn" := "true"]> (<["token" := "old"]> (<["user" := "{}"]> ∅)) in
  let ops :=
    [AuthContext.Reload;
     AuthContext.LoginCalled (JStr "ada@example.org") (JStr "pw");
     AuthContext.LoginArrived
       (Resolved
          (mkResponse 200
             (Normal (JObj [("access_token", JStr "abc123");
                            ("user", JObj [("name", JStr "Ada");
                                           ("email", JStr "ada@example.org")])]))));
     AuthContext.Reload] in
  let w := AuthContext.run (AuthContext.mkWorld st AuthContext.mount) ops in
  sound_storage st
  ∧ session_inv (AuthContext.session w)
  ∧ grouped (AuthContext.storage w)
  ∧ sound_storage (AuthContext.storage w).
Proof.
  cbv zeta.
  match goal with
  | |- ?H ∧ _ => assert H as Hst
  end.
  { right. split; [repeat split; eauto|].
    intros _ parsed Hp. vm_compute in Hp. injection Hp as <-. split; discriminate. }
  split; [exact Hst|]. exact (session_invariant _ _ Hst).
Defined.

(** A stored session whose user does not parse is removed. *)
Lemma initialize_self_heals_witness :
  let st : gmap string string :=
    <["isLoggedIn" := "true"]> (<["token" := "abc123"]> (<["user" := "{bad"]> ∅)) in
  let w := AuthContext.initialize (AuthContext.mkWorld st AuthContext.mount) in
  restorable st ∧ JSON_parse (default "" (st !! "user")) = None
  ∧ AuthContext.storage w = without_session st ∧ cleared (AuthContext.storage w).
Proof.
  cbv zeta.
  assert (restorable (<["isLoggedIn" := "true"]>
            (<["token" := "abc123"]> (<["user" := "{bad"]> ∅)))) as Hr
    by (repeat split; reflexivity).
  assert (JSON_parse (default "" ((<["isLoggedIn" := "true"]>
            (<["token" := "abc123"]> (<["user" := "{bad"]> (∅ : gmap string string))))
            !! "user")) = None) as Hp by reflexivity.
  split; [exact Hr|]. split; [exact Hp|].
  exact (proj1 (proj2 (initialize_self_heals _)) Hr Hp).
Defined.

(** A response without access token, received while logged in. *)
Lemma login_failure_clears_witness :
  let response :=
    mkResponse 200
      (Normal (JObj [("token_type", JStr "bearer");
                     ("user", JObj [("name", JStr "Ada");
                                    ("email", JStr "ada@example.org")])])) in
  let w :=
    AuthContext.mkWorld
      (<["isLoggedIn" := "true"]> (<["token" := "old"]> (<["user" := "{}"]> ∅)))
      (AuthContext.mkSession (JObj []) true false (JStr "old")) in
  login_failure (Resolved response)
  ∧ (∃ err,
       AuthContext.login (JStr "ada@example.org") (JStr "pw") (Resolved response) w
       = (AuthContext.mkWorld (without_session (AuthContext.storage w)) logged_out,
          Throw err)).
Proof.
  cbv zeta.
  assert (login_failure
            (Resolved
               (mkResponse 200
                  (Normal (JObj [("token_type", JStr "bearer");
                                 ("user", JObj [("name", JStr "Ada");
                                                ("email", JStr "ada@example.org")])])))))
    as Hf by (eapply missing_access_token; reflexivity).
  split; [exact Hf|].
  exact (proj1 (login_failure_clears _ _ _ _ Hf)).
Defined.

(* ===================================================================== *)
(** * File validation *)
(* ===================================================================== *)

Lemma includes_In (l : list string) (t : string) : includes l t = true ↔ In t l.
Proof.
  unfold includes. rewrite existsb_exists. split.
  - intros (x & Hx & He). apply String.eqb_eq in He. by subst.
  - intros Hin. exists t. split; [done|apply String.eqb_refl].
Qed.

Lemma includes_not_In (l : list string) (t : string) : ¬ In t l → includes l t = false.
Proof. rewrite <- includes_In. apply not_true_is_false. Qed.

Lemma tutor_rejects_type (f : File) (s : TutorComponent.State) :
  ¬ In (type f) allowedTypes →
  TutorComponent.onFileChange (Some f) s
  = (fst (TutorComponent.resetUploadState s),
     [toast (mkToast "Invalid file type" "Please upload JPG, PNG, or PDF." destructive);
      clear_file_input]).
Proof.
  intros H. unfold TutorComponent.onFileChange.
  rewrite (includes_not_In _ _ H). reflexivity.
Qed.

Lemma tutor_rejects_size (f : File) (s : TutorComponent.State) :
  In (type f) allowedTypes → maxSize < size f →
  TutorComponent.onFileChange (Some f) s
  = (fst (TutorComponent.resetUploadState s),
     [toast (mkToast "File too large" "Max 10MB." destructive); clear_file_input]).
Proof.
  intros H Hs. unfold TutorComponent.onFileChange.
  apply includes_In in H. rewrite H. apply Z.ltb_lt in Hs. rewrite Hs. reflexivity.
Qed.

Lemma tutor_accepts (f : File) (s : TutorComponent.State) :
  In (type f) allowedTypes → size f ≤ maxSize →
  let r := TutorComponent.onFileChange (Some f) s in
  TutorComponent.selectedFile (fst r) = Some f
  ∧ (snd r = [readAsDataURL f] ∨ snd r = []).
Proof.
  intros H Hs. unfold TutorComponent.onFileChange.
  apply includes_In in H. rewrite H. apply Z.ltb_ge in Hs. rewrite Hs. cbn [negb].
  destruct (negb (String.eqb (type f) "application/pdf")); cbn; eauto.
Qed.

Lemma index_rejects_type (f : File) (s : Index.State) :
  ¬ In (type f) allowedTypes →
  Index.onFileChange (Some f) s
  = (fst (Index.resetState true s),
     [toast (mkToast "Invalid file type" "Please upload a JPG, PNG, or PDF file."
               destructive);
      clear_file_input]).
Proof.
  intros H. unfold Index.onFileChange.
  rewrite (includes_not_In _ _ H). reflexivity.
Qed.

Lemma index_rejects_size (f : File) (s : Index.State) :
  In (type f) allowedTypes → maxSize < size f →
  Index.onFileChange (Some f) s
  = (fst (Index.resetState true s),
     [toast (mkToast "File too large" "Please upload a file smaller than 10MB."
               destructive);
      clear_file_input]).
Proof.
  intros H Hs. unfold Index.onFileChange.
  apply includes_In in H. rewrite H. apply Z.ltb_lt in Hs. rewrite Hs. reflexivity.
Qed.

Lemma index_accepts (f : File) (s : Index.State) :
  In (type f) allowedTypes → size f ≤ maxSize →
  let r := Index.onFileChange (Some f) s in
  Index.selectedFile (fst r) = Some f ∧ snd r = [readAsDataURL f].
Proof.
  intros H Hs. unfold Index.onFileChange.
  apply includes_In in H. rewrite H. apply Z.ltb_ge in Hs. rewrite Hs. cbn. eauto.
Qed.

(** C4. On both screens a chosen file whose MIME type is not one of
    image/jpeg, image/png, application/pdf is rejected with the toast
    Invalid file type; one of an allowed type but larger than 10MB, with the
    toast File too large; either way no request is sent, the file is not
    selected, and extraction cannot send one.  A file of an allowed type and
    of at most 10MB is selected with no toast and no request, and the
    extraction then started sends exactly one request, the upload of that
    file. *)
Theorem file_validation (f : File) :
  (∀ s, ¬ In (type f) allowedTypes →
     let r := TutorComponent.onFileChange (Some f) s in
     snd r = [toast (mkToast "Invalid file type" "Please upload JPG, PNG, or PDF."
                       destructive); clear_file_input]
     ∧ TutorComponent.selectedFile (fst r) = None
     ∧ requests (snd (TutorComponent.extractQuestion_begin (fst r))) = [])
  ∧ (∀ s, In (type f) allowedTypes → maxSize < size f →
     let r := TutorComponent.onFileChange (Some f) s in
     snd r = [toast (mkToast "File too large" "Max 10MB." destructive);
              clear_file_input]
     ∧ TutorComponent.selectedFile (fst r) = None
     ∧ requests (snd (TutorComponent.extractQuestion_begin (fst r))) = [])
  ∧ (∀ s, In (type f) allowedTypes → size f ≤ maxSize →
     let r := TutorComponent.onFileChange (Some f) s in
     requests (snd r) = [] ∧ (∀ t, ¬ In (toast t) (snd r))
     ∧ TutorComponent.selectedFile (fst r) = Some f
     ∧ requests (snd (TutorComponent.extractQuestion_begin (fst r)))
       = [upload_image f])
  ∧ (∀ s, ¬ In (type f) allowedTypes →
     let r := Index.onFileChange (Some f) s in
     snd r = [toast (mkToast "Invalid file type"
                       "Please upload a JPG, PNG, or PDF file." destructive);
              clear_file_input]
     ∧ Index.selectedFile (fst r) = None
     ∧ requests (snd (Index.extractQuestion_begin (fst r))) = [])
  ∧ (∀ s, In (type f) allowedTypes → maxSize < size f →
     let r := Index.onFileChange (Some f) s in
     snd r = [toast (mkToast "File too large"
                       "Please upload a file smaller than 10MB." destructive);
              clear_file_input]
     ∧ Index.selectedFile (fst r) = None
     ∧ requests (snd (Index.extractQuestion_begin (fst r))) = [])
  ∧ (∀ s, In (type f) allowedTypes → size f ≤ maxSize →
     let r := Index.onFileChange (Some f) s in
     requests (snd r) = [] ∧ (∀ t, ¬ In (toast t) (snd r))
     ∧ Index.selectedFile (fst r) = Some f
     ∧ requests (snd (Index.extractQuestion_begin (fst r))) = [upload_image f]).
Proof.
  split; [|split; [|split; [|split; [|split]]]]; intros s H; cbv zeta.
  - rewrite (tutor_rejects_type f s H). repeat split; reflexivity.
  - intros Hs. rewrite (tutor_rejects_size f s H Hs). repeat split; reflexivity.
  - intros Hs. destruct (tutor_accepts f s H Hs) as [Hsel Heff].
    assert (requests (snd (TutorComponent.onFileChange (Some f) s)) = []
            ∧ ∀ t, ¬ In (toast t) (snd (TutorComponent.onFileChange (Some f) s)))
      as [Hreq Htoast].
    { destruct Heff as [-> | ->]; (split; [reflexivity|]);
        intros t Hin; cbn in Hin; intuition discriminate. }
    repeat split; try done.
    unfold TutorComponent.extractQuestion_begin. rewrite Hsel. reflexivity.
  - rewrite (index_rejects_type f s H). repeat split; reflexivity.
  - intros Hs. rewrite (index_rejects_size f s H Hs). repeat split; reflexivity.
  - intros Hs. destruct (index_accepts f s H Hs) as [Hsel Heff].
    rewrite Heff. split; [reflexivity|].
    split; [intros t Hin; cbn in Hin; intuition discriminate|].
    split; [done|].
    unfold Index.extractQuestion_begin. rewrite Hsel. reflexivity.
Qed.

(** A JPEG of 12MB is refused and nothing is sent; one of 2MB is uploaded
    once. *)
Lemma file_validation_witness :
  let big := mkFile "scan.jpg" "image/jpeg" (12 * 1024 * 1024) in
  let small := mkFile "scan.jpg" "image/jpeg" (2 * 1024 * 1024) in
  (In (type big) allowedTypes ∧ maxSize < size big
   ∧ requests (snd (Index.onFileChange (Some big) Index.initial)) = []
   ∧ requests (snd (Index.extractQuestion_begin
                      (fst (Index.onFileChange (Some big) Index.initial)))) = [])
  ∧ (In (type small) allowedTypes ∧ size small ≤ maxSize
     ∧ requests (snd (TutorComponent.extractQuestion_begin
                        (fst (TutorComponent.onFileChange (Some small)
                                TutorComponent.initial))))
       = [upload_image small]).
Proof.
  cbv zeta.
  assert (In "image/jpeg" allowedTypes) as Hin by (left; reflexivity).
  split.
  - assert (maxSize < 12 * 1024 * 1024) as Hbig by reflexivity.
    split; [exact Hin|]. split; [exact Hbig|].
    destruct (proj1 (proj2 (proj2 (proj2 (proj2
                (file_validation (mkFile "scan.jpg" "image/jpeg" (12 * 1024 * 1024)))))))
                Index.initial Hin Hbig) as (Heff & _ & Hreq).
    split; [|exact Hreq]. rewrite Heff. reflexivity.
  - assert (2 * 1024 * 1024 ≤ maxSize) as Hsmall by discriminate.
    split; [exact Hin|]. split; [exact Hsmall|].
    exact (proj2 (proj2 (proj2
             (proj1 (proj2 (proj2
                (file_validation (mkFile "scan.jpg" "image/jpeg" (2 * 1024 * 1024)))))
                TutorComponent.initial Hin Hsmall)))).
Defined.

(* ===================================================================== *)
(** * Error messages *)
(* ===================================================================== *)

Lemma getProp_prop (data : JsValue) (k : string) :
  non_null data → getProp data k = Normal (prop data k).
Proof. intros [H1 H2]. unfold prop. destruct data; simpl; congruence. Qed.

(** C5, as stated, fails for the solve request: with a detail and an error
    in the body of a 422 response, the message is the error, not the
    detail. *)
Lemma solve_prefers_error_over_detail :
  let data := JObj [("detail", JStr "Invalid question");
                    ("error", JStr "Solver unavailable")] in
  let res := Resolved (mkResponse 422 (Normal data)) in
  TutorComponent.handleGenerateSolution_try res = Throw (mkError "Solver unavailable")
  ∧ TutorComponent.handleGenerateSolution_try res ≠ Throw (mkError "Invalid question")
  ∧ TutorComponent.solutionError
      (fst (TutorComponent.handleGenerateSolution_settle res TutorComponent.initial))
    = Some "Solver Error: Solver unavailable"
  ∧ Index.solveQuestion_try res = Throw (mkError "Solver unavailable")
  ∧ Index.apiError (fst (Index.solveQuestion_settle res Index.initial))
    = Some "Solver Error: Solver unavailable".
Proof. cbv zeta. repeat split; try reflexivity. discriminate. Qed.

(** C5, amended.  For a failed request whose body can be read, the error
    thrown carries the first truthy of: for login and for extraction, the
    detail, the error, the generic status text; for the solve request on
    both screens, the error, the detail as JSON text, the generic status
    text; for the explain request, the error, the detail, the generic status
    text.  With a successful status, a truthy error in the body makes the
    solve and explain requests fail with that error; a login response that
    lacks the token or the user fails as a login with a bad status does; an
    extraction response that is not a success with a text fails with the
    error, else with a fixed text. *)
Theorem error_message_preference (r : Response) (data : JsValue) :
  json r = Normal data → non_null data →
  let detail := prop data "detail" in
  let error := prop data "error" in
  let generic := "HTTP error! status: " +:+ pretty (status r) in
  let login_generic := "Login failed (status " +:+ pretty (status r) +:+ ")" in
  (ok r = false →
   AuthContext.login_try (Resolved r)
   = Throw (new_Error (first_truthy [detail; error] login_generic))
   ∧ TutorComponent.extractQuestion_try (Resolved r)
     = Throw (new_Error (first_truthy [detail; error] generic))
   ∧ Index.extractQuestion_try (Resolved r)
     = Throw (new_Error (first_truthy [detail; error] generic))
   ∧ TutorComponent.handleGenerateSolution_try (Resolved r)
     = Throw (new_Error (first_truthy [error; serialised detail] generic))
   ∧ Index.solveQuestion_try (Resolved r)
     = Throw (new_Error (first_truthy [error; serialised detail] generic))
   ∧ TutorComponent.handleExplainStep_try (Resolved r)
     = Throw (new_Error (first_truthy [error; detail] generic)))
  ∧ (ok r = true → ToBoolean error = true →
     TutorComponent.handleGenerateSolution_try (Resolved r) = Throw (new_Error error)
     ∧ Index.solveQuestion_try (Resolved r) = Throw (new_Error error)
     ∧ TutorComponent.handleExplainStep_try (Resolved r) = Throw (new_Error error))
  ∧ (ok r = true →
     ToBoolean (prop data "access_token") && ToBoolean (prop data "user") = false →
     AuthContext.login_try (Resolved r)
     = Throw (new_Error (first_truthy [detail; error] login_generic)))
  ∧ (ok r = true →
     is_string (prop data "status") "success"
     && negb (is_undefined (prop data "extracted_text")) = false →
     TutorComponent.extractQuestion_try (Resolved r)
     = Throw (new_Error (first_truthy [error] "OCR failed. No text extracted."))
     ∧ Index.extractQuestion_try (Resolved r)
       = Throw (new_Error (first_truthy [error] "OCR failed. No text extracted."))).
Proof.
  intros Hj Hn. cbv zeta.
  pose proof (getProp_prop data "detail" Hn) as Hd.
  pose proof (getProp_prop data "error" Hn) as He.
  split; [|split; [|split]].
  - intros Hok.
    unfold AuthContext.login_try, TutorComponent.extractQuestion_try,
      Index.extractQuestion_try, TutorComponent.handleGenerateSolution_try,
      Index.solveQuestion_try, TutorComponent.handleExplainStep_try,
      mbind, Completion_bind, bind, or_elseM, or_else, serialised.
    cbn [await first_truthy]. rewrite Hj, Hok, Hd, He. cbn [negb orb].
    repeat split.
    all: destruct (ToBoolean (prop data "detail")), (ToBoolean (prop data "error"));
      reflexivity.
  - intros Hok Ht.
    unfold TutorComponent.handleGenerateSolution_try, Index.solveQuestion_try,
      TutorComponent.handleExplainStep_try, mbind, Completion_bind, bind, or_elseM.
    cbn [await]. rewrite Hj, Hok, He, Ht. cbn [negb orb]. repeat split; reflexivity.
  - intros Hok Hmiss.
    unfold AuthContext.login_try, mbind, Completion_bind, bind, or_elseM, or_else.
    cbn [await first_truthy]. rewrite Hj, Hok. cbn [negb].
    rewrite (getProp_prop data "access_token" Hn), (getProp_prop data "user" Hn), Hd, He.
    destruct (ToBoolean (prop data "access_token")); cbn [negb andb] in *.
    + rewrite Hmiss. cbn [negb].
      destruct (ToBoolean (prop data "detail")), (ToBoolean (prop data "error"));
        reflexivity.
    + destruct (ToBoolean (prop data "detail")), (ToBoolean (prop data "error"));
        reflexivity.
  - intros Hok Hbad.
    unfold TutorComponent.extractQuestion_try, Index.extractQuestion_try,
      mbind, Completion_bind, bind, or_else.
    cbn [await first_truthy]. rewrite Hj, Hok. cbn [negb].
    rewrite (getProp_prop data "status" Hn), (getProp_prop data "extracted_text" Hn), He.
    rewrite Hbad. split; reflexivity.
Qed.

(** A 401 whose body carries a detail only: login throws the detail, the
    solve request its JSON text. *)
Lemma error_message_preference_witness :
  let data := JObj [("detail", JStr "Incorrect email or password")] in
  let r := mkResponse 401 (Normal data) in
  json r = Normal data ∧ non_null data ∧ ok r = false
  ∧ AuthContext.login_try (Resolved r)
    = Throw (mkError "Incorrect email or password")
  ∧ TutorComponent.handleGenerateSolution_try (Resolved r)
    = Throw (mkError (String dquote ("Incorrect email or password" +:+ String dquote ""))).
Proof.
  cbv zeta.
  assert (non_null (JObj [("detail", JStr "Incorrect email or password")])) as Hn
    by (split; discriminate).
  split; [reflexivity|]. split; [exact Hn|]. split; [reflexivity|].
  destruct (proj1 (error_message_preference
                     (mkResponse 401
                        (Normal (JObj [("detail", JStr "Incorrect email or password")])))
                     _ eq_refl Hn) eq_refl) as (Hlogin & _ & _ & Hsolve & _).
  split; [exact Hlogin|exact Hsolve].
Defined.

(* ===================================================================== *)
(** * The solve request, the result and the explanation records *)
(* ===================================================================== *)

Section Tutor.
Import TutorComponent.

Lemma run_app (events1 events2 : list Event) (s : State) :
  fst (run (events1 ++ events2) s) = fst (run events2 (fst (run events1 s))).
Proof.
  revert s. induction events1 as [|ev events1 IH]; intros s; [reflexivity|].
  cbn [run app]. destruct (handle ev s) as [s1 effects1]. specialize (IH s1).
  destruct (run (events1 ++ events2) s1) as [s2 effects2].
  destruct (run events1 s1) as [s3 effects3]. cbn [fst] in *. exact IH.
Qed.

Lemma begin_submittable (s : State) :
  submittable (problemInput s) →
  handleGenerateSolution_begin s
  = (setSolutionError None
       (setStepExplanations (fun _ => ∅)
          (setSolution JNull (setIsLoadingSolution true s))),
     [fetch (solve_text (problemInput s))]).
Proof.
  intros (trimmed & Ht & Hne). unfold handleGenerateSolution_begin. rewrite Ht.
  destruct (String.eqb_spec trimmed ""); [done|reflexivity].
Qed.

(** The explanation records are left alone by the settling of a solve
    request. *)
Lemma settle_keeps_explanations (res : FetchResult) (s : State) :
  stepExplanations (fst (handleGenerateSolution_settle res s)) = stepExplanations s.
Proof.
  unfold handleGenerateSolution_settle.
  destruct (handleGenerateSolution_try res); reflexivity.
Qed.

(** An event outside the explain protocol leaves the records as they are
    or removes them all. *)
Lemma handle_keeps_empty (ev : Event) (s : State) :
  is_explain ev = false → stepExplanations s = ∅ →
  stepExplanations (fst (handle ev s)) = ∅.
Proof.
  intros Hev Hs. destruct ev; try discriminate; cbn [handle].
  - exact Hs.
  - unfold onFileChange. destruct file as [f|]; [|exact Hs].
    destruct (negb (includes allowedTypes (type f))); [exact Hs|].
    destruct (maxSize <? size f); [exact Hs|].
    destruct (negb (String.eqb (type f) "application/pdf")); reflexivity.
  - exact Hs.
  - exact Hs.
  - unfold extractQuestion_begin. destruct (selectedFile s); [reflexivity|exact Hs].
  - unfold extractQuestion_settle. destruct (extractQuestion_try res); exact Hs.
  - unfold handleGenerateSolution_begin.
    destruct (call_trim (problemInput s)) as [trimmed|]; [|exact Hs].
    destruct (String.eqb trimmed ""); [exact Hs|reflexivity].
  - rewrite settle_keeps_explanations. exact Hs.
Qed.

Lemma run_keeps_empty (events : list Event) :
  ∀ s, Forall (fun ev => is_explain ev = false) events →
       stepExplanations s = ∅ → stepExplanations (fst (run events s)) = ∅.
Proof.
  induction events as [|ev events IH]; intros s Hall Hs; [exact Hs|].
  inversion Hall as [|? ? Hev Hrest]; subst.
  cbn [run]. pose proof (handle_keeps_empty ev s Hev Hs) as H1.
  destruct (handle ev s) as [s1 effects1]. cbn [fst] in H1.
  specialize (IH s1 Hrest H1).
  destruct (run events s1) as [s2 effects2]. exact IH.
Qed.

(** C6, as stated, fails.  A result with a step 1 is shown; the user asks why
    for step 1 and, before the answer is there, submits a new problem.  The
    solve request empties the records; the answer to the explain request,
    which carried the steps of the old result, arrives and writes its
    record; the new result arrives.  The new result is then shown with the
    explanation that belongs to the old one. *)
Lemma stale_explanation_survives :
  let old_steps := JArr [JObj [("step_number", JNum 1 0);
                               ("explanation", JStr "Subtract 5")]] in
  let old_result := JObj [("original_problem", JStr "2x+5=11");
                          ("steps", old_steps); ("final_answer", JStr "x=3")] in
  let new_result := JObj [("original_problem", JStr "3y=12");
                          ("steps", JArr [JObj [("step_number", JNum 1 0);
                                                ("explanation", JStr "Divide by 3")]]);
                          ("final_answer", JStr "y=4")] in
  let s0 := setSolution old_result (setProblemInput (JStr "3y=12") initial) in
  let events :=
    [ExplainClicked (JNum 1 0) why;
     SolveClicked;
     ExplainArrived (JNum 1 0)
       (Resolved (mkResponse 200
                    (Normal (JObj [("explanation", JStr "Because 5 was added to 2x")]))));
     SolveArrived (Resolved (mkResponse 200 (Normal new_result)))] in
  submittable (problemInput s0)
  ∧ requests (snd (run events s0))
    = [explain_step (JStr "2x+5=11") old_steps (JNum 1 0) why;
       solve_text (JStr "3y=12")]
  ∧ solution (fst (run events s0)) = new_result
  ∧ stepExplanations (fst (run events s0)) !! "1"
    = Some (mkExplanation (JStr "Because 5 was added to 2x") false None None).
Proof.
  cbv zeta. split; [exists "3y=12"; split; [reflexivity|discriminate]|].
  split; [reflexivity|]. split; [reflexivity|].
  vm_compute. reflexivity.
Qed.

(** C6, amended.  A solve request that passes the guard sets the result to
    null and removes every explanation record before it is sent; when its
    response arrives the result becomes exactly the data received, or null
    on failure, and the records are not touched.  The records are therefore
    empty when the new result is set, provided no event of the explain
    protocol ran in between; a response to an explain request sent earlier
    is not cancelled and still writes its record. *)
Theorem solve_replaces_result (s : State) :
  submittable (problemInput s) →
  (let s1 := fst (handleGenerateSolution_begin s) in
   solution s1 = JNull ∧ stepExplanations s1 = ∅
   ∧ snd (handleGenerateSolution_begin s) = [fetch (solve_text (problemInput s))])
  ∧ (∀ s' res,
       let s2 := fst (handleGenerateSolution_settle res s') in
       stepExplanations s2 = stepExplanations s'
       ∧ (∀ data, handleGenerateSolution_try res = Normal data → solution s2 = data)
       ∧ (∀ err, handleGenerateSolution_try res = Throw err → solution s2 = JNull))
  ∧ (∀ events res,
       Forall (fun ev => is_explain ev = false) events →
       stepExplanations (fst (run (SolveClicked :: events ++ [SolveArrived res]) s))
       = ∅).
Proof.
  intros Hs. split; [|split].
  - cbv zeta. rewrite (begin_submittable s Hs). repeat split; reflexivity.
  - intros s' res. cbv zeta. split; [apply settle_keeps_explanations|].
    unfold handleGenerateSolution_settle.
    split; intros x Hx; rewrite Hx; reflexivity.
  - intros events res Hall.
    change (SolveClicked :: events ++ [SolveArrived res])
      with ([SolveClicked] ++ (events ++ [SolveArrived res]))%list.
    rewrite run_app. cbn [run handle]. rewrite (begin_submittable s Hs). cbn [fst].
    rewrite run_app. cbn [run handle].
    match goal with
    | |- context [handleGenerateSolution_settle res ?x] =>
        pose proof (settle_keeps_explanations res x) as Hk;
        destruct (handleGenerateSolution_settle res x) as [s2 effects2]
    end.
    cbn [fst] in *. rewrite Hk.
    apply run_keeps_empty; [exact Hall|reflexivity].
Qed.

End Tutor.

(** A solve request over a state that holds a result and a record. *)
Lemma solve_replaces_result_witness :
  let s := TutorComponent.setStepExplanations
             (fun _ => {["1" := TutorComponent.mkExplanation (JStr "Because") false None
                                  (Some why)]})
             (TutorComponent.setSolution (JObj [("steps", JArr [])])
                (TutorComponent.setProblemInput (JStr " 3y=12 ") TutorComponent.initial)) in
  submittable (TutorComponent.problemInput s)
  ∧ TutorComponent.stepExplanations (fst (TutorComponent.handleGenerateSolution_begin s)) = ∅
  ∧ TutorComponent.solution (fst (TutorComponent.handleGenerateSolution_begin s)) = JNull.
Proof.
  cbv zeta.
  assert (submittable (JStr " 3y=12 ")) as Hs
    by (exists "3y=12"; split; [reflexivity|discriminate]).
  split; [exact Hs|].
  destruct (proj1 (solve_replaces_result
                     (TutorComponent.setStepExplanations
                        (fun _ => {["1" := TutorComponent.mkExplanation (JStr "Because")
                                             false None (Some why)]})
                        (TutorComponent.setSolution (JObj [("steps", JArr [])])
                           (TutorComponent.setProblemInput (JStr " 3y=12 ")
                              TutorComponent.initial))) Hs)) as (Hsol & Hexp & _).
  split; [exact Hexp|exact Hsol].
Defined.

Section TutorExplain.
Import TutorComponent.

Lemma key_integer (n : Z) : key (JNum n 0) = pretty n.
Proof. unfold key. cbn. rewrite Z.mul_1_r. reflexivity. Qed.

Lemma key_integer_inj (n m : Z) : n ≠ m → key (JNum m 0) ≠ key (JNum n 0).
Proof.
  intros Hne Hk. rewrite !key_integer in Hk. apply (inj pretty) in Hk. congruence.
Qed.

(** The three updates write the record of their own step only. *)
Lemma mark_loading_other (stepNumber : JsValue) (q : QueryType)
  (prev : gmap string Explanation) (k : string) :
  k ≠ key stepNumber → mark_loading stepNumber q prev !! k = prev !! k.
Proof. intros Hk. unfold mark_loading. by rewrite lookup_insert_ne. Qed.

Lemma mark_explained_other (stepNumber text : JsValue)
  (prev : gmap string Explanation) (k : string) :
  k ≠ key stepNumber → mark_explained stepNumber text prev !! k = prev !! k.
Proof. intros Hk. unfold mark_explained. by rewrite lookup_insert_ne. Qed.

Lemma mark_failed_other (stepNumber : JsValue) (msg : string)
  (prev : gmap string Explanation) (k : string) :
  k ≠ key stepNumber → mark_failed stepNumber msg prev !! k = prev !! k.
Proof. intros Hk. unfold mark_failed. by rewrite lookup_insert_ne. Qed.

(** Both halves of [handleExplainStep] leave the record under every other
    property name as it is. *)
Lemma explain_frame_key (stepNumber : JsValue) (q : QueryType) (res : FetchResult)
  (s : State) (k : string) :
  k ≠ key stepNumber →
  stepExplanations (fst (handleExplainStep_begin stepNumber q s)) !! k
  = stepExplanations s !! k
  ∧ stepExplanations (fst (handleExplainStep_settle stepNumber res s)) !! k
    = stepExplanations s !! k.
Proof.
  intros Hk. split.
  - unfold handleExplainStep_begin.
    destruct (negb (ToBoolean (solution s))); [reflexivity|].
    destruct (explain_request stepNumber q s); cbn.
    + by apply mark_loading_other.
    + rewrite mark_failed_other by done. by apply mark_loading_other.
  - unfold handleExplainStep_settle.
    destruct (handleExplainStep_try res) as [[data text]|err]; cbn.
    + by apply mark_explained_other.
    + by apply mark_failed_other.
Qed.

(** C7. For step numbers n and m that differ, a request to explain step n
    leaves the record of step m as it is (text, loading flag, error and
    query kind) when it starts and when it ends, whatever the response; on
    success the record of step n holds the explanation received for it and
    is no longer loading, on failure it holds the error and is no longer
    loading. *)
Theorem explain_step_independent (n m : Z) (q : QueryType) (res : FetchResult)
  (s : State) :
  n ≠ m →
  let begun := stepExplanations (fst (handleExplainStep_begin (JNum n 0) q s)) in
  let settled := stepExplanations (fst (handleExplainStep_settle (JNum n 0) res s)) in
  begun !! key (JNum m 0) = stepExplanations s !! key (JNum m 0)
  ∧ settled !! key (JNum m 0) = stepExplanations s !! key (JNum m 0)
  ∧ (ToBoolean (solution s) = true →
     ∃ record, begun !! key (JNum n 0) = Some record
               ∧ isLoading record = true ∧ queryType record = Some q)
  ∧ (∀ data text, handleExplainStep_try res = Normal (data, text) →
     ∃ record, settled !! key (JNum n 0) = Some record
               ∧ explanation record = text ∧ isLoading record = false
               ∧ error record = None)
  ∧ (∀ err, handleExplainStep_try res = Throw err →
     ∃ record, settled !! key (JNum n 0) = Some record
               ∧ isLoading record = false
               ∧ error record = Some (message_or err "Failed to get explanation.")).
Proof.
  intros Hne. cbv zeta.
  destruct (explain_frame_key (JNum n 0) q res s (key (JNum m 0))
              (key_integer_inj n m Hne)) as [Hb Hs].
  split; [exact Hb|]. split; [exact Hs|]. split; [|split].
  - intros Hsol. unfold handleExplainStep_begin. rewrite Hsol. cbn [negb].
    unfold explain_request, mbind, Completion_bind, bind.
    rewrite (getProp_prop (solution s) "original_problem" (truthy_non_null _ Hsol)).
    rewrite (getProp_prop (solution s) "steps" (truthy_non_null _ Hsol)).
    cbn. unfold mark_loading. rewrite lookup_insert_eq. eauto.
  - intros data text Ht. unfold handleExplainStep_settle. rewrite Ht. cbn.
    unfold mark_explained. rewrite lookup_insert_eq. eauto.
  - intros err Ht. unfold handleExplainStep_settle. rewrite Ht. cbn.
    unfold mark_failed. rewrite lookup_insert_eq. eauto.
Qed.

End TutorExplain.

(** Asking why for step 2 while the how of step 1 is loading. *)
Lemma explain_step_independent_witness :
  let s := TutorComponent.setStepExplanations
             (fun _ => {["1" := TutorComponent.mkExplanation JUndefined true None
                                  (Some how)]})
             (TutorComponent.setSolution (JObj [("steps", JArr [])])
                TutorComponent.initial) in
  let res := Resolved (mkResponse 200
                         (Normal (JObj [("explanation", JStr "To isolate x")]))) in
  (2 ≠ 1)
  ∧ TutorComponent.stepExplanations
      (fst (TutorComponent.handleExplainStep_begin (JNum 2 0) why s))
    !! TutorComponent.key (JNum 1 0)
    = Some (TutorComponent.mkExplanation JUndefined true None (Some how))
  ∧ TutorComponent.stepExplanations
      (fst (TutorComponent.handleExplainStep_settle (JNum 2 0) res s))
    !! TutorComponent.key (JNum 1 0)
    = Some (TutorComponent.mkExplanation JUndefined true None (Some how)).
Proof.
  cbv zeta.
  assert (2 ≠ 1) as Hne by discriminate.
  split; [exact Hne|].
  destruct (explain_step_independent 2 1 why
              (Resolved (mkResponse 200
                           (Normal (JObj [("explanation", JStr "To isolate x")]))))
              (TutorComponent.setStepExplanations
                 (fun _ => {["1" := TutorComponent.mkExplanation JUndefined true None
                                      (Some how)]})
                 (TutorComponent.setSolution (JObj [("steps", JArr [])])
                    TutorComponent.initial)) Hne) as (Hb & Hs & _).
  split; [rewrite Hb|rewrite Hs]; reflexivity.
Defined.

(* ===================================================================== *)
(** * Extraction and reset *)
(* ===================================================================== *)

Lemma xp_effects_no_request (data : JsValue) : requests (TutorComponent.xp_effects data) = [].
Proof.
  unfold TutorComponent.xp_effects.
  destruct (getProp data "updated_xp") as [v|]; [|reflexivity].
  destruct (is_undefined v); reflexivity.
Qed.

Lemma In_requests (r : Request) (effects : list Effect) :
  In (fetch r) effects → In r (requests effects).
Proof.
  induction effects as [|e effects IH]; [done|].
  intros [->|Hin]; [left; reflexivity|].
  destruct e; cbn; auto.
Qed.

Lemma explain_request_kind (stepNumber : JsValue) (q : QueryType)
  (s : TutorComponent.State) (r : Request) :
  TutorComponent.explain_request stepNumber q s = Normal r →
  ∃ problem_text steps, r = explain_step problem_text steps stepNumber q.
Proof.
  unfold TutorComponent.explain_request, mbind, Completion_bind, bind.
  destruct (getProp (TutorComponent.solution s) "original_problem"); [|discriminate].
  destruct (getProp (TutorComponent.solution s) "steps"); [|discriminate].
  intros [= <-]. eauto.
Qed.

(** On the tutor screen only the click on the solve button sends a solve
    request. *)
Lemma tutor_solve_only_on_click (ev : TutorComponent.Event) (s : TutorComponent.State)
  (q : JsValue) :
  In (solve_text q) (requests (snd (TutorComponent.handle ev s))) →
  ev = TutorComponent.SolveClicked.
Proof.
  destruct ev; cbn [TutorComponent.handle]; try reflexivity; intros Hin; exfalso.
  - exact Hin.
  - revert Hin. unfold TutorComponent.onFileChange.
    destruct file as [f|]; [|cbn; tauto].
    destruct (negb (includes allowedTypes (type f))); [cbn; tauto|].
    destruct (maxSize <? size f); [cbn; tauto|].
    destruct (negb (String.eqb (type f) "application/pdf")); cbn; tauto.
  - exact Hin.
  - exact Hin.
  - revert Hin. unfold TutorComponent.extractQuestion_begin.
    destruct (TutorComponent.selectedFile s); cbn; [|tauto].
    intros [|[]]; discriminate.
  - revert Hin. unfold TutorComponent.extractQuestion_settle.
    destruct (TutorComponent.extractQuestion_try res); cbn; tauto.
  - revert Hin. unfold TutorComponent.handleGenerateSolution_settle.
    destruct (TutorComponent.handleGenerateSolution_try res); cbn; [|tauto].
    rewrite xp_effects_no_request. tauto.
  - revert Hin. unfold TutorComponent.handleExplainStep_begin.
    destruct (negb (ToBoolean (TutorComponent.solution s))); [cbn; tauto|].
    destruct (TutorComponent.explain_request stepNumber q0 s) as [r|] eqn:Hr;
      cbn; [|tauto].
    apply explain_request_kind in Hr as (p & st & ->).
    intros [|[]]; discriminate.
  - revert Hin. unfold TutorComponent.handleExplainStep_settle.
    destruct (TutorComponent.handleExplainStep_try res) as [[data text]|]; cbn; [|tauto].
    rewrite xp_effects_no_request. tauto.
Qed.

Lemma index_solve_only_on_click (ev : Index.Event) (s : Index.State) (q : JsValue) :
  In (solve_text q) (requests (snd (Index.handle ev s))) → ev = Index.SolveClicked.
Proof.
  destruct ev; cbn [Index.handle]; try reflexivity; intros Hin; exfalso.
  - exact Hin.
  - revert Hin. unfold Index.onFileChange.
    destruct file as [f|]; [|cbn; tauto].
    destruct (negb (includes allowedTypes (type f))); [cbn; tauto|].
    destruct (maxSize <? size f); cbn; tauto.
  - exact Hin.
  - revert Hin. unfold Index.extractQuestion_begin.
    destruct (Index.selectedFile s); cbn; [|tauto].
    intros [|[]]; discriminate.
  - revert Hin. unfold Index.extractQuestion_settle.
    destruct (Index.extractQuestion_try res); cbn; tauto.
  - revert Hin. unfold Index.solveQuestion_settle.
    destruct (Index.solveQuestion_try res); cbn; tauto.
  - exact Hin.
Qed.

(** C8. On both screens the arrival of the extraction response sends no
    request and leaves the result and the solve loading flag as they are;
    on success it puts the extracted text into the input.  No event other
    than the click on the solve button sends a solve request. *)
Theorem extraction_never_solves :
  (∀ s res,
     let r := TutorComponent.extractQuestion_settle res s in
     requests (snd r) = []
     ∧ TutorComponent.solution (fst r) = TutorComponent.solution s
     ∧ TutorComponent.isLoadingSolution (fst r) = TutorComponent.isLoadingSolution s
     ∧ (∀ text, TutorComponent.extractQuestion_try res = Normal text →
                TutorComponent.problemInput (fst r) = text))
  ∧ (∀ s res,
       let r := Index.extractQuestion_settle res s in
       requests (snd r) = []
       ∧ Index.solveResult (fst r) = Index.solveResult s
       ∧ Index.loadingSolve (fst r) = Index.loadingSolve s
       ∧ (∀ text, Index.extractQuestion_try res = Normal text →
                  Index.ocrText (fst r) = text))
  ∧ (∀ s ev q, In (fetch (solve_text q)) (snd (TutorComponent.handle ev s)) →
               ev = TutorComponent.SolveClicked)
  ∧ (∀ s ev q, In (fetch (solve_text q)) (snd (Index.handle ev s)) →
               ev = Index.SolveClicked).
Proof.
  split; [|split; [|split]].
  - intros s res. cbv zeta. unfold TutorComponent.extractQuestion_settle.
    destruct (TutorComponent.extractQuestion_try res) as [text|err].
    + repeat split. intros ? [= <-]. reflexivity.
    + repeat split. discriminate.
  - intros s res. cbv zeta. unfold Index.extractQuestion_settle.
    destruct (Index.extractQuestion_try res) as [text|err].
    + repeat split. intros ? [= <-]. reflexivity.
    + repeat split. discriminate.
  - intros s ev q Hin. eapply tutor_solve_only_on_click, In_requests, Hin.
  - intros s ev q Hin. eapply index_solve_only_on_click, In_requests, Hin.
Qed.

(** C9. Whatever the state of the OCR page, in particular one with a
    result, a text and a preview, the reset button leaves at once an empty
    text, no preview, no result and no error (and no file, and nothing
    loading). *)
Theorem reset_clears_together (s : Index.State) :
  let s' := fst (Index.tryAnother s) in
  Index.ocrText s' = JStr ""
  ∧ Index.imagePreviewUrl s' = None
  ∧ Index.solveResult s' = JNull
  ∧ Index.apiError s' = None
  ∧ Index.selectedFile s' = None
  ∧ Index.loadingOcr s' = false
  ∧ Index.loadingSolve s' = false.
Proof. repeat split. Qed.


(** The solve button sends the solve request; the arrival of an extracted
    text sends nothing. *)
Lemma extraction_never_solves_witness :
  let s := TutorComponent.setProblemInput (JStr "2x+5=11") TutorComponent.initial in
  let res := Resolved (mkResponse 200
                         (Normal (JObj [("status", JStr "success");
                                        ("extracted_text", JStr "2x+5=11")]))) in
  In (fetch (solve_text (JStr "2x+5=11")))
     (snd (TutorComponent.handle TutorComponent.SolveClicked s))
  ∧ requests (snd (TutorComponent.extractQuestion_settle res TutorComponent.initial)) = []
  ∧ TutorComponent.problemInput
      (fst (TutorComponent.extractQuestion_settle res TutorComponent.initial))
    = JStr "2x+5=11".
Proof.
  cbv zeta. split; [left; reflexivity|].
  destruct (proj1 extraction_never_solves TutorComponent.initial
              (Resolved (mkResponse 200
                           (Normal (JObj [("status", JStr "success");
                                          ("extracted_text", JStr "2x+5=11")])))))
    as (Hreq & _ & _ & Htext).
  split; [exact Hreq|]. apply Htext. reflexivity.
Defined.


(** The end-to-end scenario of the specification: the solve request for
    2x+5=11 and its response. *)
Example solve_scenario :
  let result := JObj [("original_problem", JStr "2x+5=11");
                      ("steps", JArr [JObj [("step_number", JNum 1 0);
                                            ("explanation", JStr "Subtract 5")];
                                      JObj [("step_number", JNum 2 0);
                                            ("explanation", JStr "Divide by 2")]]);
                      ("final_answer", JStr "x=3")] in
  let s0 := TutorComponent.setProblemInput (JStr "2x+5=11") TutorComponent.initial in
  let r := TutorComponent.run
             [TutorComponent.SolveClicked;
              TutorComponent.SolveArrived (Resolved (mkResponse 200 (Normal result)))] s0 in
  requests (snd r) = [solve_text (JStr "2x+5=11")]
  ∧ TutorComponent.solution (fst r) = result
  ∧ prop (TutorComponent.solution (fst r)) "final_answer" = JStr "x=3"
  ∧ TutorComponent.isLoadingSolution (fst r) = false.
Proof. cbv zeta. repeat split; reflexivity. Qed.
Lemma append_assoc (s1 s2 s3 : string) : (s1 +:+ s2) +:+ s3 = s1 +:+ (s2 +:+ s3).
Proof.
  induction s1 as [|c s1 IH]; [reflexivity|].
  change (String c ((s1 +:+ s2) +:+ s3) = String c (s1 +:+ (s2 +:+ s3))).
  by rewrite IH.
Qed.

Lemma byte_code (c : ascii) : byte (code c) = c.
Proof. unfold byte, code. rewrite N2Z.id. apply ascii_N_embedding. Qed.

Lemma code_range (c : ascii) : 0 ≤ code c < 256.
Proof.
  unfold code. pose proof (N_ascii_bounded c). lia.
Qed.

(** The steps of [parse_chars]. *)
Lemma parse_chars_plain (c : ascii) (r : string) :
  Ascii.eqb c dquote = false → Ascii.eqb c backslash = false → (code c <? 32) = false →
  parse_chars (String c r) = prepend (String c "") (parse_chars r).
Proof. intros H1 H2 H3. cbn [parse_chars]. rewrite H1, H2, H3. reflexivity. Qed.

Lemma parse_chars_escape (esc ch : ascii) (r : string) :
  simple_escape esc = Some ch →
  parse_chars (String backslash (String esc r)) = prepend (String ch "") (parse_chars r).
Proof. intros H. cbn [parse_chars]. change (Ascii.eqb backslash dquote) with false.
  change (Ascii.eqb backslash backslash) with true. cbv iota. rewrite H. reflexivity. Qed.

Lemma parse_chars_unicode (h1 h2 h3 h4 : ascii) (r : string) (cp : Z) :
  hex4 h1 h2 h3 h4 = Some cp → cp < 55296 →
  parse_chars (String backslash (String "u" (String h1 (String h2 (String h3 (String h4 r))))))
  = prepend (utf8 cp) (parse_chars r).
Proof.
  intros H Hlt. cbn [parse_chars]. change (Ascii.eqb backslash dquote) with false.
  change (Ascii.eqb backslash backslash) with true. cbv iota.
  change (simple_escape "u") with (@None ascii). cbv iota.
  change (Ascii.eqb "u" "u") with true. cbv iota. rewrite H.
  assert ((55296 <=? cp) = false) as -> by lia. reflexivity.
Qed.

Lemma hex_val_hex_digit (n : Z) : 0 ≤ n < 16 → hex_val (hex_digit n) = Some n.
Proof.
  intros Hn.
  assert (n = 0 ∨ n = 1 ∨ n = 2 ∨ n = 3 ∨ n = 4 ∨ n = 5 ∨ n = 6 ∨ n = 7 ∨ n = 8
          ∨ n = 9 ∨ n = 10 ∨ n = 11 ∨ n = 12 ∨ n = 13 ∨ n = 14 ∨ n = 15) as H by lia.
  repeat (destruct H as [->|H]; [reflexivity|]). subst. reflexivity.
Qed.

(** One quoted character reads back as itself. *)
Lemma parse_chars_quote_char (c : ascii) (rest : string) :
  parse_chars (quote_char c +:+ rest) = prepend (String c "") (parse_chars rest).
Proof.
  unfold quote_char.
  destruct (Ascii.eqb_spec c dquote) as [->|Hq].
  { apply (parse_chars_escape dquote dquote). reflexivity. }
  destruct (Ascii.eqb_spec c backslash) as [->|Hb].
  { apply (parse_chars_escape backslash backslash). reflexivity. }
  assert (∀ n esc, code c = n → simple_escape esc = Some (byte n) →
            parse_chars (String backslash (String esc "") +:+ rest)
            = prepend (String c "") (parse_chars rest)) as Hesc.
  { intros n esc Hc He. rewrite <- (byte_code c), Hc.
    apply (parse_chars_escape esc (byte n)), He. }
  destruct (Z.eqb_spec (code c) 8); [by eapply Hesc|].
  destruct (Z.eqb_spec (code c) 12); [by eapply Hesc|].
  destruct (Z.eqb_spec (code c) 10); [by eapply Hesc|].
  destruct (Z.eqb_spec (code c) 13); [by eapply Hesc|].
  destruct (Z.eqb_spec (code c) 9); [by eapply Hesc|].
  pose proof (code_range c) as Hr.
  destruct (Z.ltb_spec (code c) 32) as [Hlt|Hge].
  - change (parse_chars
              (String backslash (String "u" (String "0" (String "0"
                 (String (hex_digit (code c / 16))
                    (String (hex_digit (code c mod 16)) rest))))))
            = prepend (String c "") (parse_chars rest)).
    rewrite (parse_chars_unicode _ _ _ _ _ (code c)).
    + unfold utf8. assert ((code c <? 128) = true) as -> by lia.
      rewrite byte_code. reflexivity.
    + unfold hex4. change (hex_val "0") with (Some 0).
      rewrite !hex_val_hex_digit.
      * f_equal. pose proof (Z.div_mod (code c) 16). lia.
      * apply Z.mod_pos_bound. lia.
      * split; [apply Z.div_pos; lia|apply Z.div_lt_upper_bound; lia].
    + lia.
  - apply parse_chars_plain.
    + by apply Ascii.eqb_neq.
    + by apply Ascii.eqb_neq.
    + lia.
Qed.

(** A quoted string, read from behind its opening quote, is the string. *)
Lemma parse_chars_quote_chars (s rest : string) :
  parse_chars (quote_chars s +:+ String dquote rest) = Some (s, rest).
Proof.
  induction s as [|c s IH].
  - reflexivity.
  - change (quote_chars (String c s)) with (quote_char c +:+ quote_chars s).
    rewrite append_assoc, parse_chars_quote_char, IH. reflexivity.
Qed.


Lemma append_cons (c : ascii) (s r : string) : String c s +:+ r = String c (s +:+ r).
Proof. reflexivity. Qed.

Lemma append_nil (r : string) : "" +:+ r = r.
Proof. reflexivity. Qed.

(** The text stored for a user whose name and email are strings. *)
Lemma JSON_stringify_user (a b : string) :
  JSON_stringify (JObj [("name", JStr a); ("email", JStr b)])
  = Some (String "{" (String dquote ("name" +:+ String dquote (String ":" (String dquote
      (quote_chars a +:+ String dquote (String "," (String dquote ("email" +:+
         String dquote (String ":" (String dquote
           (quote_chars b +:+ String dquote "}")))))))))))).
Proof.
  unfold JSON_stringify. cbn [SerializeJSONProperty]. unfold QuoteJSONString.
  f_equal. change (quote_chars "name") with "name". change (quote_chars "email") with "email".
  rewrite ?append_assoc, ?append_cons, ?append_nil.
  rewrite ?append_assoc, ?append_cons, ?append_nil.
  reflexivity.
Qed.

(** The steps of the parser over an object with string members. *)
Lemma parse_value_brace_quote (fuel : nat) (r : string) :
  parse_value (S fuel) (String "{" (String dquote r))
  = parse_members fuel (String dquote r) [].
Proof. reflexivity. Qed.

Lemma parse_value_quote (fuel : nat) (r : string) :
  parse_value (S fuel) (String dquote r)
  = match parse_chars r with
    | Some (t, rest) => Some (JStr t, rest)
    | None => None
    end.
Proof. reflexivity. Qed.

Lemma parse_members_string (fuel : nat) (k v rest : string)
  (acc : list (string * JsValue)) :
  parse_members (S (S fuel))
    (String dquote (quote_chars k +:+ String dquote (String ":" (String dquote
       (quote_chars v +:+ String dquote rest))))) acc
  = match skip_ws rest with
    | String "," s4 => parse_members (S fuel) s4 (put_member k (JStr v) acc)
    | String "}" s4 => Some (JObj (put_member k (JStr v) acc), s4)
    | _ => None
    end.
Proof.
  change (parse_members (S (S fuel))
            (String dquote (quote_chars k +:+ String dquote (String ":" (String dquote
               (quote_chars v +:+ String dquote rest))))) acc)
    with (match parse_chars (quote_chars k +:+ String dquote (String ":" (String dquote
               (quote_chars v +:+ String dquote rest)))) with
          | Some (k, s1) =>
              match skip_ws s1 with
              | String ":" s2 =>
                  match parse_value (S fuel) s2 with
                  | Some (v, s3) =>
                      match skip_ws s3 with
                      | String "," s4 => parse_members (S fuel) s4 (put_member k v acc)
                      | String "}" s4 => Some (JObj (put_member k v acc), s4)
                      | _ => None
                      end
                  | None => None
                  end
              | _ => None
              end
          | None => None
          end).
  rewrite parse_chars_quote_chars.
  change (skip_ws (String ":" (String dquote (quote_chars v +:+ String dquote rest))))
    with (String ":" (String dquote (quote_chars v +:+ String dquote rest))).
  cbv iota beta. rewrite parse_value_quote, parse_chars_quote_chars. reflexivity.
Qed.

Lemma parse_value_user (fuel : nat) (a b : string) :
  parse_value (S (S (S (S fuel))))
    (String "{" (String dquote ("name" +:+ String dquote (String ":" (String dquote
      (quote_chars a +:+ String dquote (String "," (String dquote ("email" +:+
         String dquote (String ":" (String dquote
           (quote_chars b +:+ String dquote "}"))))))))))))
  = Some (JObj [("name", JStr a); ("email", JStr b)], "").
Proof.
  rewrite parse_value_brace_quote.
  change "name" with (quote_chars "name"). change "email" with (quote_chars "email").
  rewrite parse_members_string.
  match goal with |- context [skip_ws ?s] => change (skip_ws s) with s end.
  cbv iota beta. rewrite parse_members_string. reflexivity.
Qed.

Lemma fuel_ample (c : ascii) (t : string) :
  ∃ k, (2 * String.length (String c t) + 2)%nat = S (S (S (S k))).
Proof. exists (2 * String.length t)%nat. cbn [String.length]. lia. Qed.

(** What a login stores for a user with string name and email is read back
    by a page load as that user. *)
Lemma JSON_parse_stringify_user (a b : string) :
  JSON_parse (default "" (JSON_stringify (JObj [("name", JStr a); ("email", JStr b)])))
  = Some (JObj [("name", JStr a); ("email", JStr b)]).
Proof.
  rewrite JSON_stringify_user. cbn [default]. unfold id, JSON_parse.
  match goal with
  | |- context [parse_value (2 * String.length (String ?c ?t) + 2)%nat _] =>
      destruct (fuel_ample c t) as [k ->]
  end.
  rewrite parse_value_user. reflexivity.
Qed.


(* ===================================================================== *)
(** * The authorization header and the restored session *)
(* ===================================================================== *)

Section Header.
Import AuthContext.

Lemma prop_truthy_readable (data : JsValue) (k : string) :
  ToBoolean (prop data k) = true → non_null data.
Proof. unfold prop. destruct data; simpl; intros H; try discriminate; split; discriminate. Qed.

(** The check of the login response lets through a body with a truthy
    token and a truthy user. *)
Lemma login_try_accepts (r : Response) (data : JsValue) :
  json r = Normal data → ok r = true →
  ToBoolean (prop data "access_token") = true →
  ToBoolean (prop data "user") = true →
  login_try (Resolved r)
  = Normal (JObj [("name", prop (prop data "user") "name");
                  ("email", prop (prop data "user") "email")],
            prop data "access_token").
Proof.
  intros Hj Hok Ha Hu.
  pose proof (prop_truthy_readable _ _ Ha) as Hn.
  pose proof (truthy_non_null _ Hu) as Hnu.
  unfold login_try, mbind, Completion_bind, bind. cbn [await].
  rewrite Hj, Hok. cbn [negb].
  rewrite (getProp_prop data "access_token" Hn), Ha. cbn [negb].
  rewrite (getProp_prop data "user" Hn), Hu. cbn [negb].
  rewrite (getProp_prop _ "name" Hnu), (getProp_prop _ "email" Hnu). reflexivity.
Qed.

Lemma header_of_token (w : World) (t : string) :
  storage w !! "token" = Some t → t ≠ "" →
  getAuthHeader w = [("Authorization", "Bearer " +:+ t)].
Proof.
  intros Ht Hne. unfold getAuthHeader, getItem. rewrite Ht.
  destruct (String.eqb_spec t ""); [done|reflexivity].
Qed.

Lemma header_without_token (w : World) :
  storage w !! "token" = None → getAuthHeader w = [].
Proof. intros Ht. unfold getAuthHeader, getItem. by rewrite Ht. Qed.

Lemma header_needs_token (w : World) :
  getAuthHeader w ≠ [] → ∃ t, storage w !! "token" = Some t ∧ t ≠ "".
Proof.
  unfold getAuthHeader, getItem. destruct (storage w !! "token") as [t|]; [|done].
  destruct (String.eqb_spec t ""); [done|eauto].
Qed.

Lemma login_settle_accepted (res : FetchResult) (w : World) (userData access_token : JsValue) :
  login_try res = Normal (userData, access_token) →
  fst (login_settle res w)
  = mkWorld
      (<["isLoggedIn" := "true"]>
         (<["token" := ToString access_token]>
            (<["user" := default "undefined" (JSON_stringify userData)]> (storage w))))
      (mkSession userData true false access_token).
Proof. intros Ht. unfold login_settle. rewrite Ht. reflexivity. Qed.

Lemma login_settle_refused (res : FetchResult) (w : World) (err : JsError) :
  login_try res = Throw err →
  fst (login_settle res w) = mkWorld (without_session (storage w)) logged_out.
Proof. intros Ht. unfold login_settle. rewrite Ht. reflexivity. Qed.

(** X1. After a login that succeeds with a string token, the header built
    for the next request is exactly the bearer of that token, and the
    session holds the token and is logged in. *)
Theorem auth_header_after_login (email pass : JsValue) (r : Response)
  (data : JsValue) (t : string) (w : World) :
  json r = Normal data → ok r = true →
  prop data "access_token" = JStr t → t ≠ "" →
  ToBoolean (prop data "user") = true →
  let w' := fst (login email pass (Resolved r) w) in
  getAuthHeader w' = [("Authorization", "Bearer " +:+ t)]
  ∧ isLoggedIn (session w') = true
  ∧ token (session w') = JStr t.
Proof.
  intros Hj Hok Ht Hne Hu. cbv zeta.
  assert (ToBoolean (prop data "access_token") = true) as Ha.
  { rewrite Ht. cbn. destruct (String.eqb_spec t ""); done. }
  pose proof (login_try_accepts r data Hj Hok Ha Hu) as Htry.
  unfold login. rewrite (login_settle_accepted _ _ _ _ Htry). rewrite Ht.
  split; [|split; reflexivity].
  apply header_of_token; [|done]. cbn [storage ToString]. by simplify_map_eq.
Qed.

Lemma auth_header_after_login_witness :
  let data := JObj [("access_token", JStr "abc123");
                    ("user", JObj [("name", JStr "Ada");
                                   ("email", JStr "ada@example.org")])] in
  let w' := fst (login (JStr "ada@example.org") (JStr "pw")
                   (Resolved (mkResponse 200 (Normal data))) (mkWorld ∅ mount)) in
  getAuthHeader w' = [("Authorization", "Bearer abc123")]
  ∧ isLoggedIn (session w') = true
  ∧ token (session w') = JStr "abc123".
Proof.
  cbv zeta.
  apply (auth_header_after_login (JStr "ada@example.org") (JStr "pw")
           (mkResponse 200
              (Normal (JObj [("access_token", JStr "abc123");
                             ("user", JObj [("name", JStr "Ada");
                                            ("email", JStr "ada@example.org")])])))
           (JObj [("access_token", JStr "abc123");
                  ("user", JObj [("name", JStr "Ada");
                                 ("email", JStr "ada@example.org")])])
           "abc123" (mkWorld ∅ mount));
    [reflexivity|reflexivity|reflexivity|discriminate|reflexivity].
Defined.

(** X2. Whatever the world was, no header is built after a logout, after a
    failed login, or after the initial effect found a stored session whose
    user does not parse. *)
Theorem auth_header_empty_after_clearing (w : World) :
  getAuthHeader (fst (logout w)) = []
  ∧ (∀ email pass res, login_failure res →
       getAuthHeader (fst (login email pass res w)) = [])
  ∧ (restorable (storage w) → JSON_parse (default "" (storage w !! "user")) = None →
     getAuthHeader (initialize w) = []).
Proof.
  split; [|split].
  - apply header_without_token. cbn [logout fst storage onStorage onSession].
    unfold removeItem. by simplify_map_eq.
  - intros email pass res Hf. apply login_try_failure in Hf as [err Ht].
    unfold login. rewrite (login_settle_refused _ _ _ Ht).
    apply header_without_token. apply without_session_cleared.
  - intros Hr Hp. destruct w as [st s]. cbn [storage] in *.
    rewrite (initialize_heals st s Hr Hp).
    apply header_without_token. apply without_session_cleared.
Qed.

Lemma step_preserves_header (w : World) (op : Op) :
  world_inv w → header_inv w → header_inv (step w op).
Proof.
  destruct w as [st s]. intros [_ Hst] Hh. unfold header_inv in *.
  cbn [storage session] in *.
  destruct op as [|email pass|res|]; cbn [step storage session].
  - destruct (bool_decide (getItem "isLoggedIn" st = Some "true")
              && present (getItem "user" st) && present (getItem "token" st)) eqn:Hr.
    + apply restorable_dec in Hr.
      destruct (JSON_parse (default "" (st !! "user"))) as [parsed|] eqn:Hp.
      * rewrite (initialize_restores _ _ _ Hr Hp). reflexivity.
      * rewrite (initialize_heals _ _ Hr Hp). intros Hne. exfalso. apply Hne.
        apply header_without_token. apply without_session_cleared.
    + assert (¬ restorable st) as Hn by (rewrite <- restorable_dec, Hr; done).
      rewrite (initialize_skips _ _ Hn). intros Hne. exfalso.
      apply header_needs_token in Hne as (t & Ht & Hne). cbn [storage] in Ht.
      destruct Hst as [(_ & Hc & _)|(members & tok & Hu & Htok & Hl)]; [congruence|].
      apply Hn. split; [done|]. split.
      * destruct (JSON_stringify_object members) as [text Htext].
        rewrite Hu, Htext. reflexivity.
      * rewrite Ht. cbn. destruct (String.eqb_spec t ""); done.
  - exact Hh.
  - destruct (login_try res) as [[userData access_token]|err] eqn:Ht.
    + rewrite (login_settle_accepted _ _ _ _ Ht). reflexivity.
    + rewrite (login_settle_refused _ _ _ Ht). intros Hne. exfalso. apply Hne.
      apply header_without_token. apply without_session_cleared.
  - intros Hne. exfalso. apply Hne. apply header_without_token.
    cbn [logout fst storage onStorage onSession]. unfold removeItem. by simplify_map_eq.
Qed.

(** X3. Starting at a mount over a storage without the three keys, after
    every sequence of operations a header is built only while the session
    is logged in: no request carries a bearer token of a session that has
    ended or has not been restored. *)
Theorem auth_header_only_when_logged_in (st : Storage) (ops : list Op) :
  cleared st →
  let w := run (mkWorld st mount) ops in
  getAuthHeader w ≠ [] → isLoggedIn (session w) = true.
Proof.
  intros Hc. cbv zeta.
  assert (world_inv (mkWorld st mount) ∧ header_inv (mkWorld st mount)) as Hinit.
  { split; [split; [apply session_inv_logged_out|by left]|].
    intros Hne. exfalso. apply Hne. apply header_without_token. apply Hc. }
  revert Hinit. generalize (mkWorld st mount). unfold run.
  induction ops as [|op ops IH]; intros w [Hw Hh]; cbn [fold_left]; [exact Hh|].
  apply IH. split; [by apply step_preserves|by apply step_preserves_header].
Qed.

Lemma auth_header_only_when_logged_in_witness :
  let ops :=
    [Reload;
     LoginArrived
       (Resolved
          (mkResponse 200
             (Normal (JObj [("access_token", JStr "abc123");
                            ("user", JObj [("name", JStr "Ada");
                                           ("email", JStr "ada@example.org")])]))))] in
  let w := run (mkWorld ∅ mount) ops in
  getAuthHeader w ≠ [] ∧ isLoggedIn (session w) = true.
Proof.
  cbv zeta.
  assert (cleared (∅ : gmap string string)) as Hc by (repeat split; reflexivity).
  match goal with
  | |- ?H ∧ _ => assert H as Hh by (vm_compute; discriminate)
  end.
  split; [exact Hh|].
  exact (auth_header_only_when_logged_in ∅ _ Hc Hh).
Defined.

Lemma reload_after_login (email pass : JsValue) (r : Response)
  (data : JsValue) (a b t : string) (w : World) :
  json r = Normal data → ok r = true →
  prop data "access_token" = JStr t → t ≠ "" →
  prop (prop data "user") "name" = JStr a →
  prop (prop data "user") "email" = JStr b →
  let w1 := fst (login email pass (Resolved r) w) in
  session (step w1 Reload)
  = mkSession (JObj [("name", JStr a); ("email", JStr b)]) true false (JStr t)
  ∧ storage (step w1 Reload) = storage w1.
Proof.
  intros Hj Hok Ht Hne Ha Hb. cbv zeta.
  assert (ToBoolean (prop data "access_token") = true) as Hta.
  { rewrite Ht. cbn. destruct (String.eqb_spec t ""); done. }
  assert (ToBoolean (prop data "user") = true) as Hu.
  { revert Ha. unfold prop at 1. destruct (prop data "user"); cbn; try discriminate.
    done. }
  pose proof (login_try_accepts r data Hj Hok Hta Hu) as Htry.
  unfold login. rewrite (login_settle_accepted _ _ _ _ Htry), Ha, Hb, Ht.
  cbn [step storage ToString].
  match goal with
  | |- context [initialize (mkWorld ?st0 mount)] => set (st1 := st0)
  end.
  assert (st1 !! "user"
          = Some (default "undefined"
                    (JSON_stringify (JObj [("name", JStr a); ("email", JStr b)]))))
    as Hsu by (subst st1; by simplify_map_eq).
  assert (st1 !! "token" = Some t) as Hst by (subst st1; by simplify_map_eq).
  assert (st1 !! "isLoggedIn" = Some "true") as Hsl by (subst st1; by simplify_map_eq).
  assert (restorable st1) as Hr.
  { split; [done|]. rewrite Hsu, Hst. split.
    - destruct (JSON_stringify_object [("name", JStr a); ("email", JStr b)]) as [x ->].
      reflexivity.
    - cbn. destruct (String.eqb_spec t ""); done. }
  assert (JSON_parse (default "" (st1 !! "user"))
          = Some (JObj [("name", JStr a); ("email", JStr b)])) as Hp.
  { rewrite Hsu. cbn [default].
    destruct (JSON_stringify_object [("name", JStr a); ("email", JStr b)]) as [x Hx].
    pose proof (JSON_parse_stringify_user a b) as Hrt.
    rewrite Hx in *. exact Hrt. }
  rewrite (initialize_restores st1 mount _ Hr Hp). rewrite Hst. split; reflexivity.
Qed.

(** X4. A login that succeeds with a string token and a user whose name and
    email are strings, followed by a page load, restores exactly that user
    and that token, logged in and done loading, and leaves the storage as
    the login wrote it. *)
Theorem session_restored_on_reload (email pass : JsValue) (r : Response)
  (data : JsValue) (a b t : string) (w : World) :
  json r = Normal data → ok r = true →
  prop data "access_token" = JStr t → t ≠ "" →
  prop (prop data "user") "name" = JStr a →
  prop (prop data "user") "email" = JStr b →
  let w1 := fst (login email pass (Resolved r) w) in
  session (step w1 Reload)
  = mkSession (JObj [("name", JStr a); ("email", JStr b)]) true false (JStr t)
  ∧ storage (step w1 Reload) = storage w1.
Proof. apply reload_after_login. Qed.

Lemma session_restored_on_reload_witness :
  let data := JObj [("access_token", JStr "abc123");
                    ("user", JObj [("name", JStr "Ada");
                                   ("email", JStr "ada@example.org")])] in
  let w1 := fst (login (JStr "ada@example.org") (JStr "pw")
                   (Resolved (mkResponse 200 (Normal data))) (mkWorld ∅ mount)) in
  session (step w1 Reload)
  = mkSession (JObj [("name", JStr "Ada"); ("email", JStr "ada@example.org")])
      true false (JStr "abc123")
  ∧ storage (step w1 Reload) = storage w1.
Proof.
  cbv zeta.
  apply (session_restored_on_reload (JStr "ada@example.org") (JStr "pw")
           (mkResponse 200
              (Normal (JObj [("access_token", JStr "abc123");
                             ("user", JObj [("name", JStr "Ada");
                                            ("email", JStr "ada@example.org")])])))
           (JObj [("access_token", JStr "abc123");
                  ("user", JObj [("name", JStr "Ada");
                                 ("email", JStr "ada@example.org")])])
           "Ada" "ada@example.org" "abc123" (mkWorld ∅ mount));
    [reflexivity|reflexivity|reflexivity|discriminate|reflexivity|reflexivity].
Defined.

(** X5. No operation of the session manager changes what is stored under a
    key other than user, token, isLoggedIn, userName and userEmail. *)
Theorem storage_frame (w : World) (op : Op) (k : string) :
  ¬ In k managed_keys →
  storage (step w op) !! k = storage w !! k.
Proof.
  intros Hk.
  assert (k ≠ "user" ∧ k ≠ "token" ∧ k ≠ "isLoggedIn" ∧ k ≠ "userName"
          ∧ k ≠ "userEmail") as (H1 & H2 & H3 & H4 & H5).
  { unfold managed_keys in Hk. cbn in Hk. repeat split; intros ->; tauto. }
  assert (without_session (storage w) !! k = storage w !! k) as Hw.
  { unfold without_session. by rewrite !lookup_delete_ne. }
  destruct w as [st s]. cbn [storage] in *.
  destruct op as [|email pass|res|]; cbn [step storage].
  - unfold initialize. cbn [storage].
    destruct (bool_decide (getItem "isLoggedIn" st = Some "true")
              && present (getItem "user" st) && present (getItem "token" st));
      [|reflexivity].
    destruct (JSON_parse (default "" (getItem "user" st))); [reflexivity|exact Hw].
  - reflexivity.
  - destruct (login_try res) as [[userData access_token]|err] eqn:Ht.
    + rewrite (login_settle_accepted _ _ _ _ Ht). cbn [storage].
      by rewrite !lookup_insert_ne.
    + rewrite (login_settle_refused _ _ _ Ht). exact Hw.
  - cbn [logout fst storage onStorage onSession]. unfold removeItem.
    by rewrite !lookup_delete_ne.
Qed.

Lemma storage_frame_witness :
  let w := mkWorld (<["theme" := "dark"]> (<["token" := "abc123"]> ∅)) logged_out in
  ¬ In "theme" managed_keys
  ∧ storage (step w Logout) !! "theme" = Some "dark".
Proof.
  cbv zeta.
  assert (¬ In "theme" managed_keys) as Hk.
  { unfold managed_keys. cbn [In]. intros [H|[H|[H|[H|[H|[]]]]]]; discriminate H. }
  split; [exact Hk|].
  rewrite (storage_frame _ Logout "theme" Hk). reflexivity.
Defined.

End Header.


(* ===================================================================== *)
(** * Routing *)
(* ===================================================================== *)

Section Routing.
Import AuthContext.

(** The converse of [login_try_failure]: an error is thrown only in one of
    the listed ways. *)
Lemma login_try_throws (res : FetchResult) (err : JsError) :
  login_try res = Throw err → login_failure res.
Proof.
  unfold login_try, mbind, Completion_bind, bind.
  destruct res as [e|r]; cbn [await]; [intros _; constructor|].
  destruct (json r) as [data|e] eqn:Hj; [|intros _; by eapply body_not_json].
  destruct (ok r) eqn:Hok; [|intros _; by apply status_not_ok].
  cbn [negb].
  destruct (getProp data "access_token") as [a|e] eqn:Ha;
    [|intros _; by eapply body_null].
  destruct (ToBoolean a) eqn:Hta; [|intros _; by eapply missing_access_token].
  cbn [negb].
  destruct (getProp_total _ _ "user" _ Ha) as [u Hu]. rewrite Hu.
  destruct (ToBoolean u) eqn:Htu; [|intros _; by eapply missing_user].
  cbn [negb].
  pose proof (truthy_non_null _ Htu) as Hn.
  rewrite (getProp_prop u "name" Hn), (getProp_prop u "email" Hn). discriminate.
Qed.

Lemma message_or_nonempty (err : JsError) (fallback : string) :
  fallback ≠ "" → message_or err fallback ≠ "".
Proof.
  intros Hf. unfold message_or. destruct (String.eqb_spec (message err) ""); done.
Qed.

Lemma typed_redirectTarget (edits : list (string * string)) (s : Login.State) :
  Login.redirectTarget (typed edits s) = Login.redirectTarget s.
Proof.
  unfold typed. revert s. induction edits as [|e edits IH]; intros s; cbn [fold_left];
    [done|]. by rewrite IH.
Qed.

(** X6. A visitor whom the guard of a protected page sends to the login
    page comes back to the page they asked for: whatever they type into the
    form, the redirect target the login page keeps is the path of the
    guarded location. *)
Theorem guard_redirect_remembers_page (isLoggedIn isLoading : bool)
  (location at_login : Router.Location) (n : Router.Navigation)
  (effects : list Router.Effect) (edits : list (string * string)) (s : Login.State) :
  ProtectedRoute.render isLoggedIn isLoading location = (ProtectedRoute.Navigate n, effects) →
  Router.pathname location ≠ "" →
  Router.state at_login = Router.nav_state n →
  Router.to n = JStr "/login"
  ∧ Login.redirectTarget (typed edits (Login.locationEffect at_login s))
    = JStr (Router.pathname location).
Proof.
  unfold ProtectedRoute.render. intros Hr Hp Hs.
  destruct isLoading; [discriminate|]. destruct isLoggedIn; [discriminate|].
  cbn [negb] in Hr. injection Hr as <- <-. split; [reflexivity|].
  rewrite typed_redirectTarget. unfold Login.locationEffect. rewrite Hs.
  cbn. destruct (String.eqb_spec (Router.pathname location) ""); done.
Qed.

Lemma guard_redirect_remembers_page_witness :
  let location := Router.mkLocation "/tutor" "" "" JNull "default" in
  let state := JObj [("from", Router.as_value location)] in
  let at_login := Router.mkLocation "/login" "" "" state "k1" in
  Login.redirectTarget
    (typed [("email", "ada@example.org"); ("password", "pw")]
       (Login.locationEffect at_login Login.initial))
  = JStr "/tutor".
Proof.
  cbv zeta.
  refine (proj2 (guard_redirect_remembers_page false false
                   (Router.mkLocation "/tutor" "" "" JNull "default")
                   (Router.mkLocation "/login" "" ""
                      (JObj [("from",
                              Router.as_value
                                (Router.mkLocation "/tutor" "" "" JNull "default"))])
                      "k1")
                   _ _ [("email", "ada@example.org"); ("password", "pw")]
                   Login.initial _ _ _));
    [reflexivity|discriminate|reflexivity].
Defined.

(** X7. A visitor whom the home page sends to the login page does not come
    back to the feature they asked for: the home page puts the route itself
    into the state, where the login page looks for a location, so the
    redirect target is the root path whatever the route was. *)
Theorem home_redirect_forgets_route (route : string) (at_login : Router.Location)
  (s : Login.State) :
  ∃ t n,
    Home.handleNavigateToProtected route false = [Router.toast t; Router.go n]
    ∧ Router.to n = JStr "/login"
    ∧ (Router.state at_login = Router.nav_state n →
       Login.redirectTarget (Login.locationEffect at_login s) = JStr "/").
Proof.
  unfold Home.handleNavigateToProtected. do 2 eexists. split; [reflexivity|].
  split; [reflexivity|]. cbn [Router.nav_state]. intros Hs.
  unfold Login.locationEffect. rewrite Hs. reflexivity.
Qed.

(** X8. Submitting the login form.  With the email or the password empty
    nothing is sent and the session is left alone.  Otherwise the outcome
    is that of the login call: when it fails the session is logged out and
    cleared, a message that is not empty is shown and there is no
    navigation; when it succeeds the session is logged in, no error is
    shown and the one navigation replaces the login page by the redirect
    target. *)
Theorem login_page_submit (res : FetchResult) (s : Login.State) (w : World) :
  let out := Login.handleSubmit res s w in
  let s' := fst (fst out) in
  let w' := snd (fst out) in
  let effects := snd out in
  (Login.filled "email" s = false ∨ Login.filled "password" s = false →
   w' = w ∧ Router.navigations effects = []
   ∧ Login.error s' = Some "Both email and password are required.")
  ∧ (Login.filled "email" s = true → Login.filled "password" s = true →
     login_failure res →
     w' = mkWorld (without_session (storage w)) logged_out
     ∧ Router.navigations effects = []
     ∧ ∃ msg, Login.error s' = Some msg ∧ msg ≠ "")
  ∧ (Login.filled "email" s = true → Login.filled "password" s = true →
     ¬ login_failure res →
     isLoggedIn (session w') = true
     ∧ Router.navigations effects
       = [Router.mkNavigation (Login.redirectTarget s) true JUndefined]
     ∧ Login.error s' = None).
Proof.
  cbv zeta. unfold Login.handleSubmit. split; [|split].
  - intros [H|H]; rewrite H; cbn [negb orb]; [|rewrite orb_true_r]; done.
  - intros He Hp Hf. rewrite He, Hp. cbn [negb orb].
    apply login_try_failure in Hf as [err Ht].
    unfold login. unfold login_settle. rewrite Ht. cbn [fst snd].
    split; [reflexivity|]. split; [reflexivity|].
    eexists. split; [reflexivity|]. by apply message_or_nonempty.
  - intros He Hp Hf. rewrite He, Hp. cbn [negb orb].
    unfold login, login_settle.
    destruct (login_try res) as [[userData access_token]|err] eqn:Ht.
    + cbn [fst snd]. done.
    + exfalso. apply Hf. by eapply login_try_throws.
Qed.

(** X9. A page load over the storage that a successful login wrote (string
    token, user with string name and email) shows the spinner while the
    session is being restored and the protected page once the initial
    effect has run: the guard does not send a logged-in user to the login
    page on reload. *)
Theorem protected_page_survives_reload (email pass : JsValue) (r : Response)
  (data : JsValue) (a b t : string) (w : World) (location : Router.Location) :
  json r = Normal data → ok r = true →
  prop data "access_token" = JStr t → t ≠ "" →
  prop (prop data "user") "name" = JStr a →
  prop (prop data "user") "email" = JStr b →
  let w1 := fst (login email pass (Resolved r) w) in
  let guard (s : Session) := ProtectedRoute.render (isLoggedIn s) (isLoading s) location in
  guard mount = (ProtectedRoute.Authenticating, [])
  ∧ guard (session (step w1 Reload)) = (ProtectedRoute.Outlet, []).
Proof.
  intros Hj Hok Ht Hne Ha Hb. cbv zeta. split; [reflexivity|].
  destruct (reload_after_login email pass r data a b t w Hj Hok Ht Hne Ha Hb) as [-> _].
  reflexivity.
Qed.

Lemma protected_page_survives_reload_witness :
  let data := JObj [("access_token", JStr "abc123");
                    ("user", JObj [("name", JStr "Ada");
                                   ("email", JStr "ada@example.org")])] in
  let w1 := fst (login (JStr "ada@example.org") (JStr "pw")
                   (Resolved (mkResponse 200 (Normal data))) (mkWorld ∅ mount)) in
  let s := session (step w1 Reload) in
  ProtectedRoute.render (isLoggedIn s) (isLoading s)
    (Router.mkLocation "/tutor" "" "" JNull "default")
  = (ProtectedRoute.Outlet, []).
Proof.
  cbv zeta.
  refine (proj2 (protected_page_survives_reload (JStr "ada@example.org") (JStr "pw")
                   (mkResponse 200
                      (Normal (JObj [("access_token", JStr "abc123");
                                     ("user", JObj [("name", JStr "Ada");
                                                    ("email", JStr "ada@example.org")])])))
                   (JObj [("access_token", JStr "abc123");
                          ("user", JObj [("name", JStr "Ada");
                                         ("email", JStr "ada@example.org")])])
                   "Ada" "ada@example.org" "abc123" (mkWorld ∅ mount)
                   (Router.mkLocation "/tutor" "" "" JNull "default") _ _ _ _ _ _));
    [reflexivity|reflexivity|reflexivity|discriminate|reflexivity|reflexivity].
Defined.

End Routing.


(* ===================================================================== *)
(** * White space and the guards of the solve buttons *)
(* ===================================================================== *)

Lemma blank_trimStart_aux (n : nat) :
  ∀ s, (String.length s ≤ n)%nat →
       blank (trimStart s) = blank s ∧ (blank s = true → trimStart s = "").
Proof.
  induction n as [|n IH]; intros s Hlen.
  - destruct s; [done|simpl in Hlen; lia].
  - destruct s as [|c1 r1]; [done|]. simpl in Hlen.
    cbn [trimStart blank].
    destruct (ws1 c1) eqn:H1; [apply IH; lia|].
    destruct r1 as [|c2 r2].
    { cbn [blank]. rewrite H1. done. }
    simpl in Hlen.
    destruct (ws2 c1 c2) eqn:H2; [apply IH; lia|].
    destruct r2 as [|c3 r3].
    { cbn [blank]. rewrite H1, H2. done. }
    simpl in Hlen.
    destruct (ws3 c1 c2 c3) eqn:H3; [apply IH; lia|].
    cbn [blank]. rewrite H1, H2, H3. done.
Qed.

Lemma blank_trimStart (s : string) : blank (trimStart s) = blank s.
Proof. exact (proj1 (blank_trimStart_aux _ s (le_n _))). Qed.

Lemma trimStart_blank (s : string) : blank s = true → trimStart s = "".
Proof. exact (proj2 (blank_trimStart_aux _ s (le_n _))). Qed.

Lemma trimEnd_empty (s : string) : trimEnd s = "" ↔ blank s = true.
Proof.
  destruct s as [|c r]; [done|]. cbn [trimEnd].
  destruct (blank (String c r)); split; done.
Qed.

(** [s.trim()] is empty exactly when [s] consists of white space. *)
Lemma trim_empty (s : string) : trim s = "" ↔ blank s = true.
Proof. unfold trim. rewrite trimEnd_empty, blank_trimStart. done. Qed.

Lemma trim_eqb (s : string) : String.eqb (trim s) "" = blank s.
Proof.
  destruct (String.eqb_spec (trim s) "") as [H|H].
  - symmetry. by apply trim_empty.
  - destruct (blank s) eqn:Hb; [|done]. exfalso. apply H. by apply trim_empty.
Qed.

(** X10. The guard of the solve button on both screens.  A text of white
    space only sends nothing and changes no cell; any other text sends
    exactly one solve request, which carries the text as typed on the tutor
    screen and the trimmed text on the upload screen.  An input that is not
    a string sends nothing and changes nothing either. *)
Theorem solve_guard (t : TutorComponent.State) (i : Index.State) :
  (∀ text,
     TutorComponent.problemInput t = JStr text →
     let out := TutorComponent.handleGenerateSolution_begin t in
     if blank text then fst out = t ∧ requests (snd out) = []
     else requests (snd out) = [solve_text (JStr text)])
  ∧ (∀ text,
       Index.ocrText i = JStr text →
       let out := Index.solveQuestion_begin i in
       if blank text then fst out = i ∧ requests (snd out) = []
       else requests (snd out) = [solve_text (JStr (trim text))])
  ∧ ((∀ text, TutorComponent.problemInput t ≠ JStr text) →
     TutorComponent.handleGenerateSolution_begin t = (t, []))
  ∧ ((∀ text, Index.ocrText i ≠ JStr text) →
     Index.solveQuestion_begin i = (i, [])).
Proof.
  split; [|split; [|split]].
  - intros text Ht. cbv zeta. unfold TutorComponent.handleGenerateSolution_begin.
    rewrite Ht. cbn [call_trim]. rewrite trim_eqb.
    destruct (blank text); [split|]; reflexivity.
  - intros text Ht. cbv zeta. unfold Index.solveQuestion_begin.
    rewrite Ht. cbn [call_trim]. rewrite trim_eqb.
    destruct (blank text); [split|]; reflexivity.
  - intros Hn. unfold TutorComponent.handleGenerateSolution_begin.
    destruct (TutorComponent.problemInput t) as [| | | |text| |]; try reflexivity.
    by destruct (Hn text).
  - intros Hn. unfold Index.solveQuestion_begin.
    destruct (Index.ocrText i) as [| | | |text| |]; try reflexivity.
    by destruct (Hn text).
Qed.


(* ===================================================================== *)
(** * Mistake diagnosis *)
(* ===================================================================== *)

Section Diagnosis.
Import Api MistakeDiagnosis.

Lemma diagnoseSolutionApi_throw (res : FetchResult) (err : JsError) (s : State) :
  diagnoseSolutionApi_try res = Throw err →
  handleSubmit_settle res s
  = setIsLoading false (setFeedback (JStr "") (setError (JStr (message err)) s)).
Proof.
  intros Ht. unfold handleSubmit_settle, diagnoseSolutionApi. rewrite Ht.
  unfold handleSubmit_try, mbind, Completion_bind, bind. cbn [getProp assoc String.eqb Ascii.eqb Bool.eqb].
  cbn. destruct (String.eqb_spec (message err) ""); [|reflexivity].
  cbn. by rewrite e.
Qed.

Lemma first_truthy_defined (candidates : list JsValue) (generic : string) :
  first_truthy candidates generic ≠ JUndefined.
Proof.
  induction candidates as [|v rest IH]; cbn [first_truthy]; [done|].
  destruct (ToBoolean v) eqn:Hv; [|done]. by destruct v.
Qed.

Lemma new_Error_message (v : JsValue) : v ≠ JUndefined → new_Error v = mkError (ToString v).
Proof. by destruct v. Qed.

(** The message thrown for a status that is not a success. *)
Lemma diagnoseSolutionApi_not_ok (r : Response) (errorData : JsValue) :
  ok r = false → non_null errorData →
  (json r = Normal errorData
   ∨ (∃ e, json r = Throw e)
     ∧ errorData = JObj [("error", JStr "An unknown error occurred")]) →
  diagnoseSolutionApi_try (Resolved r)
  = Throw (mkError
             (ToString
                (first_truthy [prop errorData "detail"; prop errorData "error"]
                   ("HTTP error! status: " +:+ pretty (status r))))).
Proof.
  intros Hok Hn Hj. unfold diagnoseSolutionApi_try, mbind, Completion_bind, bind.
  cbn [await]. rewrite Hok. cbn [negb].
  assert (match json r with
          | Normal d => d
          | Throw _ => JObj [("error", JStr "An unknown error occurred")]
          end = errorData) as ->.
  { destruct Hj as [->|[[e ->] ->]]; reflexivity. }
  rewrite (getProp_prop errorData "detail" Hn), (getProp_prop errorData "error" Hn).
  rewrite <- new_Error_message by apply first_truthy_defined.
  unfold or_elseM, or_else. cbn [first_truthy].
  destruct (ToBoolean (prop errorData "detail")); [reflexivity|].
  destruct (ToBoolean (prop errorData "error")); reflexivity.
Qed.

Lemma settle_cells (res : FetchResult) (s : State) :
  isLoading (handleSubmit_settle res s) = false
  ∧ problemText (handleSubmit_settle res s) = problemText s
  ∧ userSteps (handleSubmit_settle res s) = userSteps s
  ∧ userHasEditedProblem (handleSubmit_settle res s) = userHasEditedProblem s.
Proof.
  unfold handleSubmit_settle, handleSubmit_try, mbind, Completion_bind, bind.
  destruct (getProp (diagnoseSolutionApi res) "error") as [e|e]; [|done].
  destruct (ToBoolean e); [done|].
  destruct (getProp (diagnoseSolutionApi res) "feedback"); done.
Qed.

(** X11. What the diagnosis panel shows when a call has returned.  Every
    failure of the request ends with the message of the failure as the
    error and no feedback: the message of the rejection; for a status that
    is not a success, the fixed text when the body is not JSON, else the
    first truthy of detail, error and the generic status text; the message
    of the parse error for a success whose body is not JSON.  A success
    with a readable body shows its truthy error field and no feedback, or
    else its feedback field and no error.  The loading flag is lowered and
    the two texts are left as typed in every case. *)
Theorem diagnosis_outcome (res : FetchResult) (s : State) :
  let s' := handleSubmit_settle res s in
  isLoading s' = false ∧ problemText s' = problemText s ∧ userSteps s' = userSteps s
  ∧ match res with
    | Rejected err => shows (message err) s'
    | Resolved r =>
        match json r with
        | Throw err =>
            if ok r then shows (message err) s'
            else shows "An unknown error occurred" s'
        | Normal data =>
            non_null data →
            if ok r then
              if ToBoolean (prop data "error")
              then error s' = prop data "error" ∧ feedback s' = JStr ""
              else feedback s' = prop data "feedback" ∧ error s' = JStr ""
            else
              shows (ToString
                       (first_truthy [prop data "detail"; prop data "error"]
                          ("HTTP error! status: " +:+ pretty (status r)))) s'
        end
    end.
Proof.
  cbv zeta. destruct (settle_cells res s) as (Hl & Hp & Hu & _).
  split; [exact Hl|]. split; [exact Hp|]. split; [exact Hu|].
  destruct res as [err|r].
  - rewrite (diagnoseSolutionApi_throw _ err) by reflexivity. by split.
  - destruct (json r) as [data|err] eqn:Hj; destruct (ok r) eqn:Hok.
    + intros Hn. unfold handleSubmit_settle, diagnoseSolutionApi, diagnoseSolutionApi_try,
        mbind, Completion_bind, bind. cbn [await]. rewrite Hok, Hj. cbn [negb].
      unfold handleSubmit_try, mbind, Completion_bind, bind.
      rewrite (getProp_prop data "error" Hn), (getProp_prop data "feedback" Hn).
      destruct (ToBoolean (prop data "error")); by split.
    + intros Hn.
      rewrite (diagnoseSolutionApi_throw _ _ s
                 (diagnoseSolutionApi_not_ok r data Hok Hn (or_introl Hj))).
      by split.
    + rewrite (diagnoseSolutionApi_throw _ err).
      * by split.
      * unfold diagnoseSolutionApi_try, mbind, Completion_bind, bind. cbn [await].
        rewrite Hok, Hj. reflexivity.
    + assert (non_null (JObj [("error", JStr "An unknown error occurred")])) as Hn
        by (split; discriminate).
      rewrite (diagnoseSolutionApi_throw _ _ s
                 (diagnoseSolutionApi_not_ok r _ Hok Hn
                    (or_intror (conj (ex_intro _ err Hj) eq_refl)))).
      by split.
Qed.

Lemma exclusive_handle (ev : Event) (s : State) :
  exclusive s → exclusive (fst (handle ev s)).
Proof.
  unfold exclusive. intros Hs. destruct ev as [p|v|v| |res]; cbn [handle fst].
  - unfold prefill. by destruct (ToBoolean p && negb (userHasEditedProblem s)).
  - exact Hs.
  - exact Hs.
  - unfold handleSubmit_begin. destruct (call_trim (problemText s)) as [problem|]; [|exact Hs].
    destruct (String.eqb problem "" || String.eqb (trim (userSteps s)) "");
      cbn; first [reflexivity|apply andb_false_r].
  - unfold handleSubmit_settle, handleSubmit_try, mbind, Completion_bind, bind.
    destruct (getProp (diagnoseSolutionApi res) "error") as [e|e];
      [|cbn; first [reflexivity|apply andb_false_r]].
    destruct (ToBoolean e) eqn:He; [cbn; first [reflexivity|apply andb_false_r]|].
    destruct (getProp (diagnoseSolutionApi res) "feedback"); cbn;
      first [reflexivity|apply andb_false_r].
Qed.

Lemma run_cons (ev : Event) (events : list Event) (s : State) :
  run (ev :: events) s
  = (fst (run events (fst (handle ev s))),
     (snd (handle ev s) ++ snd (run events (fst (handle ev s))))%list).
Proof.
  cbn [run]. destruct (handle ev s) as [s1 sent1]. cbn [fst snd].
  destruct (run events s1); reflexivity.
Qed.

(** X12. Over every sequence of renders, typing, clicks and responses, the
    panel never shows an error and a feedback at the same time. *)
Theorem diagnosis_error_or_feedback (events : list Event) :
  let s := fst (run events initial) in
  ToBoolean (error s) && ToBoolean (feedback s) = false.
Proof.
  cbv zeta. change (exclusive (fst (run events initial))).
  assert (exclusive initial) as H by reflexivity.
  revert H. generalize initial.
  induction events as [|ev events IH]; intros s Hs; [exact Hs|].
  rewrite run_cons. cbn [fst]. apply IH. by apply exclusive_handle.
Qed.

Lemma edited_handle (ev : Event) (s : State) :
  is_problem_typed ev = false → userHasEditedProblem s = true →
  userHasEditedProblem (fst (handle ev s)) = true
  ∧ problemText (fst (handle ev s)) = problemText s.
Proof.
  intros Hev He. destruct ev as [p|v|v| |res]; cbn [handle fst]; try discriminate.
  - unfold prefill. rewrite He, andb_false_r. done.
  - done.
  - unfold handleSubmit_begin. destruct (call_trim (problemText s)) as [problem|]; [|done].
    by destruct (String.eqb problem "" || String.eqb (trim (userSteps s)) "").
  - destruct (settle_cells res s) as (_ & Hp & _ & Hu). rewrite Hp, Hu. done.
Qed.

(** X13. Once the user has typed a problem text, nothing but further typing
    into that text area changes it: no later render with another
    [initialProblemText], no click and no response overwrites what was
    typed. *)
Theorem prefill_respects_edits (value : string) (events : list Event) (s : State) :
  forallb (λ ev, negb (is_problem_typed ev)) events = true →
  problemText (fst (run (ProblemTyped value :: events) s)) = JStr value.
Proof.
  intros Hev. rewrite run_cons. cbn [handle fst].
  assert (userHasEditedProblem (handleProblemTextChange value s) = true
          ∧ problemText (handleProblemTextChange value s) = JStr value) as H by done.
  revert H. generalize (handleProblemTextChange value s).
  induction events as [|ev events IH]; intros s0 [He Hp]; [exact Hp|].
  cbn [forallb] in Hev. apply andb_prop in Hev as [Hev Hrest].
  apply negb_true_iff in Hev.
  rewrite run_cons. cbn [fst].
  destruct (edited_handle ev s0 Hev He) as [He' Hp'].
  apply IH; [exact Hrest|]. split; [exact He'|congruence].
Qed.

Lemma prefill_respects_edits_witness :
  problemText
    (fst (run [ProblemTyped "2x + 5 = 11"; Rendered (JStr "x^2 = 4"); SubmitClicked;
               SubmitArrived (Rejected (mkError "Failed to fetch"));
               Rendered (JStr "x^2 = 9")]
            initial))
  = JStr "2x + 5 = 11".
Proof.
  apply (prefill_respects_edits "2x + 5 = 11"
           [Rendered (JStr "x^2 = 4"); SubmitClicked;
            SubmitArrived (Rejected (mkError "Failed to fetch"));
            Rendered (JStr "x^2 = 9")] initial).
  reflexivity.
Defined.

Lemma sent_handle (ev : Event) (s : State) (p : DiagnoseSolutionPayload) :
  In p (snd (handle ev s)) →
  ∃ text, problem_text p = JStr text ∧ problemText s = JStr text
          ∧ blank text = false ∧ blank (user_steps p) = false.
Proof.
  destruct ev as [q|v|v| |res]; cbn [handle snd In]; try done.
  unfold handleSubmit_begin.
  destruct (problemText s) as [| | | |text| |] eqn:Hp; cbn [call_trim snd In]; try done.
  rewrite !trim_eqb.
  destruct (blank text) eqn:Hb; cbn [orb snd In]; [done|].
  destruct (blank (userSteps s)) eqn:Hu; cbn [snd In]; [done|].
  intros [<-|[]]. cbn [problem_text user_steps]. eauto.
Qed.

(** X14. Every diagnosis request that is ever sent carries a problem text
    and solution steps that are strings with something other than white
    space in them, as they stood when the button was clicked. *)
Theorem diagnosis_payload_not_blank (events : list Event) (s : State)
  (p : DiagnoseSolutionPayload) :
  In p (snd (run events s)) →
  ∃ text, problem_text p = JStr text ∧ blank text = false
          ∧ blank (user_steps p) = false.
Proof.
  revert s. induction events as [|ev events IH]; intros s; [done|].
  rewrite run_cons. cbn [snd]. rewrite in_app_iff. intros [H|H].
  - destruct (sent_handle ev s p H) as (text & H1 & _ & H2 & H3). eauto.
  - by eapply IH.
Qed.

Lemma diagnosis_payload_not_blank_witness :
  ∃ text, problem_text (mkPayload (JStr "2x + 5 = 11") "2x = 6") = JStr text
          ∧ blank text = false ∧ blank "2x = 6" = false.
Proof.
  apply (diagnosis_payload_not_blank
           [ProblemTyped "2x + 5 = 11"; StepsTyped "2x = 6"; SubmitClicked] initial
           (mkPayload (JStr "2x + 5 = 11") "2x = 6")).
  vm_compute. left. reflexivity.
Defined.

End Diagnosis.


(* ===================================================================== *)
(** * Experience points *)
(* ===================================================================== *)

Section Experience.
Import Xp.

Lemma calculateLevel_rank (xp : Z) :
  rank (calculateLevel xp)
  = (if xp <? 100 then 0 else if xp <? 500 then 1 else if xp <? 1500 then 2 else 3).
Proof.
  unfold calculateLevel.
  destruct (xp <? 100); [done|]. destruct (xp <? 500); [done|].
  by destruct (xp <? 1500).
Qed.

Lemma handle_level (c : Cells) (ev : Event) :
  currentUserLevel (handle c ev) = calculateLevel (currentUserXP (handle c ev)).
Proof. destruct ev; reflexivity. Qed.

(** X15. The level shown always belongs to the XP shown, after every
    sequence of fetches and awards; and the level is monotone in the XP:
    as long as responses do not lower the XP, the level never goes down. *)
Theorem level_follows_xp (events : list Event) :
  let c := run events initial in
  currentUserLevel c = calculateLevel (currentUserXP c)
  ∧ ∀ xp xp', xp ≤ xp' → rank (calculateLevel xp) ≤ rank (calculateLevel xp').
Proof.
  cbv zeta. split.
  - unfold run.
    assert (currentUserLevel initial = calculateLevel (currentUserXP initial)) as H
      by reflexivity.
    revert H. generalize initial.
    induction events as [|ev events IH]; intros c Hc; cbn [fold_left]; [exact Hc|].
    apply IH, handle_level.
  - intros xp xp' Hle. rewrite !calculateLevel_rank.
    destruct (Z.ltb_spec xp 100), (Z.ltb_spec xp' 100),
      (Z.ltb_spec xp 500), (Z.ltb_spec xp' 500),
      (Z.ltb_spec xp 1500), (Z.ltb_spec xp' 1500); lia.
Qed.

End Experience.

(* ===================================================================== *)
(** * Practice, submissions and learning aids *)
(* ===================================================================== *)

Section Practising.
Import Practice.

Lemma practice_run_cons (ev : Event) (events : list Event) (s : State) :
  run (ev :: events) s
  = (fst (run events (fst (handle ev s))),
     (snd (handle ev s) ++ snd (run events (fst (handle ev s))))%list).
Proof.
  cbn [run]. destruct (handle ev s) as [s1 e1]. cbn [fst snd].
  destruct (run events s1); reflexivity.
Qed.

Lemma requests_app (a b : list Effect) :
  requests (a ++ b) = (requests a ++ requests b)%list.
Proof.
  induction a as [|e a IH]; [done|]. destruct e; cbn [requests app]; by rewrite ?IH.
Qed.

(** An invariant of the states, together with a property of the requests
    that states with the invariant send, holds along every run. *)
Lemma run_invariant (I : State → Prop) (P : Request → Prop) :
  (∀ ev s, I s → I (fst (handle ev s))) →
  (∀ ev s r, I s → In r (requests (snd (handle ev s))) → P r) →
  ∀ events s, I s →
    I (fst (run events s)) ∧ ∀ r, In r (requests (snd (run events s))) → P r.
Proof.
  intros Hstep Hreq. induction events as [|ev events IH]; intros s Hs.
  - split; [exact Hs|]. intros r [].
  - rewrite practice_run_cons. cbn [fst snd].
    destruct (IH (fst (handle ev s)) (Hstep ev s Hs)) as [HI HP].
    split; [exact HI|]. intros r. rewrite requests_app, in_app_iff.
    intros [H|H]; [exact (Hreq ev s r Hs H)|by apply HP].
Qed.

Lemma selection_inv_ext (s s' : State) :
  selection s' = selection s → selection_inv s → selection_inv s'.
Proof.
  unfold selection, selection_inv. intros [= H1 H2 H3]. by rewrite H1, H2, H3.
Qed.

(** Only the two selects write the cells of the selection. *)
Lemma handle_selection (ev : Event) (s : State) :
  match ev with
  | SubjectChosen _ | ChapterChosen _ => True
  | _ => selection (fst (handle ev s)) = selection s
  end.
Proof.
  destruct ev as [v|v| |c res|c res|a|res|t|t c res]; cbn [handle]; try exact I.
  - unfold handleGetPracticeProblem_begin. repeat case_match; reflexivity.
  - unfold cs_question_settle. case_match; reflexivity.
  - unfold math_problem_settle. case_match; reflexivity.
  - unfold handleCSSubmit_begin. repeat case_match; reflexivity.
  - unfold handleCSSubmit_settle. case_match; reflexivity.
  - unfold handleGetLearningAid_begin. case_match; reflexivity.
  - unfold handleGetLearningAid_settle. case_match; reflexivity.
Qed.

Lemma offered_In (value : string) (s : State) :
  offered value s = true → In (mkChapter value) (availableChapters s).
Proof.
  unfold offered. intros [_ H]%andb_prop.
  apply existsb_exists in H as ([n] & Hin & Heq). cbn [name] in Heq.
  apply String.eqb_eq in Heq. by subst.
Qed.

Lemma selection_inv_handle (ev : Event) (s : State) :
  selection_inv s → selection_inv (fst (handle ev s)).
Proof.
  intros Hs. pose proof (handle_selection ev s) as Hf.
  destruct ev as [v|v| |c res|c res|a|res|t|t c res];
    try (by eapply selection_inv_ext).
  - cbn [handle fst]. unfold onSubjectChange.
    destruct (String.eqb v (selectedSubjectName s)); [exact Hs|].
    unfold subjectEffect. cbn [selectedSubjectName setSelectedSubjectName].
    destruct (String.eqb_spec v "") as [->|Hv]; cbn [negb]; split; try (by left);
      reflexivity.
  - cbn [handle fst]. unfold onChapterChange.
    destruct (offered v s) eqn:Ho; [|exact Hs].
    destruct Hs as [Ha _]. split; [exact Ha|]. right. by apply offered_In.
Qed.

Lemma handle_for_subject (ev : Event) (s : State) (r : Request) :
  selection_inv s → In r (requests (snd (handle ev s))) → for_subject r.
Proof.
  intros [Ha Hc].
  destruct ev as [v|v| |c res|c res|a|res|t|t c res]; cbn [handle snd requests In];
    try done.
  - unfold handleGetPracticeProblem_begin.
    destruct (String.eqb_spec (selectedSubjectName s) "Computer Science") as [Hcs|_].
    { destruct (String.eqb_spec (selectedChapterName s) "") as [|Hne];
        cbn [snd requests In]; [done|].
      intros [<-|[]]. cbn [for_subject]. rewrite <- Hcs, <- Ha. by destruct Hc. }
    destruct (String.eqb_spec (selectedSubjectName s) "Mathematics") as [Hm|_].
    { destruct (String.eqb_spec (selectedChapterName s) "") as [|Hne];
        cbn [snd requests In]; [done|].
      intros [<-|[]]. cbn [for_subject]. rewrite <- Hm, <- Ha. by destruct Hc. }
    by destruct (String.eqb (selectedSubjectName s) "").
  - unfold cs_question_settle. by case_match.
  - unfold math_problem_settle. case_match; cbn [snd requests]; [|done].
    by case_match.
  - unfold handleCSSubmit_begin. repeat case_match; cbn [snd requests In]; try done.
    by intros [<-|[]].
  - unfold handleCSSubmit_settle. by case_match.
  - unfold handleGetLearningAid_begin.
    destruct (String.eqb_spec (selectedChapterName s) "") as [|Hne];
      cbn [orb snd requests In]; [done|].
    destruct (String.eqb_spec (selectedSubjectName s) "Computer Science") as [Hcs|_];
      cbn [negb snd requests In]; [|done].
    intros [<-|[]]. cbn [for_subject]. rewrite <- Hcs, <- Ha. by destruct Hc.
  - unfold handleGetLearningAid_settle. by case_match.
Qed.

(** X16. Over every sequence of events of the practice panel, a request for
    a computer-science question or a learning aid names a chapter of
    Computer Science, and a request for a practice problem names a topic of
    Mathematics: changing the subject resets the chapter, so a chapter
    chosen under one subject is never sent for the other. *)
Theorem practice_requests_match_subject (events : list Event) (r : Request) :
  In r (requests (snd (run events initial))) → for_subject r.
Proof.
  assert (selection_inv initial) as Hi by (split; [reflexivity|by left]).
  destruct (run_invariant selection_inv for_subject selection_inv_handle
              handle_for_subject events initial Hi) as [_ H].
  apply H.
Qed.

Lemma practice_requests_match_subject_witness :
  In (mkChapter "Logarithms") (chapters_of "Mathematics").
Proof.
  apply (practice_requests_match_subject
           [SubjectChosen "Computer Science";
            ChapterChosen "Algorithms (Sorting, Searching, Recursion)";
            SubjectChosen "Mathematics"; PracticeClicked;
            ChapterChosen "Logarithms"; PracticeClicked]
           (generate_practice_problem "Logarithms")).
  vm_compute. left. reflexivity.
Defined.

(** The validation of a question. *)
Lemma cs_question_try_well_formed (res : FetchResult) (q : JsValue) :
  cs_question_try res = Normal q →
  well_formed_question q
  ∧ ∃ r, res = Resolved r ∧ ok r = true ∧ json r = Normal q.
Proof.
  unfold cs_question_try, mbind, Completion_bind, bind.
  destruct res as [e|r]; cbn [await]; [discriminate|].
  destruct (ok r) eqn:Hok; cbn [negb].
  2:{ destruct (getProp _ "detail"); discriminate. }
  destruct (json r) as [question|] eqn:Hj; [|discriminate].
  destruct (ToBoolean question) eqn:Hq; cbn [negb]; [|discriminate].
  pose proof (truthy_non_null _ Hq) as Hn.
  rewrite (getProp_prop question "id" Hn).
  destruct (ToBoolean (prop question "id")) eqn:Hid; cbn [negb]; [|discriminate].
  rewrite (getProp_prop question "question_type" Hn).
  destruct (ToBoolean (prop question "question_type")) eqn:Hty; cbn [negb];
    [|discriminate].
  rewrite (getProp_prop question "question_text" Hn).
  destruct (ToBoolean (prop question "question_text")) eqn:Htx; cbn [negb];
    [|discriminate].
  intros [= <-]. split; [done|]. eauto.
Qed.

Lemma question_inv_handle (ev : Event) (s : State) :
  question_inv s → question_inv (fst (handle ev s)).
Proof.
  intros Hs.
  destruct ev as [v|v| |c res|c res|a|res|t|t c res]; cbn [handle].
  - unfold onSubjectChange, subjectEffect. by repeat case_match.
  - unfold onChapterChange. by case_match.
  - unfold handleGetPracticeProblem_begin. repeat case_match; by left.
  - unfold cs_question_settle.
    destruct (cs_question_try res) as [q|e] eqn:Ht; [|by left].
    right. by apply cs_question_try_well_formed in Ht as [? _].
  - unfold math_problem_settle. by case_match.
  - unfold handleCSSubmit_begin. by repeat case_match.
  - unfold handleCSSubmit_settle. by case_match.
  - unfold handleGetLearningAid_begin. by case_match.
  - unfold handleGetLearningAid_settle. by case_match.
Qed.

Lemma submission_fields (q : JsValue) (a : string) :
  prop (submission q a) "question_id" = prop q "id"
  ∧ prop (submission q a) "question_type" = prop q "question_type"
  ∧ prop (submission q a) "question_text" = prop q "question_text"
  ∧ prop (submission q a) "answer" = JStr a.
Proof. unfold submission, prop. cbn. done. Qed.

Lemma handle_submission (ev : Event) (s : State) (r : Request) :
  question_inv s → In r (requests (snd (handle ev s))) → well_formed_submission r.
Proof.
  intros Hs.
  destruct ev as [v|v| |c res|c res|a|res|t|t c res]; cbn [handle snd requests In];
    try done.
  - unfold handleGetPracticeProblem_begin.
    repeat case_match; cbn [snd requests In]; try done; by intros [<-|[]].
  - unfold cs_question_settle. by case_match.
  - unfold math_problem_settle. case_match; cbn [snd requests]; [|done].
    by case_match.
  - unfold handleCSSubmit_begin.
    destruct (ToBoolean (currentCSQuestion s)) eqn:Hq; cbn [negb snd requests In];
      [|done].
    destruct Hs as [Hnull|(_ & Hid & Hty & Htx)]; [by rewrite Hnull in Hq|].
    pose proof (truthy_non_null _ Hq) as Hn.
    rewrite (getProp_prop _ "question_text" Hn).
    destruct (prop (currentCSQuestion s) "question_text") as [| | | |text| |] eqn:Ht;
      cbn [snd requests In]; try done.
    intros [<-|[]]. cbn [well_formed_submission].
    destruct (submission_fields (currentCSQuestion s) a) as (-> & -> & -> & ->).
    split; [done|]. split; [done|]. split; [|eauto].
    exists text. split; [done|]. intros ->. discriminate Htx.
  - unfold handleCSSubmit_settle. by case_match.
  - unfold handleGetLearningAid_begin. case_match; cbn [snd requests In]; [done|].
    by intros [<-|[]].
  - unfold handleGetLearningAid_settle. by case_match.
Qed.

(** X17. Over every sequence of events of the practice panel, a submitted
    answer goes out together with a question the server sent: its id and
    type are truthy and its text is a string that is not empty.  (A question
    whose text is not a string passes the validation but is never
    submitted.) *)
Theorem submissions_name_a_question (events : list Event) (payload : JsValue) :
  In (cs_submit payload) (requests (snd (run events initial))) →
  ToBoolean (prop payload "question_id") = true
  ∧ ToBoolean (prop payload "question_type") = true
  ∧ (∃ text, prop payload "question_text" = JStr text ∧ text ≠ "")
  ∧ (∃ answer, prop payload "answer" = JStr answer).
Proof.
  assert (question_inv initial) as Hi by (by left).
  destruct (run_invariant question_inv well_formed_submission question_inv_handle
              handle_submission events initial Hi) as [_ H].
  exact (H (cs_submit payload)).
Qed.

Lemma submissions_name_a_question_witness :
  let q := JObj [("id", JStr "q7"); ("chapter", JStr "Algorithms");
                 ("question_type", JStr "mcq");
                 ("question_text", JStr "Which sort is stable?");
                 ("options", JArr [JObj [("id", JStr "a"); ("text", JStr "Merge sort")];
                                   JObj [("id", JStr "b"); ("text", JStr "Heap sort")]])] in
  let payload := submission q "a" in
  ToBoolean (prop payload "question_id") = true
  ∧ ToBoolean (prop payload "question_type") = true
  ∧ (∃ text, prop payload "question_text" = JStr text ∧ text ≠ "")
  ∧ (∃ answer, prop payload "answer" = JStr answer).
Proof.
  cbv zeta.
  apply (submissions_name_a_question
           [SubjectChosen "Computer Science";
            ChapterChosen "Algorithms (Sorting, Searching, Recursion)";
            PracticeClicked;
            CSQuestionArrived "Algorithms (Sorting, Searching, Recursion)"
              (Resolved
                 (mkResponse 200
                    (Normal
                       (JObj [("id", JStr "q7"); ("chapter", JStr "Algorithms");
                              ("question_type", JStr "mcq");
                              ("question_text", JStr "Which sort is stable?");
                              ("options",
                               JArr [JObj [("id", JStr "a"); ("text", JStr "Merge sort")];
                                     JObj [("id", JStr "b"); ("text", JStr "Heap sort")]])]))));
            AnswerSubmitted "a"]).
  vm_compute. right. left. reflexivity.
Defined.

Lemma handleCSSubmit_try_well_formed (res : FetchResult) (f : JsValue) :
  handleCSSubmit_try res = Normal f →
  well_formed_feedback f
  ∧ ∃ r, res = Resolved r ∧ ok r = true ∧ json r = Normal f.
Proof.
  unfold handleCSSubmit_try, mbind, Completion_bind, bind.
  destruct res as [e|r]; cbn [await]; [discriminate|].
  destruct (ok r) eqn:Hok; cbn [negb].
  2:{ destruct (getProp _ "detail"); discriminate. }
  destruct (json r) as [feedback|] eqn:Hj; [|discriminate].
  destruct (ToBoolean feedback) eqn:Hf; cbn [negb]; [|discriminate].
  pose proof (truthy_non_null _ Hf) as Hn.
  rewrite (getProp_prop feedback "correct" Hn).
  destruct (is_undefined (prop feedback "correct")) eqn:Hc; [discriminate|].
  rewrite (getProp_prop feedback "explanation" Hn).
  destruct (ToBoolean (prop feedback "explanation")) eqn:He; cbn [negb];
    [|discriminate].
  intros [= <-]. split; [|eauto]. split; [done|]. split; [|done].
  intros Hu. by rewrite Hu in Hc.
Qed.

(** X18. Whatever the response to a submission is, the feedback that ends
    up in the panel can be displayed (it has a verdict and an explanation
    that is not empty) and the submitting flag is lowered.  A verdict of
    correct is shown only when the server said so: it comes from a
    response with a success status whose body is that very feedback; every
    failure yields the verdict false. *)
Theorem submission_feedback (res : FetchResult) (s : State) :
  let s' := fst (handleCSSubmit_settle res s) in
  let f := csSubmissionFeedback s' in
  well_formed_feedback f
  ∧ isSubmittingCS s' = false
  ∧ ((∃ r, res = Resolved r ∧ ok r = true ∧ json r = Normal f)
     ∨ prop f "correct" = JBool false).
Proof.
  cbv zeta. unfold handleCSSubmit_settle.
  destruct (handleCSSubmit_try res) as [f|e] eqn:Ht; cbn [fst].
  - apply handleCSSubmit_try_well_formed in Ht as [Hw Hr].
    split; [exact Hw|]. split; [reflexivity|]. by left.
  - cbn [csSubmissionFeedback setIsSubmittingCS setCSSubmissionFeedback isSubmittingCS].
    split; [|split; [reflexivity|by right]].
    split; [reflexivity|]. split; [discriminate|]. reflexivity.
Qed.

Lemma handleGetLearningAid_try_well_formed (res : FetchResult) (d : JsValue) :
  handleGetLearningAid_try res = Normal d → well_formed_aid d.
Proof.
  unfold handleGetLearningAid_try, mbind, Completion_bind, bind.
  destruct res as [e|r]; cbn [await]; [discriminate|].
  destruct (json r) as [data|] eqn:Hj; [|discriminate].
  destruct (ok r) eqn:Hok; cbn [negb].
  2:{ destruct (getProp data "detail") as [detail|]; [|discriminate].
      unfold or_elseM. destruct (ToBoolean detail); [discriminate|].
      destruct (getProp data "error"); discriminate. }
  destruct (ToBoolean data) eqn:Hd; cbn [negb]; [|discriminate].
  pose proof (truthy_non_null _ Hd) as Hn.
  rewrite (getProp_prop data "aid_type" Hn), (getProp_prop data "chapter" Hn),
    (getProp_prop data "flashcards" Hn), (getProp_prop data "summary_text" Hn),
    (getProp_prop data "key_points" Hn).
  destruct (ToBoolean (prop data "aid_type")) eqn:Ha; cbn [negb orb]; [|discriminate].
  destruct (ToBoolean (prop data "chapter")) eqn:Hc; cbn [negb]; [|discriminate].
  destruct (is_string (prop data "aid_type") "flashcards"
            && negb (ToBoolean (prop data "flashcards"))) eqn:H1; [discriminate|].
  destruct (is_string (prop data "aid_type") "summary"
            && negb (is_JStr (prop data "summary_text"))) eqn:H2; [discriminate|].
  destruct (is_string (prop data "aid_type") "key_points"
            && negb (ToBoolean (prop data "key_points"))) eqn:H3; [discriminate|].
  intros [= <-]. split; [done|]. split; [done|].
  split; [|split].
  - intros Ht. rewrite Ht in H1. cbn in H1. by apply negb_false_iff in H1.
  - intros Ht. rewrite Ht in H2. cbn in H2. apply negb_false_iff in H2.
    destruct (prop data "summary_text"); try discriminate. eauto.
  - intros Ht. rewrite Ht in H3. cbn in H3. by apply negb_false_iff in H3.
Qed.

Lemma aid_inv_handle (ev : Event) (s : State) :
  aid_inv s → aid_inv (fst (handle ev s)).
Proof.
  intros Hs.
  destruct ev as [v|v| |c res|c res|a|res|t|t c res]; cbn [handle].
  - unfold onSubjectChange, subjectEffect. by repeat case_match.
  - unfold onChapterChange. by case_match.
  - unfold handleGetPracticeProblem_begin. by repeat case_match.
  - unfold cs_question_settle. by case_match.
  - unfold math_problem_settle. by case_match.
  - unfold handleCSSubmit_begin. by repeat case_match.
  - unfold handleCSSubmit_settle. by case_match.
  - unfold handleGetLearningAid_begin. case_match; [done|by left].
  - unfold handleGetLearningAid_settle.
    destruct (handleGetLearningAid_try res) as [d|e] eqn:Ht; [|by left].
    right. by apply handleGetLearningAid_try_well_formed in Ht.
Qed.

(** X19. Over every sequence of events of the practice panel, the learning
    aid on display is either none or one that passed validation: it names
    its type and its chapter, and it has the content its own type calls
    for (cards for flashcards, a text that is a string for a summary,
    points for key points). *)
Theorem learning_aid_validated (events : list Event) :
  let aid := currentLearningAid (fst (run events initial)) in
  aid = JNull ∨ well_formed_aid aid.
Proof.
  cbv zeta. assert (aid_inv initial) as Hi by (by left).
  destruct (run_invariant aid_inv (λ _, True) aid_inv_handle (λ _ _ _ _ _, I)
              events initial Hi) as [H _].
  exact H.
Qed.

End Practising.


(* ===================================================================== *)
(** * The chat page *)
(* ===================================================================== *)

Section Chatting.
Import Chat.

Lemma chat_run_cons (ev : Event) (events : list Event) (s : State) :
  run (ev :: events) s
  = (fst (run events (fst (handle ev s))),
     (snd (handle ev s) ++ snd (run events (fst (handle ev s))))%list).
Proof.
  cbn [run]. destruct (handle ev s) as [s1 e1]. cbn [fst snd].
  destruct (run events s1); reflexivity.
Qed.

Lemma chat_requests_app (a b : list Effect) :
  requests (a ++ b) = (requests a ++ requests b)%list.
Proof.
  induction a as [|e a IH]; [done|]. destruct e; cbn [requests app]; by rewrite ?IH.
Qed.

Lemma failed_appends (err : JsError) (at_ : Stamp) (s : State) :
  ∃ m, messages (fst (failed err at_ s)) = (messages s ++ [m])%list
       ∧ sender m = ai ∧ ToBoolean (text m) = true
       ∧ isLoadingResponse (fst (failed err at_ s)) = false
       ∧ requests (snd (failed err at_ s)) = [].
Proof. unfold failed. eexists. cbn. repeat split; reflexivity. Qed.

(** Step 2 appends nothing unless the message cannot be trimmed. *)
Lemma sendToChat_messages (v : JsValue) (p : Pending) (at_ : Stamp) (s : State) :
  ∃ added, messages (fst (sendToChat v p at_ s)) = (messages s ++ added)%list
           ∧ (length added ≤ 1)%nat.
Proof.
  unfold sendToChat. destruct (call_trim v) as [t|err].
  - exists []. rewrite app_nil_r. split; [|cbn; lia]. by repeat case_match.
  - destruct (failed_appends err at_ s) as (m & Hm & _). exists [m]. by split.
Qed.

Lemma sendToChat_string (t : string) (p : Pending) (at_ : Stamp) (s : State) :
  messages (fst (sendToChat (JStr t) p at_ s)) = messages s.
Proof. unfold sendToChat. cbn [call_trim]. by repeat case_match. Qed.

(** Every event leaves the messages as they are or appends one. *)
Lemma handle_messages (ev : Event) (s : State) :
  ∃ added, messages (fst (handle ev s)) = (messages s ++ added)%list
           ∧ (length added ≤ 1)%nat.
Proof.
  destruct ev as [v|f|r| |t|at_|p at_ res|at_ res]; cbn [handle fst].
  - exists []. rewrite app_nil_r. split; [reflexivity|cbn; lia].
  - exists []. rewrite app_nil_r. unfold onImageChange.
    split; [by destruct f|cbn; lia].
  - exists []. rewrite app_nil_r. split; [reflexivity|cbn; lia].
  - exists []. rewrite app_nil_r. split; [reflexivity|cbn; lia].
  - exists []. rewrite app_nil_r. split; [reflexivity|cbn; lia].
  - unfold handleSendMessage_begin.
    destruct (String.eqb (trim (currentMessage s)) ""
              && negb (bool_decide (is_Some (selectedImageFile s)))).
    { exists []. rewrite app_nil_r. split; [reflexivity|cbn; lia]. }
    match goal with
    | |- context [sendToChat ?v ?p ?a ?s1] =>
        pose proof (sendToChat_string (trim (currentMessage s)) p a s1) as Hs;
        destruct (sendToChat v p a s1) as [s2 effects]
    end.
    cbn [fst] in Hs.
    eexists [_]. split; [|cbn; lia].
    destruct (selectedImageFile s) as [file|];
      [destruct (shown (imagePreviewForMessage s))|]; cbn [fst];
      [reflexivity|exact Hs|exact Hs].
  - unfold ocr_settle. destruct (ocr_try p res) as [v|err].
    + destruct (sendToChat_messages v p at_ s) as (added & Ha & Hl).
      destruct (sendToChat v p at_ s) as [s1 effects]. by exists added.
    + destruct (failed_appends err at_ s) as (m & Hm & _). exists [m]. by split.
  - unfold chat_settle. destruct (chat_try res) as [reply|err].
    + eexists [_]. split; [reflexivity|cbn; lia].
    + destruct (failed_appends err at_ s) as (m & Hm & _). exists [m]. by split.
Qed.

(** X20. The transcript of the chat only grows: over every sequence of
    events, the messages at the start are a prefix of the messages at the
    end, and each event adds at most one message.  The arrival of a chat
    response always adds exactly one message, from the assistant, with a
    text that is not empty (the answer, the fallback text, or the error),
    lowers the loading flag and sends nothing. *)
Theorem chat_transcript_grows (events : list Event) (s : State) :
  (∃ added, messages (fst (run events s)) = (messages s ++ added)%list
            ∧ (length added ≤ length events)%nat)
  ∧ (∀ at_ res,
       ∃ m, messages (fst (chat_settle at_ res s)) = (messages s ++ [m])%list
            ∧ sender m = ai ∧ ToBoolean (text m) = true
            ∧ isLoadingResponse (fst (chat_settle at_ res s)) = false
            ∧ requests (snd (chat_settle at_ res s)) = []).
Proof.
  split.
  - revert s. induction events as [|ev events IH]; intros s.
    + exists []. rewrite app_nil_r. split; [reflexivity|cbn; lia].
    + rewrite chat_run_cons. cbn [fst].
      destruct (handle_messages ev s) as (a1 & H1 & L1).
      destruct (IH (fst (handle ev s))) as (a2 & H2 & L2).
      exists (a1 ++ a2)%list. rewrite H2, H1, app_assoc, length_app. split; [done|].
      cbn [length]. lia.
  - intros at_ res. unfold chat_settle.
    destruct (chat_try res) as [reply|err] eqn:Ht; [|apply failed_appends].
    eexists. cbn [fst snd messages setMessages setIsLoadingResponse isLoadingResponse
                  requests].
    split; [reflexivity|]. cbn [sender text]. split; [reflexivity|].
    split; [|done].
    revert Ht. unfold chat_try, mbind, Completion_bind, bind.
    destruct res as [e|r]; cbn [await]; [discriminate|].
    destruct (negb (ok r)).
    { destruct (getProp _ "detail"); discriminate. }
    destruct (json r) as [data|]; [|discriminate].
    destruct (getProp data "answer") as [answer|]; [|discriminate].
    intros [= <-]. unfold or_else. by destruct (ToBoolean answer) eqn:Ha.
Qed.

Lemma slice_last_length {A : Type} (n : nat) (l : list A) :
  (length (slice_last n l) ≤ n)%nat.
Proof. unfold slice_last. rewrite length_skipn. lia. Qed.

Lemma sendToChat_requests (v : JsValue) (p : Pending) (at_ : Stamp) (s : State)
  (r : Request) :
  In r (requests (snd (sendToChat v p at_ s))) →
  ∃ q, r = chat q (historyToSend p) ∧ q ≠ "".
Proof.
  unfold sendToChat. destruct (call_trim v) as [t|err]; [|done].
  destruct (String.eqb_spec t "") as [->|Ht]; cbn [negb].
  - destruct (shown (preview p)); cbn [String.eqb andb negb snd requests In]; [|done].
    intros [<-|[]]. eauto.
  - destruct (String.eqb_spec t "") as [|_]; [done|]. cbn [andb snd requests In].
    intros [<-|[]]. eauto.
Qed.

Lemma handle_chat_requests (ev : Event) (s : State) (q : string)
  (h : list (Sender * JsValue)) :
  In (chat q h) (requests (snd (handle ev s))) → q ≠ "" ∧ (length h ≤ 6)%nat.
Proof.
  assert (∀ v p at_ s0, In (chat q h) (requests (snd (sendToChat v p at_ s0))) →
                        q ≠ "" ∧ (length h ≤ 6)%nat) as Hsend.
  { intros v p at_ s0 Hin.
    apply sendToChat_requests in Hin as (q' & [= -> ->] & Hq). split; [done|].
    unfold historyToSend. rewrite length_map. apply slice_last_length. }
  destruct ev as [v|f|r| |t|at_|p at_ res|at_ res]; cbn [handle snd requests In];
    try done.
  - unfold onImageChange. by destruct f.
  - unfold handleSendMessage_begin.
    destruct (String.eqb (trim (currentMessage s)) ""
              && negb (bool_decide (is_Some (selectedImageFile s)))); [done|].
    match goal with
    | |- context [sendToChat ?v ?p ?a ?s1] =>
        pose proof (Hsend v p a s1) as Hs;
        destruct (sendToChat v p a s1) as [s2 effects]
    end.
    cbn [snd] in Hs.
    destruct (selectedImageFile s) as [file|];
      [destruct (shown (imagePreviewForMessage s))|]; cbn [snd requests In];
      [by intros [|[]]|exact Hs|exact Hs].
  - unfold ocr_settle. destruct (ocr_try p res) as [v|err].
    + pose proof (Hsend v p at_ s) as Hs.
      destruct (sendToChat v p at_ s) as [s1 effects]. exact Hs.
    + destruct (failed_appends err at_ s) as (m & _ & _ & _ & _ & ->). done.
  - unfold chat_settle. destruct (chat_try res) as [reply|err]; [done|].
    destruct (failed_appends err at_ s) as (m & _ & _ & _ & _ & ->). done.
Qed.

(** X21. Every chat request that is ever sent carries a question that is
    not empty and a history of at most six messages. *)
Theorem chat_requests_bounded (events : list Event) (s : State) (q : string)
  (h : list (Sender * JsValue)) :
  In (chat q h) (requests (snd (run events s))) →
  q ≠ "" ∧ (length h ≤ 6)%nat.
Proof.
  revert s. induction events as [|ev events IH]; intros s; [done|].
  rewrite chat_run_cons. cbn [snd]. rewrite chat_requests_app, in_app_iff.
  intros [H|H]; [by eapply handle_chat_requests|by eapply IH].
Qed.

Lemma chat_requests_bounded_witness :
  "What is 2 + 2?" ≠ "" ∧ (length ([] : list (Sender * JsValue)) ≤ 6)%nat.
Proof.
  apply (chat_requests_bounded
           [MessageTyped "  What is 2 + 2? "; SendClicked (mkStamp 1700000000000 "k3j9x0q2a" 0)]
           initial "What is 2 + 2?" []).
  vm_compute. left. reflexivity.
Defined.

(** X22. Sending while the preview of the chosen image is still being read:
    with no text typed, a file chosen and no preview yet, the submit adds a
    user message without text and without image, uploads nothing, asks
    nothing, drops the file and lowers the loading flag. *)
Theorem send_before_preview (at_ : Stamp) (s : State) (file : File) :
  blank (currentMessage s) = true →
  selectedImageFile s = Some file →
  shown (imagePreviewForMessage s) = false →
  let out := handleSendMessage_begin at_ s in
  requests (snd out) = []
  ∧ isLoadingResponse (fst out) = false
  ∧ selectedImageFile (fst out) = None
  ∧ ∃ m, messages (fst out) = (messages s ++ [m])%list
         ∧ sender m = user ∧ text m = JStr "" ∧ imagePreviewUrl m = imagePreviewForMessage s.
Proof.
  intros Hb Hf Hp. cbv zeta. unfold handleSendMessage_begin.
  apply trim_empty in Hb. rewrite Hb, Hf.
  replace (bool_decide (is_Some (Some file))) with true
    by (symmetry; apply bool_decide_eq_true; eauto).
  cbn [String.eqb andb negb]. rewrite Hp.
  unfold sendToChat. cbn [call_trim trim trimStart trimEnd String.eqb negb preview].
  rewrite Hp. cbn [String.eqb andb negb fst snd requests].
  split; [reflexivity|]. split; [reflexivity|]. split; [reflexivity|].
  eexists. split; [reflexivity|]. done.
Qed.

Lemma send_before_preview_witness :
  let s := setSelectedImageFile (Some (mkFile "sum.png" "image/png" 2048)) initial in
  let out := handleSendMessage_begin (mkStamp 1700000000000 "k3j9x0q2a" 0) s in
  requests (snd out) = [] ∧ isLoadingResponse (fst out) = false
  ∧ selectedImageFile (fst out) = None.
Proof.
  cbv zeta.
  destruct (send_before_preview (mkStamp 1700000000000 "k3j9x0q2a" 0)
              (setSelectedImageFile (Some (mkFile "sum.png" "image/png" 2048)) initial)
              (mkFile "sum.png" "image/png" 2048) eq_refl eq_refl eq_refl)
    as (H1 & H2 & H3 & _).
  split; [exact H1|]. split; [exact H2|exact H3].
Defined.

End Chatting.


(* ===================================================================== *)
(** * The camera *)
(* ===================================================================== *)

Section Capturing.
Import Camera.

Lemma camera_run_cons (ev : Event) (events : list Event) (p : Screen) :
  run (ev :: events) p
  = (fst (run events (fst (handle ev p))),
     (snd (handle ev p) ++ snd (run events (fst (handle ev p))))%list).
Proof.
  cbn [run]. destruct (handle ev p) as [p1 e1]. cbn [fst snd].
  destruct (run events p1); reflexivity.
Qed.

Lemma browser_requests_app (a b : list Effect) :
  requests (a ++ b) = (requests a ++ requests b)%list.
Proof.
  induction a as [|e a IH]; [done|]. destruct e; cbn [requests app]; by rewrite ?IH.
Qed.

Lemma camera_handle_solved (ev : Event) (p : Screen) :
  solved (snd (fst (handle ev p))) = solved (snd p)
  ∧ ∀ r, In r (requests (snd (handle ev p))) → is_upload r.
Proof.
  destruct p as [c s].
  destruct ev as [|m video| |refs context|blob now|res]; cbn [handle fst snd].
  - split; [reflexivity|done].
  - destruct (startCamera_settle m video c) as [c' effects] eqn:Hs. cbn [fst snd].
    split; [reflexivity|]. revert Hs. unfold startCamera_settle.
    destruct m as [|name]; [destruct video|]; intros [= <- <-]; done.
  - split; [reflexivity|done].
  - split; [|done]. unfold captureFrameAndRecognize.
    by repeat case_match.
  - unfold onBlob. destruct blob as [size|]; cbn [fst snd requests In].
    + split; [reflexivity|]. by intros r [<-|[]].
    + split; [reflexivity|done].
  - unfold capture_settle. destruct (capture_try res); cbn [fst snd requests In];
      (split; [reflexivity|done]).
Qed.

(** Every response that is not a success, and every failure to receive
    one, throws. *)
Lemma capture_try_failure (res : FetchResult) :
  (∀ r, res = Resolved r → ok r = false) → ∃ err, capture_try res = Throw err.
Proof.
  intros Hr. unfold capture_try, mbind, Completion_bind, bind.
  destruct res as [e|r]; cbn [await]; [eauto|].
  rewrite (Hr r eq_refl). cbn [negb].
  destruct (json r) as [data|]; [|eauto].
  destruct (getProp data "detail") as [detail|]; [|eauto].
  unfold or_elseM. destruct (ToBoolean detail); [eauto|].
  destruct (getProp data "error"); eauto.
Qed.

(** A success whose body reports success with a text yields that text, or
    the empty text in place of a falsy one. *)
Lemma capture_try_success (r : Response) (data : JsValue) :
  ok r = true → json r = Normal data →
  prop data "status" = JStr "success" →
  prop data "extracted_text" ≠ JUndefined →
  capture_try (Resolved r) = Normal (or_else (prop data "extracted_text") (JStr "")).
Proof.
  intros Hok Hj Hs Ht.
  assert (non_null data) as Hn.
  { revert Hs. unfold prop. destruct data; cbn; try discriminate; split; discriminate. }
  unfold capture_try, mbind, Completion_bind, bind. cbn [await].
  rewrite Hj, Hok. cbn [negb].
  rewrite (getProp_prop data "status" Hn), (getProp_prop data "extracted_text" Hn), Hs.
  destruct (prop data "extracted_text"); try reflexivity. done.
Qed.

(** X23. Taking the problem from the camera replaces the problem text and
    nothing else of the problem: over every sequence of camera events the
    solution, the step explanations and the solver error stay as they
    were, and nothing but image uploads is requested.  When the response to
    a capture has arrived the problem text is the extracted text if the
    extraction succeeded and empty if it failed: it is empty after a
    network failure and after every response with a failure status, and it
    is the [extracted_text] of a success response that reports success (the
    empty text in place of a falsy one); in no case does it depend on what
    was typed before.  (So a solution of the previous problem stays on
    display next to the captured text; the extraction from a file clears
    it.) *)
Theorem capture_keeps_solution (events : list Event) (c : Cells)
  (s : TutorComponent.State) :
  let out := run events (c, s) in
  let input (res : FetchResult) (s0 : TutorComponent.State) :=
    TutorComponent.problemInput (snd (fst (capture_settle res (c, s0)))) in
  solved (snd (fst out)) = solved s
  ∧ (∀ r, In r (requests (snd out)) → is_upload r)
  ∧ (∀ res err, capture_try res = Throw err → input res s = JStr "")
  ∧ (∀ res text, capture_try res = Normal text → input res s = text)
  ∧ (∀ err, input (Rejected err) s = JStr "")
  ∧ (∀ r, ok r = false → input (Resolved r) s = JStr "")
  ∧ (∀ r data,
       ok r = true → json r = Normal data →
       prop data "status" = JStr "success" →
       prop data "extracted_text" ≠ JUndefined →
       input (Resolved r) s = or_else (prop data "extracted_text") (JStr ""))
  ∧ (∀ res typed, input res (TutorComponent.setProblemInput typed s) = input res s)
  ∧ (∀ file, TutorComponent.selectedFile s = Some file →
       TutorComponent.solution (fst (TutorComponent.extractQuestion_begin s)) = JNull).
Proof.
  cbv zeta. split; [|split].
  { revert c s. induction events as [|ev events IH]; intros c s; [reflexivity|].
    rewrite camera_run_cons. cbn [fst].
    destruct (handle ev (c, s)) as [[c1 s1] e1] eqn:Hh. cbn [fst].
    rewrite IH. pose proof (camera_handle_solved ev (c, s)) as [H _].
    by rewrite Hh in H. }
  { revert c s. induction events as [|ev events IH]; intros c s r; [done|].
    rewrite camera_run_cons. cbn [snd]. rewrite browser_requests_app, in_app_iff.
    intros [H|H].
    - by apply (camera_handle_solved ev (c, s)).
    - destruct (handle ev (c, s)) as [[c1 s1] e1]. cbn [fst] in H. by eapply IH. }
  assert (∀ res err, capture_try res = Throw err →
            TutorComponent.problemInput (snd (fst (capture_settle res (c, s))))
            = JStr "") as Hfail.
  { intros res err Ht. unfold capture_settle. by rewrite Ht. }
  assert (∀ res text, capture_try res = Normal text →
            TutorComponent.problemInput (snd (fst (capture_settle res (c, s))))
            = text) as Hok.
  { intros res text Ht. unfold capture_settle. by rewrite Ht. }
  split; [|split; [|split; [|split; [|split; [|split]]]]].
  - exact Hfail.
  - exact Hok.
  - intros err. by apply (Hfail _ err).
  - intros r Hr.
    destruct (capture_try_failure (Resolved r)) as [err Ht].
    { by intros ? [= <-]. }
    by apply (Hfail _ err).
  - intros r data H1 H2 H3 H4. apply Hok. by apply capture_try_success.
  - intros res typed. unfold capture_settle. by destruct (capture_try res).
  - intros file Hf. unfold TutorComponent.extractQuestion_begin. by rewrite Hf.
Qed.

End Capturing.


(* ===================================================================== *)
(** * Failure responses whose body cannot be read *)
(* ===================================================================== *)

(** X24. A response with a failure status and a body that is not JSON.  The
    handlers that look at the status first replace the body by their own
    fixed text: the question request, the submission, the two requests of
    the chat.  The handlers that read the body first fail with the error of
    the parser instead, and never get to the status: the practice problem,
    the learning aid, the capture. *)
Theorem unreadable_failure_body (r : Response) (e : JsError) (p : Chat.Pending) :
  ok r = false → json r = Throw e →
  Practice.cs_question_try (Resolved r)
  = Throw (mkError "Failed to fetch CS question. Server error.")
  ∧ Practice.handleCSSubmit_try (Resolved r)
    = Throw (mkError "Failed to process submission. Server error.")
  ∧ Chat.ocr_try p (Resolved r) = Throw (mkError "Failed to process image.")
  ∧ Chat.chat_try (Resolved r)
    = Throw (mkError "Failed to get response from chat API.")
  ∧ Practice.math_problem_try (Resolved r) = Throw e
  ∧ Practice.handleGetLearningAid_try (Resolved r) = Throw e
  ∧ Camera.capture_try (Resolved r) = Throw e.
Proof.
  intros Hok Hj.
  unfold Practice.cs_question_try, Practice.handleCSSubmit_try, Chat.ocr_try,
    Chat.chat_try, Practice.math_problem_try, Practice.handleGetLearningAid_try,
    Camera.capture_try, mbind, Completion_bind, bind.
  cbn [await]. rewrite Hok, Hj. cbn [negb]. repeat split; reflexivity.
Qed.

Lemma unreadable_failure_body_witness :
  Practice.cs_question_try
    (Resolved (mkResponse 502 (Throw (mkError "Unexpected token < in JSON"))))
  = Throw (mkError "Failed to fetch CS question. Server error.")
  ∧ Practice.math_problem_try
      (Resolved (mkResponse 502 (Throw (mkError "Unexpected token < in JSON"))))
    = Throw (mkError "Unexpected token < in JSON").
Proof.
  destruct (unreadable_failure_body
              (mkResponse 502 (Throw (mkError "Unexpected token < in JSON")))
              (mkError "Unexpected token < in JSON")
              (Chat.mkPending "" None []) eq_refl eq_refl)
    as (H1 & _ & _ & _ & H2 & _).
  split; [exact H1|exact H2].
Defined.
